(** * go-switcher: a shallow embedding of [main.go] and its properties

    The program manages Go toolchains installed under a fixed root laid out
    as [<root>/<version>/<architecture>/].  It has four operations:
    [listGoVersions], [downloadGoVersion], [cleanGoVersions] and
    [switchGoVersion].  All of them are straight-line sequences of calls
    into [os], [strings], [strconv], [fmt], [log] and [sh].

    The embedding models those packages on an explicit world (a directory
    tree, the [HOME] variable, the two output streams, the external
    commands that were run and the annotations of the root command) and
    translates the four operations statement by statement into a state
    monad over that world.  A Go function that returns [error] becomes a
    computation that returns [option error], [None] for [nil]; a call
    that returns a value and an error becomes one that returns a
    [result]. *)

From Stdlib Require Import ZArith List String Ascii Bool Lia.
From Stdlib Require Import Numbers.DecimalString Numbers.DecimalPos.
Import ListNotations.

Local Open Scope list_scope.
Local Open Scope string_scope.

(** ** Package [strings] (the functions the program calls) *)

Module strings.

(** [strings.Split(s, sep)] for a one-byte separator, the only way the
    program calls it ([strings.Split(string(profileContent), "\n")]).
    The result is never empty: a string without the separator yields
    the one-element slice holding the string itself. *)
Fixpoint Split (s : string) (sep : ascii) : list string :=
  match s with
  | EmptyString => [EmptyString]
  | String c s' =>
      if Ascii.eqb c sep then EmptyString :: Split s' sep
      else match Split s' sep with
           | [] => [String c EmptyString]
           | l :: ls => String c l :: ls
           end
  end.

(** [strings.HasPrefix(s, prefix)], which [Contains] below tries at every
    position. *)
Fixpoint HasPrefix (s prefix : string) : bool :=
  match prefix, s with
  | EmptyString, _ => true
  | String _ _, EmptyString => false
  | String a prefix', String b s' => Ascii.eqb a b && HasPrefix s' prefix'
  end.

(** [strings.Contains(s, substr)]: [substr] occurs somewhere in [s]. *)
Fixpoint Contains (s substr : string) : bool :=
  HasPrefix s substr
  || match s with
     | EmptyString => false
     | String _ s' => Contains s' substr
     end.

(** [strings.Join(elems, sep)]. *)
Fixpoint Join (elems : list string) (sep : string) : string :=
  match elems with
  | [] => EmptyString
  | [e] => e
  | e :: es => e ++ sep ++ Join es sep
  end.

End strings.

(** ** Package [strconv] and the [%d] verb of [fmt] *)

Module strconv.

Definition digit (c : ascii) : option Z :=
  let n := Z.of_N (N_of_ascii c) in
  if (48 <=? n)%Z && (n <=? 57)%Z then Some (n - 48)%Z else None.

Fixpoint digits (s : string) (acc : Z) : option Z :=
  match s with
  | EmptyString => Some acc
  | String c s' =>
      match digit c with
      | Some d => digits s' (10 * acc + d)%Z
      | None => None
      end
  end.

(** Bounds of Go's [int] on a 64-bit platform. *)
Definition minInt : Z := (- 2 ^ 63)%Z.
Definition maxInt : Z := (2 ^ 63 - 1)%Z.

(** [strconv.Atoi]: an optional sign, then at least one decimal digit and
    nothing else; a value outside [int] is an error as well.  [None]
    stands for [err != nil]. *)
Definition Atoi (s : string) : option Z :=
  match s with
  | EmptyString => None
  | String c s' =>
      let '(neg, body) :=
        if Ascii.eqb c "-" then (true, s')
        else if Ascii.eqb c "+" then (false, s')
        else (false, s) in
      match body with
      | EmptyString => None
      | _ =>
          match digits body 0 with
          | Some n =>
              let v := if neg then (- n)%Z else n in
              if (minInt <=? v)%Z && (v <=? maxInt)%Z then Some v else None
          | None => None
          end
      end
  end.

(** [strconv.Itoa], which is also what [fmt] prints for [%d]. *)
Definition Itoa (n : Z) : string := NilEmpty.string_of_int (Z.to_int n).

End strconv.


(** ** The world the program runs in

    A directory tree stands for the file system.  Symbolic links, owners
    and write permissions are not modelled; a directory carries one flag
    that says whether the process may list it, which is what makes the
    [err != nil] branches after [os.ReadDir] reachable.  All paths are
    resolved from the root of the tree. *)

#[local] Set Warnings "-register-all".

Inductive node : Type :=
| File (content : string)
| Dir (readable : bool) (entries : list (string * node)).

Inductive Errno : Type :=
  ENOENT | ENOTDIR | EISDIR | EACCES | EINVAL | EBUSY | ENOTEMPTY.

(** Go's [*fs.PathError]. *)
Record PathError : Type := mkPathError { Op : string; Path : string; Err : Errno }.

Inductive result (A : Type) : Type :=
| Ok (a : A)
| Failed (e : PathError).
Arguments Ok {A} a.
Arguments Failed {A} e.

Module tree.

Fixpoint assoc (name : string) (es : list (string * node)) : option node :=
  match es with
  | [] => None
  | (k, n) :: es' => if String.eqb k name then Some n else assoc name es'
  end.

Fixpoint set_entry (name : string) (n : node) (es : list (string * node))
  : list (string * node) :=
  match es with
  | [] => [(name, n)]
  | (k, m) :: es' =>
      if String.eqb k name then (name, n) :: es'
      else (k, m) :: set_entry name n es'
  end.

Definition del_entry (name : string) (es : list (string * node))
  : list (string * node) :=
  filter (fun e => negb (String.eqb (fst e) name)) es.

(** The names a path goes through: the pieces between slashes, without
    the empty ones and without ["."], and with [".."] taking back the
    name before it (at the root it stays at the root).  [acc] holds the
    names so far, last one first. *)
Fixpoint clean (pieces : list string) (acc : list string) : list string :=
  match pieces with
  | [] => rev acc
  | c :: pieces' =>
      if String.eqb c "" || String.eqb c "." then clean pieces' acc
      else if String.eqb c ".." then clean pieces' (tl acc)
      else clean pieces' (c :: acc)
  end.

Definition components (path : string) : list string :=
  clean (strings.Split path "/") [].

Fixpoint walk (n : node) (cs : list string) : Errno + node :=
  match cs with
  | [] => inr n
  | c :: cs' =>
      match n with
      | File _ => inl ENOTDIR
      | Dir _ es =>
          match assoc c es with
          | Some n' => walk n' cs'
          | None => inl ENOENT
          end
      end
  end.

(** [update cs f n] replaces what directory [n] holds at the path [cs] by
    [f] of it ([None] is "nothing there"); a path whose parent is not an
    existing directory leaves the tree as it is. *)
Fixpoint update (cs : list string) (f : option node -> option node) (n : node)
  : node :=
  match cs, n with
  | c :: cs', Dir r es =>
      match cs' with
      | [] =>
          Dir r (match f (assoc c es) with
                 | Some m => set_entry c m es
                 | None => del_entry c es
                 end)
      | _ :: _ =>
          match assoc c es with
          | Some ch => Dir r (set_entry c (update cs' f ch) es)
          | None => n
          end
      end
  | _, _ => n
  end.

(** What [os.MkdirAll] does below directory [n]: every missing directory
    on the way is created; a file on the way is [ENOTDIR]. *)
Fixpoint mkdirAll (cs : list string) (n : node) : Errno + node :=
  match n with
  | File _ => inl ENOTDIR
  | Dir r es =>
      match cs with
      | [] => inr n
      | c :: cs' =>
          let child := match assoc c es with
                       | Some ch => ch
                       | None => Dir true []
                       end in
          match mkdirAll cs' child with
          | inr ch' => inr (Dir r (set_entry c ch' es))
          | inl e => inl e
          end
      end
  end.

(** What [os.RemoveAll] leaves of a node: [None] when everything went, the
    remains otherwise.  A non-empty directory that cannot be listed stays
    as it is; everything else that can be removed is removed. *)
Fixpoint removeAll (n : node) : option node :=
  match n with
  | File _ => None
  | Dir r es =>
      match es with
      | [] => None
      | _ :: _ =>
          if r then
            let rest :=
              (fix go (l : list (string * node)) : list (string * node) :=
                 match l with
                 | [] => []
                 | (k, ch) :: l' =>
                     match removeAll ch with
                     | None => go l'
                     | Some ch' => (k, ch') :: go l'
                     end
                 end) es in
            match rest with
            | [] => None
            | _ :: _ => Some (Dir r rest)
            end
          else Some n
      end
  end.

(** A name that [os.ReadDir] can report. *)
Definition valid_name (name : string) : bool :=
  negb (String.eqb name "") && negb (String.eqb name ".")
  && negb (String.eqb name "..") && negb (strings.Contains name "/").

Fixpoint nodupb (l : list string) : bool :=
  match l with
  | [] => true
  | x :: l' => negb (existsb (String.eqb x) l') && nodupb l'
  end.

(** A well-formed tree: in every directory the names are valid and
    pairwise different. *)
Fixpoint wf (n : node) : bool :=
  match n with
  | File _ => true
  | Dir _ es =>
      forallb valid_name (map fst es) && nodupb (map fst es)
      && (fix all (l : list (string * node)) : bool :=
            match l with
            | [] => true
            | (_, ch) :: l' => wf ch && all l'
            end) es
  end.

End tree.

Record World : Type := mkWorld {
  fs : node;                              (* the file system *)
  HOME : string;                          (* the environment variable *)
  stdout : list string;                   (* what fmt printed, oldest first *)
  logged : list string;                   (* what log printed, oldest first *)
  ran : list (string * list string);      (* external commands, oldest first *)
  Annotations : list (string * string)    (* cmd.Root().Annotations *)
}.

(** Statements of the program are state transformers on the world. *)
Definition IO (A : Type) : Type := World -> A * World.

Definition ret {A : Type} (a : A) : IO A := fun w => (a, w).

Definition bind {A B : Type} (c : IO A) (k : A -> IO B) : IO B :=
  fun w => let '(a, w') := c w in k a w'.

Declare Scope io_scope.
Delimit Scope io_scope with io.
Notation "x <- c ;; k" := (bind c (fun x => k))
  (at level 61, c at next level, right associativity) : io_scope.
Notation "c ;; k" := (bind c (fun _ => k))
  (at level 61, right associativity) : io_scope.
Local Open Scope io_scope.

(** [for _, x := range l { body }] over loop-carried variables [s]. *)
Fixpoint for_range {A S : Type} (l : list A) (body : A -> S -> IO S) (s : S)
  : IO S :=
  match l with
  | [] => ret s
  | x :: l' => s' <- body x s ;; for_range l' body s'
  end.

(** ** Package [fmt] and package [log] *)

(** The line break, ["\n"] in the source. *)
Definition nl : string := String "010" EmptyString.

Module fmt.

Definition Printf (s : string) : IO unit :=
  fun w => (tt, mkWorld (fs w) (HOME w) (stdout w ++ [s])%list (logged w) (ran w)
                        (Annotations w)).

Definition Println (s : string) : IO unit := Printf (s ++ nl).

End fmt.

Module log.

(** [log.Printf], without the time stamp that the logger puts in front. *)
Definition Printf (s : string) : IO unit :=
  fun w => (tt, mkWorld (fs w) (HOME w) (stdout w) (logged w ++ [s])%list (ran w)
                        (Annotations w)).

End log.

(** ** Package [os] *)

Record DirEntry : Type := mkDirEntry { Name : string; IsDir : bool }.

Module os.

Definition errno_text (e : Errno) : string :=
  match e with
  | ENOENT => "no such file or directory"
  | ENOTDIR => "not a directory"
  | EISDIR => "is a directory"
  | EACCES => "permission denied"
  | EINVAL => "invalid argument"
  | EBUSY => "device or resource busy"
  | ENOTEMPTY => "directory not empty"
  end.

(** The [Error] method of a path error, the text that [%v] and [%w] print. *)
Definition Error (e : PathError) : string :=
  Op e ++ " " ++ Path e ++ ": " ++ errno_text (Err e).

Definition IsNotExist {A : Type} (r : result A) : bool :=
  match r with
  | Failed {| Err := ENOENT |} => true
  | _ => false
  end.

Definition set_fs (t : node) : IO unit :=
  fun w => (tt, mkWorld t (HOME w) (stdout w) (logged w) (ran w)
                        (Annotations w)).

(** The entry of a directory for a name and what it names.  [IsDir] is
    about the entry itself, as [DirEntry.IsDir] is; [os.Stat] would follow
    a symbolic link, which the tree does not have. *)
Definition entry_of (e : string * node) : DirEntry :=
  mkDirEntry (fst e) (match snd e with Dir _ _ => true | File _ => false end).

Fixpoint insert_by_name (e : DirEntry) (l : list DirEntry) : list DirEntry :=
  match l with
  | [] => [e]
  | x :: l' =>
      if String.leb (Name e) (Name x) then e :: l
      else x :: insert_by_name e l'
  end.

Fixpoint sort_by_name (l : list DirEntry) : list DirEntry :=
  match l with
  | [] => []
  | e :: l' => insert_by_name e (sort_by_name l')
  end.

(** [os.Stat]: the base name of what is at the path and whether it is a
    directory.  The program only looks at the error. *)
Definition Stat (name : string) : IO (result DirEntry) :=
  fun w =>
    (match tree.walk (fs w) (tree.components name) with
     | inr n => Ok (entry_of (last (tree.components name) "/", n))
     | inl e => Failed (mkPathError "stat" name e)
     end, w).

(** [os.ReadDir]: the entries of a directory, sorted by file name. *)
Definition ReadDir (name : string) : IO (result (list DirEntry)) :=
  fun w =>
    (match tree.walk (fs w) (tree.components name) with
     | inr (Dir true es) => Ok (sort_by_name (map entry_of es))
     | inr (Dir false _) => Failed (mkPathError "open" name EACCES)
     | inr (File _) => Failed (mkPathError "readdirent" name ENOTDIR)
     | inl e => Failed (mkPathError "open" name e)
     end, w).

Definition IsPathSeparator (c : ascii) : bool := Ascii.eqb c "/".

Fixpoint drop_while (p : ascii -> bool) (l : list ascii) : list ascii :=
  match l with
  | [] => []
  | c :: l' => if p c then drop_while p l' else l
  end.

(** The parent that [os.MkdirAll] goes on with when nothing is found at
    [path]: [path] without the separators at its end, without its last
    element and without the separator in front of that element
    ([path[:j-1]] in the os package of Go 1.16, the release the README
    asks for); there is none when that leaves the empty path.  [i] and
    [j] are the two cuts, read from the end of the path. *)
Definition parent (path : string) : option string :=
  let i := drop_while IsPathSeparator (rev (list_ascii_of_string path)) in
  let j := drop_while (fun c => negb (IsPathSeparator c)) i in
  match j with
  | _ :: (_ :: _) as rest => Some (string_of_list_ascii (rev rest))
  | _ => None
  end.

(** The path that the error of [os.MkdirAll] names: [os.MkdirAll] goes
    from [path] to its parents until [os.Stat] finds something, and when
    that is no directory it is what the error is about.  [fuel] bounds
    the number of parents. *)
Fixpoint in_the_way (fuel : nat) (path : string) (t : node) : string :=
  match tree.walk t (tree.components path), fuel, parent path with
  | inl _, S fuel', Some p => in_the_way fuel' p t
  | _, _, _ => path
  end.

(** [os.MkdirAll]; [None] is the [nil] error. *)
Definition MkdirAll (path : string) : IO (option PathError) :=
  fun w =>
    match tree.mkdirAll (tree.components path) (fs w) with
    | inr t => set_fs t ;; ret None
    | inl e =>
        ret (Some (mkPathError "mkdir"
                     (in_the_way (String.length path) path (fs w)) e))
    end w.

Definition ReadFile (name : string) : IO (result string) :=
  fun w =>
    (match tree.walk (fs w) (tree.components name) with
     | inr (File content) => Ok content
     | inr (Dir _ _) => Failed (mkPathError "read" name EISDIR)
     | inl e => Failed (mkPathError "open" name e)
     end, w).

(** [os.WriteFile]: creates the file or replaces its content.  The
    directory the file goes into has to exist. *)
Definition WriteFile (name : string) (data : string) : IO (option PathError) :=
  fun w =>
    let cs := tree.components name in
    match tree.walk (fs w) cs with
    | inr (Dir _ _) => ret (Some (mkPathError "open" name EISDIR))
    | inr (File _) =>
        set_fs (tree.update cs (fun _ => Some (File data)) (fs w)) ;; ret None
    | inl ENOENT =>
        match tree.walk (fs w) (removelast cs) with
        | inr (Dir _ _) =>
            set_fs (tree.update cs (fun _ => Some (File data)) (fs w)) ;;
            ret None
        | inr (File _) => ret (Some (mkPathError "open" name ENOTDIR))
        | inl e => ret (Some (mkPathError "open" name e))
        end
    | inl e => ret (Some (mkPathError "open" name e))
    end w.

(** [os.Remove] of a file or an empty directory. *)
Definition Remove (name : string) : IO (option PathError) :=
  fun w =>
    let cs := tree.components name in
    match cs, tree.walk (fs w) cs with
    | [], _ => ret (Some (mkPathError "remove" name EBUSY))
    | _, inr (Dir _ (_ :: _)) => ret (Some (mkPathError "remove" name ENOTEMPTY))
    | _, inr _ => set_fs (tree.update cs (fun _ => None) (fs w)) ;; ret None
    | _, inl e => ret (Some (mkPathError "remove" name e))
    end w.

(** [os.RemoveAll]: a path that ends in a dot is refused, a path that does
    not exist is no error, and what cannot be removed stays. *)
Definition RemoveAll (path : string) : IO (option PathError) :=
  fun w =>
    let cs := tree.components path in
    if String.eqb path "" then ret None w
    else if String.eqb (last (strings.Split path "/") "") "."
    then ret (Some (mkPathError "RemoveAll" path EINVAL)) w
    else
      match tree.walk (fs w) cs with
      | inl ENOENT => ret None w
      | inl e => ret (Some (mkPathError "unlinkat" path e)) w
      | inr n =>
          let left := tree.removeAll n in
          (set_fs (match cs with
                   | [] =>
                       match left, n with
                       | Some t, _ => t
                       | None, Dir r _ => Dir r []
                       | None, File _ => n
                       end
                   | _ :: _ => tree.update cs (fun _ => left) (fs w)
                   end) ;;
           ret (match cs, left with
                | [], _ => Some (mkPathError "unlinkat" path EBUSY)
                | _, Some _ => Some (mkPathError "openfdat" path EACCES)
                | _, None => None
                end)) w
      end.

(** [os.UserHomeDir]: the value of [$HOME], an error when it is empty. *)
Definition UserHomeDir : IO (option string) :=
  fun w => (if String.eqb (HOME w) "" then None else Some (HOME w), w).

End os.

(** ** Package [sh] of mage: running an external command

    What [wget] and [tar] do is not part of the program; it is a parameter
    of the model: the file system after the command and its exit code. *)

Module sh.

Section Run.

Variable effect : string -> list string -> node -> node * Z.

(** [sh.Run(cmd, args...)]; [None] is the [nil] error, [Some code] a
    failure with that exit code. *)
Definition Run (cmd : string) (args : list string) : IO (option Z) :=
  fun w =>
    let '(t, code) := effect cmd args (fs w) in
    ((if (code =? 0)%Z then None else Some code),
     mkWorld t (HOME w) (stdout w) (logged w) (ran w ++ [(cmd, args)])%list
             (Annotations w)).

End Run.

End sh.

(** ** The program *)

Definition goDownloadDir : string := "/usr/local/bin/go-switcher".

Record Config : Type := mkConfig { GoDownloadDir : string }.

Definition NewConfig : Config := mkConfig goDownloadDir.

(** What the operations read from the cobra command: the value of the
    [--arch] flag (its default is ["linux-amd64"]). *)
Record Command : Type := mkCommand { flag_arch : string }.

(** The errors the operations return, one per [fmt.Errorf] of the source. *)
Inductive error : Type :=
| ErrReadDirectory (err : PathError)        (* read directory: %w *)
| ErrCreateDirectory (err : PathError)      (* create directory: %w *)
| ErrDownloadArchive (code : Z)             (* download archive: %w *)
| ErrExtractArchive (code : Z)              (* extract archive: %w *)
| ErrNoVersions                             (* no Go versions found *)
| ErrInvalidNumber (count : Z)              (* invalid number. Please ... *)
| ErrNotInstalled (version arch : string)   (* Go version ... is not installed *)
| ErrCreateWorkspace (err : PathError)      (* create workspace directory: %w *)
| ErrHomeDirectory                          (* get home directory: %w *)
| ErrReadProfile (err : PathError)          (* read profile: %w *)
| ErrWriteProfile (err : PathError).        (* write profile: %w *)

(** The three slices [versions], [architectures] and [paths] that both
    [listGoVersions] and [switchGoVersion] fill in parallel. *)
Record found : Type := mkFound {
  versions : list string;
  architectures : list string;
  paths : list string
}.

Definition len {A : Type} (l : list A) : Z := Z.of_nat (List.length l).

(** [l[i]] for an index that the program has checked. *)
Definition index (l : list string) (i : Z) : string :=
  nth (Z.to_nat i) l EmptyString.

(** Go's built-in [append] of one element. *)
Definition append {A : Type} (l : list A) (x : A) : list A := (l ++ [x])%list.

Definition set_Annotations (a : list (string * string)) : IO unit :=
  fun w => (tt, mkWorld (fs w) (HOME w) (stdout w) (logged w) (ran w) a).

(** The body of the inner loop over the entries of one version directory;
    [listGoVersions] (lines 162 to 168) and [switchGoVersion] (lines 284
    to 290) have it word for word. *)
Definition add_architecture (config : Config) (fi archFi : DirEntry)
  (acc : found) : IO found :=
  if IsDir archFi then
    ret (mkFound
           (append (versions acc) (Name fi))
           (append (architectures acc) (Name archFi))
           (append (paths acc)
              (GoDownloadDir config ++ "/" ++ Name fi ++ "/" ++ Name archFi)))
  else ret acc.

(** The loop of [listGoVersions] over the entries of the root (lines
    144 to 169). *)
Definition listGoVersions_scan (config : Config) (dir : list DirEntry)
  : IO found :=
  for_range dir
    (fun fi acc =>
       if negb (IsDir fi) then ret acc
       else
         let versionDir := GoDownloadDir config ++ "/" ++ Name fi in
         archDirs <- os.ReadDir versionDir ;;
         match archDirs with
         | Failed err =>
             fmt.Printf ("Error reading version directory " ++ Name fi
                         ++ ": " ++ os.Error err ++ nl) ;;
             ret acc
         | Ok archDirs =>
             for_range archDirs (add_architecture config fi) acc
         end)
    (mkFound [] [] []).

(** [listGoVersions] lists all downloaded Go versions. *)
Definition listGoVersions (cmd : Command) (config : Config)
  : IO (option error) :=
  fmt.Printf ("= Go versions from " ++ GoDownloadDir config ++ " =" ++ nl) ;;
  st <- os.Stat (GoDownloadDir config) ;;
  if os.IsNotExist st then
    (fmt.Println "No Go versions found. Directory does not exist." ;;
     ret None)
  else
    dir <- os.ReadDir (GoDownloadDir config) ;;
    match dir with
    | Failed err => ret (Some (ErrReadDirectory err))
    | Ok dir =>
        f <- listGoVersions_scan config dir ;;
        if (len (versions f) =? 0)%Z then
          (fmt.Println "No Go versions found" ;; ret None)
        else
          (for_range (seq 0 (List.length (versions f)))
             (fun i _ =>
                fmt.Printf (strconv.Itoa (Z.of_nat i + 1) ++ ". "
                            ++ index (versions f) (Z.of_nat i) ++ " ("
                            ++ index (architectures f) (Z.of_nat i) ++ ")"
                            ++ nl))
             tt ;;
           set_Annotations
             [("versions", strings.Join (versions f) ",");
              ("architectures", strings.Join (architectures f) ",");
              ("paths", strings.Join (paths f) ",")] ;;
           ret None)
    end.

Section Download.

Variable effect : string -> list string -> node -> node * Z.

(** [downloadGoVersion] downloads a specific Go version. *)
Definition downloadGoVersion (cmd : Command) (config : Config)
  (version : string) : IO (option error) :=
  fmt.Println "= Downloading version from official resource =" ;;
  let arch := flag_arch cmd in
  let archiveName := "go" ++ version ++ "." ++ arch ++ ".tar.gz" in
  let tmpArchivePath := "/tmp/" ++ archiveName in
  let targetDir := GoDownloadDir config ++ "/" ++ version ++ "/" ++ arch in
  e <- os.MkdirAll targetDir ;;
  match e with
  | Some err => ret (Some (ErrCreateDirectory err))
  | None =>
      e <- sh.Run effect "wget"
             ["-O"; tmpArchivePath; "https://go.dev/dl/" ++ archiveName] ;;
      match e with
      | Some code => ret (Some (ErrDownloadArchive code))
      | None =>
          e <- sh.Run effect "tar" ["-xzf"; tmpArchivePath; "-C"; targetDir] ;;
          match e with
          | Some code => ret (Some (ErrExtractArchive code))
          | None =>
              e <- os.Remove tmpArchivePath ;;
              match e with
              | Some err =>
                  log.Printf ("Warning: failed to remove archive: "
                              ++ os.Error err)
              | None => ret tt
              end ;;
              fmt.Println "= Download finished successfully =" ;;
              ret None
          end
      end
  end.

End Download.

(** The body of the loop of [cleanGoVersions] (lines 238 to 246). *)
Definition cleanGoVersions_remove (config : Config) (fi : DirEntry)
  (_ : unit) : IO unit :=
  if negb (IsDir fi) then ret tt
  else
    let versionDir := GoDownloadDir config ++ "/" ++ Name fi in
    fmt.Printf ("Removing version: " ++ Name fi ++ nl) ;;
    e <- os.RemoveAll versionDir ;;
    match e with
    | Some err =>
        log.Printf ("Warning: failed to remove " ++ versionDir ++ ": "
                    ++ os.Error err)
    | None => ret tt
    end.

(** [cleanGoVersions] removes all downloaded Go versions. *)
Definition cleanGoVersions (config : Config) : IO (option error) :=
  fmt.Printf ("= Removing all Go versions from " ++ GoDownloadDir config
              ++ " =" ++ nl) ;;
  st <- os.Stat (GoDownloadDir config) ;;
  if os.IsNotExist st then
    (fmt.Println "No Go versions found. Directory does not exist." ;;
     ret None)
  else
    dir <- os.ReadDir (GoDownloadDir config) ;;
    match dir with
    | Failed err => ret (Some (ErrReadDirectory err))
    | Ok dir =>
        if (len dir =? 0)%Z then
          (fmt.Println "No Go versions found to clean" ;; ret None)
        else
          (for_range dir (cleanGoVersions_remove config) tt ;;
           fmt.Println "= Cleanup completed =" ;;
           ret None)
    end.

(** The loop of [switchGoVersion] over the entries of the root (lines
    266 to 291). *)
Definition switchGoVersion_scan (config : Config) (dir : list DirEntry)
  : IO found :=
  for_range dir
    (fun fi acc =>
       if negb (IsDir fi) then ret acc
       else
         let versionDir := GoDownloadDir config ++ "/" ++ Name fi in
         archDirs <- os.ReadDir versionDir ;;
         match archDirs with
         | Failed err =>
             log.Printf ("Error reading version directory " ++ Name fi
                         ++ ": " ++ os.Error err) ;;
             ret acc
         | Ok archDirs =>
             for_range archDirs (add_architecture config fi) acc
         end)
    (mkFound [] [] []).

(** The local variables [version], [arch] and [versionDir] of
    [switchGoVersion]. *)
Record selection : Type := mkSelection {
  version : string;
  arch : string;
  versionDir : string
}.

(** The first part of [switchGoVersion] (lines 261 to 309): it scans the
    root and resolves the argument.  A number between 1 and the count
    picks an entry of the scan; anything that [strconv.Atoi] refuses is a
    version name that goes with the [--arch] flag. *)
Definition switchGoVersion_resolve (cmd : Command) (config : Config)
  (versionOrNumber : string) : IO (error + selection) :=
  dir <- os.ReadDir (GoDownloadDir config) ;;
  match dir with
  | Failed err => ret (inl (ErrReadDirectory err))
  | Ok dir =>
      f <- switchGoVersion_scan config dir ;;
      if (len (versions f) =? 0)%Z then ret (inl ErrNoVersions)
      else
        match strconv.Atoi versionOrNumber with
        | Some num =>
            if (num <? 1)%Z || (num >? len (versions f))%Z then
              ret (inl (ErrInvalidNumber (len (versions f))))
            else
              ret (inr (mkSelection (index (versions f) (num - 1))
                                    (index (architectures f) (num - 1))
                                    (index (paths f) (num - 1))))
        | None =>
            let arch := flag_arch cmd in
            let version := versionOrNumber in
            ret (inr (mkSelection version arch
                        (GoDownloadDir config ++ "/" ++ version ++ "/"
                         ++ arch)))
        end
  end.

(** The new content of the profile (lines 336 to 353): the lines without
    the three exports, then the block for the selected version. *)
Definition newProfile (profileContent goBinPath goPath goRoot : string)
  : string :=
  let profileLines := strings.Split profileContent "010" in
  let newProfileLines :=
    fold_left
      (fun newProfileLines line =>
         if negb (strings.Contains line "export PATH=$PATH:")
            && negb (strings.Contains line "export GOPATH=")
            && negb (strings.Contains line "export GOROOT=")
         then append newProfileLines line
         else newProfileLines)
      profileLines [] in
  let newProfileLines := append newProfileLines "" in
  let newProfileLines := append newProfileLines "# Go environment variables" in
  let newProfileLines :=
    append newProfileLines ("export PATH=$PATH:" ++ goBinPath) in
  let newProfileLines := append newProfileLines ("export GOPATH=" ++ goPath) in
  let newProfileLines := append newProfileLines ("export GOROOT=" ++ goRoot) in
  strings.Join newProfileLines nl.

(** [switchGoVersion] switches to a specific Go version. *)
Definition switchGoVersion (cmd : Command) (config : Config)
  (versionOrNumber : string) : IO (option error) :=
  resolved <- switchGoVersion_resolve cmd config versionOrNumber ;;
  match resolved with
  | inl e => ret (Some e)
  | inr (mkSelection version arch versionDir) =>
      st <- os.Stat versionDir ;;
      if os.IsNotExist st then ret (Some (ErrNotInstalled version arch))
      else
        fmt.Printf ("= Switching to Go version " ++ version
                    ++ " for architecture " ++ arch ++ " =" ++ nl) ;;
        let goBinPath := versionDir ++ "/go/bin" in
        let goPath := versionDir ++ "/workspace" in
        let goRoot := versionDir ++ "/go" in
        e <- os.MkdirAll goPath ;;
        match e with
        | Some err => ret (Some (ErrCreateWorkspace err))
        | None =>
            home <- os.UserHomeDir ;;
            match home with
            | None => ret (Some ErrHomeDirectory)
            | Some homeDir =>
                let profilePath := homeDir ++ "/.profile" in
                profileContent <- os.ReadFile profilePath ;;
                match profileContent with
                | Failed err => ret (Some (ErrReadProfile err))
                | Ok profileContent =>
                    e <- os.WriteFile profilePath
                           (newProfile profileContent goBinPath goPath goRoot) ;;
                    match e with
                    | Some err => ret (Some (ErrWriteProfile err))
                    | None =>
                        fmt.Println ("= Successfully switched to Go version "
                                     ++ version ++ " =") ;;
                        fmt.Println ("PATH now includes: " ++ goBinPath) ;;
                        fmt.Println ("GOPATH is set to: " ++ goPath) ;;
                        fmt.Println ("GOROOT is set to: " ++ goRoot) ;;
                        fmt.Println ("Changes have been written to "
                                     ++ profilePath) ;;
                        fmt.Println
                          "Please log out and log back in for changes to take effect" ;;
                        ret None
                    end
                end
            end
        end
  end.

(** ** Sample worlds *)

Definition dir_of (l : list (string * node)) : node := Dir true l.

Definition installed : node := dir_of [("go", dir_of [])].

(** Two versions, one of them for two architectures (one of which cannot
    be listed), a stray file under the root, and a profile. *)
Definition sample_fs : node :=
  dir_of
    [("usr", dir_of [("local", dir_of [("bin", dir_of [("go-switcher",
        dir_of [("1.23.0", dir_of [("linux-amd64", installed)]);
                ("README", File "versions");
                ("1.22.0", dir_of [("linux-amd64", installed);
                                   ("darwin-amd64",
                                    Dir false [("go", dir_of [])])])])])])]);
     ("home", dir_of [("gopher", dir_of [(".profile",
        File ("# profile" ++ nl ++ "export GOROOT=/opt/go" ++ nl
              ++ "PS1=$"))])])].

Definition sample : World := mkWorld sample_fs "/home/gopher" [] [] [] [].

Definition sample_cmd : Command := mkCommand "linux-amd64".

(** A machine on which the root has not been created yet. *)
Definition no_store : World :=
  mkWorld
    (dir_of [("usr", dir_of [("local", dir_of [("bin", dir_of [])])]);
             ("home", dir_of [("gopher", dir_of [(".profile", File "PS1=$")])])])
    "/home/gopher" [] [] [] [].

(** A machine on which the root is there and holds nothing. *)
Definition empty_store : World :=
  mkWorld
    (dir_of [("usr", dir_of [("local", dir_of [("bin",
                dir_of [("go-switcher", dir_of [])])])]);
             ("home", dir_of [("gopher", dir_of [(".profile", File "PS1=$")])])])
    "/home/gopher" [] [] [] [].

(** A machine with one version installed and no profile. *)
Definition no_profile : World :=
  mkWorld
    (dir_of [("usr", dir_of [("local", dir_of [("bin", dir_of [("go-switcher",
                dir_of [("1.23.0", dir_of [("linux-amd64", installed)])])])])]);
             ("home", dir_of [("gopher", dir_of [])])])
    "/home/gopher" [] [] [] [].

(** A machine with one version installed and a file next to it under
    the root. *)
Definition store_with_file : World :=
  mkWorld
    (dir_of [("usr", dir_of [("local", dir_of [("bin", dir_of [("go-switcher",
                dir_of [("1.23.0", dir_of [("linux-amd64", installed)]);
                        ("README", File "versions")])])])])])
    "/home/gopher" [] [] [] [].

(** A machine whose only installed version has a line break in the name
    of its directory. *)
Definition broken_store : World :=
  mkWorld
    (dir_of [("usr", dir_of [("local", dir_of [("bin", dir_of [("go-switcher",
                dir_of [("1.22" ++ nl ++ "rc1",
                         dir_of [("linux-amd64", installed)])])])])]);
             ("home", dir_of [("gopher", dir_of [(".profile", File "")])])])
    "/home/gopher" [] [] [] [].

(** The directory of that version, as [switchGoVersion] builds it. *)
Definition broken_versionDir : string :=
  goDownloadDir ++ "/1.22" ++ nl ++ "rc1" ++ "/linux-amd64".

(** ** The profile rewriter as the specification words it *)

(** A line that holds one of the three exports. *)
Definition is_export_line (line : string) : bool :=
  strings.Contains line "export PATH=$PATH:"
  || strings.Contains line "export GOPATH="
  || strings.Contains line "export GOROOT=".

(** The three export lines for a version directory. *)
Definition export_triple (versionDir : string) : list string :=
  ["export PATH=$PATH:" ++ versionDir ++ "/go/bin";
   "export GOPATH=" ++ versionDir ++ "/workspace";
   "export GOROOT=" ++ versionDir ++ "/go"].

(** Split into lines, drop the lines with an export, append a blank line,
    a comment line and the three exports, and join again. *)
Definition rewrite_spec (old versionDir : string) : string :=
  strings.Join
    (filter (fun line => negb (is_export_line line)) (strings.Split old "010")
     ++ [""; "# Go environment variables"] ++ export_triple versionDir)%list
    nl.

(** The rewrite as [switchGoVersion] calls it for a version directory. *)
Definition rewrite (old versionDir : string) : string :=
  newProfile old (versionDir ++ "/go/bin") (versionDir ++ "/workspace")
             (versionDir ++ "/go").

(** The lines of a profile that hold an export. *)
Definition export_lines (profile : string) : list string :=
  filter is_export_line (strings.Split profile "010").

Definition byte (c : ascii) : string := String c EmptyString.

(** ** What [listGoVersions] prints for the entries it found (line 177) *)

Definition numbered (f : found) : list string :=
  map (fun i =>
         strconv.Itoa (Z.of_nat i + 1) ++ ". "
         ++ index (versions f) (Z.of_nat i) ++ " ("
         ++ index (architectures f) (Z.of_nat i) ++ ")" ++ nl)
      (seq 0 (List.length (versions f))).

(** ** Further sample worlds and specifications *)

(** A machine on which the root is there and cannot be listed. *)
Definition locked_store : World :=
  mkWorld
    (dir_of [("usr", dir_of [("local", dir_of [("bin", dir_of [("go-switcher",
                Dir false [("1.23.0", dir_of [("linux-amd64", installed)])])])])]);
             ("home", dir_of [("gopher", dir_of [(".profile", File "PS1=$")])])])
    "/home/gopher" [] [] [] [].

(** The installed (version, architecture) pairs below the entries [dir] of
    the root: for every entry that is a directory and can be listed, its
    entries that are directories, in the order of the listings. *)
Definition installed_pairs (config : Config) (dir : list DirEntry) (w : World)
  : list (string * string) :=
  flat_map
    (fun fi =>
       if IsDir fi then
         match fst (os.ReadDir (GoDownloadDir config ++ "/" ++ Name fi) w) with
         | Ok archDirs =>
             map (fun archFi => (Name fi, Name archFi)) (filter IsDir archDirs)
         | Failed _ => []
         end
       else [])
    dir.

(** The path that goes with a pair. *)
Definition path_of (config : Config) (pair : string * string) : string :=
  GoDownloadDir config ++ "/" ++ fst pair ++ "/" ++ snd pair.

(** [n] rewrites of a profile in a row for the same version directory. *)
Fixpoint rewrite_times (n : nat) (old versionDir : string) : string :=
  match n with
  | O => old
  | S k => rewrite (rewrite_times k old versionDir) versionDir
  end.

(** The text that a rewrite puts after the lines it keeps. *)
Definition export_block (versionDir : string) : string :=
  strings.Join ([""; "# Go environment variables"] ++ export_triple versionDir)%list
               nl.

(** What [cleanGoVersions] prints before it removes a directory (line
    243). *)
Definition removing (fi : DirEntry) : string :=
  "Removing version: " ++ Name fi ++ nl.

(** The first line that [cleanGoVersions] prints (line 220). *)
Definition cleaning (config : Config) : string :=
  "= Removing all Go versions from " ++ GoDownloadDir config ++ " =" ++ nl.

(** A machine on which the root has not been created yet and [/tmp] is
    there. *)
Definition fresh_machine : World :=
  mkWorld
    (dir_of [("usr", dir_of [("local", dir_of [("bin", dir_of [])])]);
             ("tmp", dir_of []);
             ("home", dir_of [("gopher", dir_of [(".profile", File "PS1=$")])])])
    "/home/gopher" [] [] [] [].

(** External tools that do their work: [wget] puts a file at the path
    after [-O], and [tar] puts a directory [go] into the directory after
    [-C]. *)
Definition working_tools (cmd : string) (args : list string) (t : node)
  : node * Z :=
  match args with
  | [_; out; _] =>
      if String.eqb cmd "wget" then
        (tree.update (tree.components out) (fun _ => Some (File "archive")) t,
         0%Z)
      else (t, 2%Z)
  | [_; _; _; target] =>
      if String.eqb cmd "tar" then
        (tree.update (tree.components target ++ ["go"])%list
                     (fun _ => Some (dir_of [])) t,
         0%Z)
      else (t, 2%Z)
  | _ => (t, 2%Z)
  end.

(** A path that never steps back: none of the pieces between its slashes
    is [".."].  For such a path it makes no difference that [tree.clean]
    takes a name back at [".."] without looking the name up first. *)
Definition no_dotdot (path : string) : bool :=
  negb (existsb (String.eqb "..") (strings.Split path "/")).

(** * Properties *)

(** ** Strings *)

Lemma Split_not_nil (s : string) (c : ascii) : strings.Split s c <> [].
Proof.
  destruct s as [|x s]; simpl; [discriminate|].
  destruct (Ascii.eqb x c); [discriminate|].
  destruct (strings.Split s c); discriminate.
Qed.

Lemma Split_app_sep (a b : string) (c : ascii) :
  strings.Split (a ++ String c b) c
  = (strings.Split a c ++ strings.Split b c)%list.
Proof.
  induction a as [|x a IH]; simpl.
  - now rewrite Ascii.eqb_refl.
  - destruct (Ascii.eqb x c); [now rewrite IH|].
    rewrite IH. pose proof (Split_not_nil a c) as Hne.
    destruct (strings.Split a c); [contradiction|reflexivity].
Qed.

Lemma Contains_byte_cons (x c : ascii) (s : string) :
  strings.Contains (String x s) (byte c)
  = Ascii.eqb c x || strings.Contains s (byte c).
Proof.
  simpl. destruct (Ascii.eqb c x); simpl; [|reflexivity].
  now destruct s.
Qed.


Lemma Contains_byte_app (a b : string) (c : ascii) :
  strings.Contains (a ++ b) (byte c)
  = strings.Contains a (byte c) || strings.Contains b (byte c).
Proof.
  induction a as [|x a IH]; [reflexivity|].
  change (String x a ++ b) with (String x (a ++ b)).
  rewrite !Contains_byte_cons, IH. now rewrite orb_assoc.
Qed.

Lemma Split_free (s : string) (c : ascii) :
  strings.Contains s (byte c) = false -> strings.Split s c = [s].
Proof.
  induction s as [|x s IH]; [reflexivity|].
  rewrite Contains_byte_cons. intros H.
  apply orb_false_elim in H as [Hx Hs]. simpl.
  rewrite Ascii.eqb_sym, Hx. now rewrite (IH Hs).
Qed.

Lemma Split_pieces_free (s : string) (c : ascii) :
  Forall (fun l => strings.Contains l (byte c) = false) (strings.Split s c).
Proof.
  induction s as [|x s IH]; simpl.
  - now constructor.
  - destruct (Ascii.eqb x c) eqn:Hx.
    + now constructor.
    + pose proof (Split_not_nil s c) as Hne.
      destruct (strings.Split s c) as [|l ls]; [contradiction|].
      inversion IH as [|? ? Hl Hls]; subst. constructor; [|assumption].
      rewrite Contains_byte_cons, Ascii.eqb_sym, Hx. exact Hl.
Qed.

Lemma Split_Join (ls : list string) (c : ascii) :
  ls <> [] ->
  Forall (fun l => strings.Contains l (byte c) = false) ls ->
  strings.Split (strings.Join ls (byte c)) c = ls.
Proof.
  induction ls as [|l ls IH]; [contradiction|]. intros _ Hfree.
  inversion Hfree as [|? ? Hl Hls]; subst.
  destruct ls as [|l' ls]; [now apply Split_free|].
  change (strings.Join (l :: l' :: ls) (byte c))
    with (l ++ String c (strings.Join (l' :: ls) (byte c))).
  rewrite Split_app_sep, (Split_free _ _ Hl), IH; [reflexivity|discriminate|assumption].
Qed.

Lemma HasPrefix_app (p x : string) : strings.HasPrefix (p ++ x) p = true.
Proof.
  induction p as [|a p IH]; simpl; [now destruct x|].
  now rewrite Ascii.eqb_refl, IH.
Qed.

Lemma Contains_prefix (p x : string) : strings.Contains (p ++ x) p = true.
Proof.
  destruct p as [|a p]; [now destruct x|].
  change (String a p ++ x) with (String a (p ++ x)).
  cbn [strings.Contains]. change (String a (p ++ x)) with (String a p ++ x).
  now rewrite HasPrefix_app.
Qed.

(** ** The profile rewriter *)

Lemma fold_left_append_filter {A : Type} (f : list A -> A -> list A)
  (p : A -> bool) (l acc : list A) :
  (forall acc x, f acc x = if p x then append acc x else acc) ->
  fold_left f l acc = (acc ++ filter p l)%list.
Proof.
  intros Hf. revert acc. induction l as [|x l IH]; intros acc; simpl.
  - now rewrite app_nil_r.
  - rewrite IH, Hf. destruct (p x); [|reflexivity].
    unfold append. now rewrite <- app_assoc.
Qed.

Lemma rewrite_is_rewrite_spec (old versionDir : string) :
  rewrite old versionDir = rewrite_spec old versionDir.
Proof.
  unfold rewrite, rewrite_spec, newProfile, export_triple.
  rewrite (fold_left_append_filter _ (fun line => negb (is_export_line line))).
  - unfold append. simpl app. now rewrite <- !app_assoc.
  - intros acc line. unfold is_export_line. now rewrite !negb_orb.
Qed.

Lemma filter_filter_neg {A : Type} (p : A -> bool) (l : list A) :
  filter p (filter (fun x => negb (p x)) l) = [].
Proof.
  induction l as [|x l IH]; [reflexivity|]. simpl.
  destruct (p x) eqn:Hp; simpl; [assumption|]. now rewrite Hp.
Qed.

Lemma filter_idem {A : Type} (p : A -> bool) (l : list A) :
  filter p (filter p l) = filter p l.
Proof.
  induction l as [|x l IH]; [reflexivity|]. simpl.
  destruct (p x) eqn:Hp; simpl; [now rewrite Hp, IH|assumption].
Qed.

Lemma export_triple_exports (versionDir : string) :
  filter is_export_line (export_triple versionDir) = export_triple versionDir.
Proof.
  unfold export_triple, is_export_line. cbn [filter].
  rewrite !Contains_prefix. now rewrite !orb_true_r.
Qed.

Lemma export_triple_free (versionDir : string) :
  strings.Contains versionDir nl = false ->
  Forall (fun l => strings.Contains l nl = false) (export_triple versionDir).
Proof.
  intros Hd. unfold export_triple, nl in *.
  change (String "010" "") with (byte "010") in *.
  repeat apply Forall_cons; try apply Forall_nil;
    rewrite !Contains_byte_app, Hd; reflexivity.
Qed.

(** After one rewrite the lines are the kept lines and the block. *)
Lemma Split_rewrite_spec (old versionDir : string) :
  strings.Contains versionDir nl = false ->
  strings.Split (rewrite_spec old versionDir) "010"
  = (filter (fun line => negb (is_export_line line)) (strings.Split old "010")
     ++ [""; "# Go environment variables"] ++ export_triple versionDir)%list.
Proof.
  intros Hd. unfold rewrite_spec. apply (Split_Join _ "010").
  - intros H. apply app_eq_nil in H as [_ H]. discriminate.
  - apply Forall_app. split.
    + apply incl_Forall with (l1 := strings.Split old "010").
      * intros x Hx. now apply filter_In in Hx.
      * apply Split_pieces_free.
    + apply (Forall_app _ [""; "# Go environment variables"]). split.
      * now repeat constructor.
      * now apply export_triple_free.
Qed.

(** ** Paths and the directory tree *)

Lemma clean_app (l1 l2 acc : list string) :
  tree.clean (l1 ++ l2) acc = tree.clean l2 (rev (tree.clean l1 acc)).
Proof.
  revert acc. induction l1 as [|c l1 IH]; intros acc; simpl.
  - now rewrite rev_involutive.
  - destruct (String.eqb c "" || String.eqb c "."); [apply IH|].
    destruct (String.eqb c ".."); apply IH.
Qed.

(** Appending [/name] to a path appends [name] to its components. *)
Lemma components_child (p name : string) :
  tree.valid_name name = true ->
  tree.components (p ++ "/" ++ name) = (tree.components p ++ [name])%list.
Proof.
  unfold tree.valid_name, tree.components. intros Hv.
  apply andb_prop in Hv as [Hv Hslash]. apply andb_prop in Hv as [Hv Hdd].
  apply andb_prop in Hv as [He Hd].
  apply negb_true_iff in Hslash, Hdd, He, Hd.
  change ("/" ++ name) with (String "/" name).
  rewrite Split_app_sep, clean_app.
  rewrite (Split_free name "/" Hslash). simpl.
  rewrite He, Hd, Hdd. simpl. now rewrite rev_involutive.
Qed.

Lemma walk_app (n : node) (p q : list string) :
  tree.walk n (p ++ q)
  = match tree.walk n p with
    | inr m => tree.walk m q
    | inl e => inl e
    end.
Proof.
  revert n. induction p as [|c p IH]; intros n; [reflexivity|]. simpl.
  destruct n as [|r es]; [reflexivity|].
  destruct (tree.assoc c es); [apply IH|reflexivity].
Qed.


Lemma assoc_set_entry_same (c : string) (m : node) (es : list (string * node)) :
  tree.assoc c (tree.set_entry c m es) = Some m.
Proof.
  induction es as [|[k n] es IH]; simpl.
  - now rewrite String.eqb_refl.
  - destruct (String.eqb k c) eqn:Hk; simpl.
    + now rewrite String.eqb_refl.
    + now rewrite Hk.
Qed.

Lemma assoc_set_entry_other (x c : string) (m : node)
  (es : list (string * node)) :
  x <> c -> tree.assoc x (tree.set_entry c m es) = tree.assoc x es.
Proof.
  intros Hx. induction es as [|[k n] es IH]; simpl.
  - destruct (String.eqb_spec c x); [congruence|reflexivity].
  - destruct (String.eqb_spec k c) as [->|Hk]; simpl.
    + destruct (String.eqb_spec c x); [congruence|reflexivity].
    + destruct (String.eqb k x); [reflexivity|assumption].
Qed.


(** The directory that [MkdirAll] was asked for is there afterwards. *)
Lemma mkdirAll_target (cs : list string) (n n' : node) :
  tree.mkdirAll cs n = inr n' ->
  exists r es, tree.walk n' cs = inr (Dir r es).
Proof.
  revert n n'. induction cs as [|c cs IH]; intros n n' H.
  - destruct n as [|r es]; [discriminate|]. simpl in H. injection H as <-.
    now exists r, es.
  - destruct n as [|r es]; [discriminate|]. simpl in H.
    destruct (tree.mkdirAll cs _) as [e|ch'] eqn:Hch; [discriminate|].
    injection H as <-. simpl. rewrite assoc_set_entry_same.
    now apply IH in Hch.
Qed.

(** What exists after [MkdirAll] and did not exist before lies on the path
    that was asked for. *)
Lemma mkdirAll_new (cs q : list string) (n n' m : node) (e : Errno) :
  tree.mkdirAll cs n = inr n' ->
  tree.walk n q = inl e ->
  tree.walk n' q = inr m ->
  exists rest, cs = (q ++ rest)%list.
Proof.
  revert n n' q. induction cs as [|c cs IH]; intros n n' q H Hold Hnew.
  - destruct n as [|r es]; [discriminate|]. simpl in H. injection H as <-.
    congruence.
  - destruct n as [|r es]; [discriminate|]. simpl in H.
    destruct (tree.mkdirAll cs _) as [e'|ch'] eqn:Hch; [discriminate|].
    injection H as <-.
    destruct q as [|x q]; [discriminate|]. simpl in Hold, Hnew.
    destruct (String.eqb_spec x c) as [->|Hx].
    + rewrite assoc_set_entry_same in Hnew.
      destruct (tree.assoc c es) as [ch|] eqn:Hc.
      * destruct (IH _ _ _ Hch Hold Hnew) as [rest ->]. now exists rest.
      * destruct q as [|y q]; [now exists cs|]. injection Hold as <-.
        destruct (IH (Dir true []) ch' (y :: q) Hch eq_refl Hnew) as [rest ->].
        now exists rest.
    + rewrite (assoc_set_entry_other _ _ _ _ Hx) in Hnew. congruence.
Qed.

(** What existed before [MkdirAll] is still there: a file as it was, a
    directory as a directory. *)
Lemma mkdirAll_old (cs q : list string) (n n' m : node) :
  tree.mkdirAll cs n = inr n' ->
  tree.walk n q = inr m ->
  match m with
  | File content => tree.walk n' q = inr (File content)
  | Dir r _ => exists es', tree.walk n' q = inr (Dir r es')
  end.
Proof.
  revert n n' q. induction cs as [|c cs IH]; intros n n' q H Hold.
  - destruct n as [|r es]; [discriminate|]. simpl in H. injection H as <-.
    rewrite Hold. destruct m; [reflexivity|eauto].
  - destruct n as [|r es]; [discriminate|]. simpl in H.
    destruct (tree.mkdirAll cs _) as [e'|ch'] eqn:Hch; [discriminate|].
    injection H as <-.
    destruct q as [|x q]; simpl in Hold.
    + injection Hold as <-. simpl. eauto.
    + simpl. destruct (String.eqb_spec x c) as [->|Hx].
      * rewrite assoc_set_entry_same.
        destruct (tree.assoc c es) as [ch|] eqn:Hc; [|discriminate].
        exact (IH _ _ _ Hch Hold).
      * rewrite (assoc_set_entry_other _ _ _ _ Hx). rewrite Hold.
        destruct m; [reflexivity|eauto].
Qed.

(** [MkdirAll] neither creates nor changes a file. *)
Lemma mkdirAll_files (cs q : list string) (n n' : node) (content : string) :
  tree.mkdirAll cs n = inr n' ->
  tree.walk n' q = inr (File content) ->
  tree.walk n q = inr (File content).
Proof.
  intros H Hnew. destruct (tree.walk n q) as [e|m] eqn:Hold.
  - destruct (mkdirAll_new _ _ _ _ _ _ H Hold Hnew) as [rest ->].
    destruct (mkdirAll_target _ _ _ H) as (r & es & Ht).
    rewrite walk_app, Hnew in Ht. destruct rest; discriminate.
  - pose proof (mkdirAll_old _ _ _ _ _ H Hold) as Hm.
    destruct m as [content'|r es]; [congruence|].
    destruct Hm as [es' Hm]. congruence.
Qed.

(** Writing over a file puts the new content there ... *)
Lemma update_file_same (cs : list string) (n : node) (old data : string) :
  cs <> [] ->
  tree.walk n cs = inr (File old) ->
  tree.walk (tree.update cs (fun _ => Some (File data)) n) cs
  = inr (File data).
Proof.
  revert n. induction cs as [|c cs IH]; intros n Hne H; [contradiction|].
  destruct n as [|r es]; [discriminate|]. simpl in H.
  destruct (tree.assoc c es) as [ch|] eqn:Hc; [|discriminate].
  destruct cs as [|c' cs].
  - simpl. now rewrite assoc_set_entry_same.
  - cbn [tree.update]. rewrite Hc. cbn [tree.walk].
    rewrite assoc_set_entry_same. apply IH; [discriminate|assumption].
Qed.

(** ... and leaves every directory a directory. *)
Lemma update_file_dirs (cs q : list string) (n : node) (old data : string)
  (r : bool) (es : list (string * node)) :
  tree.walk n cs = inr (File old) ->
  tree.walk n q = inr (Dir r es) ->
  exists es',
    tree.walk (tree.update cs (fun _ => Some (File data)) n) q
    = inr (Dir r es').
Proof.
  revert n q. induction cs as [|c cs IH]; intros n q H Hq.
  - simpl. destruct n; eauto.
  - destruct n as [|r0 es0]; [discriminate|]. simpl in H.
    destruct (tree.assoc c es0) as [ch|] eqn:Hc; [|discriminate].
    destruct q as [|x q].
    + injection Hq as <- <-. destruct cs; cbn [tree.update]; [|rewrite Hc];
        simpl; eauto.
    + simpl in Hq. destruct (String.eqb_spec x c) as [->|Hx].
      * rewrite Hc in Hq. destruct cs as [|c' cs].
        -- injection H as ->. destruct q; discriminate.
        -- cbn [tree.update]. rewrite Hc. cbn [tree.walk].
           rewrite assoc_set_entry_same. now apply IH.
      * destruct cs as [|c' cs]; cbn [tree.update]; [|rewrite Hc];
          cbn [tree.walk]; rewrite (assoc_set_entry_other _ _ _ _ Hx);
          rewrite Hq; eauto.
Qed.

(** Updating the entry [c] of the directory at [p] changes that directory
    at [c] alone. *)
Lemma update_child (p : list string) (c : string)
  (f : option node -> option node) (n : node) (r : bool)
  (es : list (string * node)) :
  tree.walk n p = inr (Dir r es) ->
  tree.walk (tree.update (p ++ [c]) f n) p
  = inr (Dir r (match f (tree.assoc c es) with
                | Some m => tree.set_entry c m es
                | None => tree.del_entry c es
                end)).
Proof.
  revert n. induction p as [|x p IH]; intros n H.
  - injection H as ->. reflexivity.
  - destruct n as [|r0 es0]; [discriminate|]. simpl in H.
    destruct (tree.assoc x es0) as [ch|] eqn:Hx; [|discriminate].
    change ((x :: p) ++ [c])%list with (x :: (p ++ [c]))%list.
    cbn [tree.update]. destruct (p ++ [c])%list as [|y l] eqn:Hl.
    + now destruct p.
    + rewrite Hx. cbn [tree.walk]. rewrite assoc_set_entry_same.
      now apply IH.
Qed.


(** ** Reading the file system *)

(** [os.Stat], [os.ReadDir] and [os.ReadFile] leave the world alone and
    look at the file system only; printing leaves the file system alone. *)
Lemma Stat_run (name : string) (w : World) :
  os.Stat name w = (fst (os.Stat name w), w).
Proof. reflexivity. Qed.

Lemma ReadDir_run (name : string) (w : World) :
  os.ReadDir name w = (fst (os.ReadDir name w), w).
Proof. reflexivity. Qed.

Lemma ReadFile_run (name : string) (w : World) :
  os.ReadFile name w = (fst (os.ReadFile name w), w).
Proof. reflexivity. Qed.

Lemma Stat_same_fs (name : string) (w w' : World) :
  fs w' = fs w -> fst (os.Stat name w') = fst (os.Stat name w).
Proof. intros H. unfold os.Stat. simpl. now rewrite H. Qed.


Ltac run_read :=
  match goal with
  | |- context [os.Stat ?n ?w] =>
      let E := fresh "E" in
      destruct (os.Stat n w) as [? ?] eqn:E; rewrite Stat_run in E;
      apply pair_equal_spec in E; destruct E as [<- <-]
  | |- context [os.ReadDir ?n ?w] =>
      let E := fresh "E" in
      destruct (os.ReadDir n w) as [? ?] eqn:E; rewrite ReadDir_run in E;
      apply pair_equal_spec in E; destruct E as [<- <-]
  | |- context [os.ReadFile ?n ?w] =>
      let E := fresh "E" in
      destruct (os.ReadFile n w) as [? ?] eqn:E; rewrite ReadFile_run in E;
      apply pair_equal_spec in E; destruct E as [<- <-]
  end.

Lemma ReadDir_same_fs (name : string) (w w' : World) :
  fs w' = fs w -> fst (os.ReadDir name w') = fst (os.ReadDir name w).
Proof. intros H. unfold os.ReadDir. simpl. now rewrite H. Qed.

(** ** The scan of the root *)

Lemma add_architecture_run (config : Config) (fi archFi : DirEntry)
  (acc : found) (w : World) :
  add_architecture config fi archFi acc w
  = (if IsDir archFi then
       mkFound (append (versions acc) (Name fi))
               (append (architectures acc) (Name archFi))
               (append (paths acc)
                  (GoDownloadDir config ++ "/" ++ Name fi ++ "/"
                   ++ Name archFi))
     else acc, w).
Proof. unfold add_architecture. now destruct (IsDir archFi). Qed.

(** The inner loop over the architectures of one version changes nothing
    but the three slices, and what it finds does not depend on the
    world. *)
Lemma arch_loop_pure (config : Config) (fi : DirEntry)
  (archDirs : list DirEntry) (acc : found) (w : World) :
  snd (for_range archDirs (add_architecture config fi) acc w) = w
  /\ forall w',
      fst (for_range archDirs (add_architecture config fi) acc w')
      = fst (for_range archDirs (add_architecture config fi) acc w).
Proof.
  revert acc. induction archDirs as [|x l IH]; intros acc; [now split|].
  simpl. unfold bind. split.
  - rewrite add_architecture_run. apply IH.
  - intros w'. rewrite !add_architecture_run. apply IH.
Qed.

(** The three slices grow together. *)
Lemma arch_loop_lengths (config : Config) (fi : DirEntry)
  (archDirs : list DirEntry) (acc : found) (w : World) :
  List.length (architectures acc) = List.length (versions acc) ->
  List.length (paths acc) = List.length (versions acc) ->
  let f := fst (for_range archDirs (add_architecture config fi) acc w) in
  List.length (architectures f) = List.length (versions f)
  /\ List.length (paths f) = List.length (versions f).
Proof.
  revert acc. induction archDirs as [|x l IH]; intros acc Ha Hp; [now split|].
  simpl. unfold bind. rewrite add_architecture_run.
  destruct (IsDir x); apply IH; try assumption;
    unfold append; cbn [versions architectures paths];
    rewrite !length_app; simpl; congruence.
Qed.

(** The two loops find the same entries whenever they look at the same
    file system. *)
Lemma scans_agree (config : Config) (dir : list DirEntry) (w w' : World) :
  fs w' = fs w ->
  fst (switchGoVersion_scan config dir w')
  = fst (listGoVersions_scan config dir w).
Proof.
  unfold switchGoVersion_scan, listGoVersions_scan.
  generalize (mkFound [] [] []). revert w w'.
  induction dir as [|fi dir IH]; intros w w' acc Hfs; [reflexivity|].
  simpl. unfold bind.
  destruct (IsDir fi); simpl; [|now apply IH].
  unfold os.ReadDir. rewrite Hfs.
  destruct (tree.walk (fs w) _) as [e|[content|[|] es]]; simpl;
    try (now apply IH).
  destruct (arch_loop_pure config fi (os.sort_by_name (map os.entry_of es))
              acc w) as [Hw Hf].
  destruct (arch_loop_pure config fi (os.sort_by_name (map os.entry_of es))
              acc w') as [Hw' _].
  specialize (Hf w').
  destruct (for_range _ _ acc w) as [f1 w1].
  destruct (for_range _ _ acc w') as [f2 w2].
  simpl in *. subst. now apply IH.
Qed.

(** The index that [switchGoVersion] checks against [len(versions)] is
    within [architectures] and [paths] as well. *)
Lemma switchGoVersion_scan_lengths (config : Config) (dir : list DirEntry)
  (w : World) :
  let f := fst (switchGoVersion_scan config dir w) in
  List.length (architectures f) = List.length (versions f)
  /\ List.length (paths f) = List.length (versions f).
Proof.
  unfold switchGoVersion_scan.
  assert (Ha : List.length (architectures (mkFound [] [] []))
               = List.length (versions (mkFound [] [] []))) by reflexivity.
  assert (Hp : List.length (paths (mkFound [] [] []))
               = List.length (versions (mkFound [] [] []))) by reflexivity.
  revert Ha Hp. generalize (mkFound [] [] []). revert w.
  induction dir as [|fi dir IH]; intros w acc Ha Hp; [now split|].
  simpl. unfold bind.
  destruct (IsDir fi); cbn [negb ret]; [|now apply IH].
  run_read.
  destruct (fst (os.ReadDir _ w)) as [archDirs|err].
  - destruct (arch_loop_pure config fi archDirs acc w) as [Hw _].
    destruct (arch_loop_lengths config fi archDirs acc w Ha Hp) as [Ha' Hp'].
    destruct (for_range archDirs _ acc w) as [f1 w1]. cbn [fst snd] in *.
    now apply IH.
  - cbn [log.Printf]. now apply IH.
Qed.

(** Neither loop touches the file system or the environment. *)
Lemma switchGoVersion_scan_frame (config : Config) (dir : list DirEntry)
  (w : World) :
  let w' := snd (switchGoVersion_scan config dir w) in
  fs w' = fs w /\ HOME w' = HOME w /\ stdout w' = stdout w.
Proof.
  unfold switchGoVersion_scan. generalize (mkFound [] [] []). revert w.
  induction dir as [|fi dir IH]; intros w acc; [now repeat split|].
  simpl. unfold bind.
  destruct (IsDir fi); simpl; [|now apply IH].
  unfold os.ReadDir.
  destruct (tree.walk (fs w) _) as [e|[content|[|] es]]; simpl;
    try (now apply IH);
    try (match goal with
         | |- context [for_range dir ?b ?s ?w1] =>
             destruct (IH w1 s) as (H1 & H2 & H3); now repeat split
         end).
  destruct (arch_loop_pure config fi (os.sort_by_name (map os.entry_of es))
              acc w) as [Hw _].
  destruct (for_range _ _ acc w) as [f1 w1]. simpl in Hw. subst.
  apply IH.
Qed.

Lemma listGoVersions_scan_frame (config : Config) (dir : list DirEntry)
  (w : World) :
  let w' := snd (listGoVersions_scan config dir w) in
  fs w' = fs w /\ HOME w' = HOME w /\ logged w' = logged w
  /\ exists printed, stdout w' = (stdout w ++ printed)%list.
Proof.
  unfold listGoVersions_scan. generalize (mkFound [] [] []). revert w.
  induction dir as [|fi dir IH]; intros w acc.
  - repeat split; try reflexivity. exists []. simpl. now rewrite app_nil_r.
  - simpl. unfold bind.
    destruct (IsDir fi); simpl; [|now apply IH].
    unfold os.ReadDir.
    destruct (tree.walk (fs w) _) as [e|[content|[|] es]]; simpl;
      try (match goal with
           | |- context [for_range dir ?b ?s ?w1] =>
               destruct (IH w1 s) as (H1 & H2 & H3 & [pr H4]);
               repeat split; try assumption;
               simpl in H4; rewrite <- app_assoc in H4; eauto
           end).
    destruct (arch_loop_pure config fi (os.sort_by_name (map os.entry_of es))
                acc w) as [Hw _].
    destruct (for_range _ _ acc w) as [f1 w1]. simpl in Hw. subst.
    apply IH.
Qed.

Lemma for_range_Printf {A : Type} (g : A -> string) (l : list A) (w : World) :
  let w' := snd (for_range l (fun x _ => fmt.Printf (g x)) tt w) in
  stdout w' = (stdout w ++ map g l)%list
  /\ fs w' = fs w /\ HOME w' = HOME w /\ logged w' = logged w.
Proof.
  revert w. induction l as [|x l IH]; intros w; simpl.
  - now rewrite app_nil_r.
  - unfold bind. simpl.
    match goal with
    | |- context [for_range l ?b tt ?w1] =>
        destruct (IH w1) as (H1 & H2 & H3 & H4)
    end.
    simpl in *. rewrite H1, <- app_assoc. now repeat split.
Qed.

(** What [listGoVersions] prints when it finds something: after the header
    and the complaints of the scan, one numbered line per entry. *)
Lemma listGoVersions_prints (cmd : Command) (config : Config) (w : World)
  (dir : list DirEntry) :
  fst (os.ReadDir (GoDownloadDir config) w) = Ok dir ->
  let listed := fst (listGoVersions_scan config dir w) in
  versions listed <> [] ->
  let w' := snd (listGoVersions cmd config w) in
  fst (listGoVersions cmd config w) = None
  /\ fs w' = fs w
  /\ exists before, stdout w' = (before ++ numbered listed)%list.
Proof.
  intros Hdir listed Hne w'. subst w'. unfold listGoVersions, bind.
  cbn [fmt.Printf]. set (w1 := mkWorld _ _ _ _ _ _).
  assert (Hfs1 : fs w1 = fs w) by reflexivity.
  pose proof (ReadDir_same_fs (GoDownloadDir config) w w1 Hfs1) as Hdir1.
  rewrite Hdir in Hdir1.
  assert (Hstat : os.IsNotExist (fst (os.Stat (GoDownloadDir config) w1))
                  = false).
  { unfold os.ReadDir in Hdir1. unfold os.Stat. simpl in *.
    destruct (tree.walk (fs w) _) as [e|n]; [|reflexivity].
    discriminate. }
  destruct (os.Stat (GoDownloadDir config) w1) as [st w2] eqn:Est.
  assert (w2 = w1) by (unfold os.Stat in Est; now injection Est). subst w2.
  simpl in Hstat. rewrite Hstat.
  destruct (os.ReadDir (GoDownloadDir config) w1) as [rd w2] eqn:Erd.
  assert (w2 = w1) by (unfold os.ReadDir in Erd; now injection Erd). subst w2.
  simpl in Hdir1. subst rd.
  assert (Hsame : fst (listGoVersions_scan config dir w1) = listed).
  { unfold listed. rewrite <- (scans_agree config dir w1 w1 eq_refl).
    now apply scans_agree. }
  destruct (listGoVersions_scan_frame config dir w1) as (F1 & F2 & F3 & pr & F4).
  destruct (listGoVersions_scan config dir w1) as [f w2]. simpl in *. subst f.
  destruct (len (versions listed) =? 0)%Z eqn:Hlen.
  - apply Z.eqb_eq in Hlen. unfold len in Hlen.
    destruct (versions listed); [contradiction|discriminate].
  - match goal with
    | |- context [for_range ?l (fun i _ => fmt.Printf (@?g i)) tt w2] =>
        destruct (for_range_Printf g l w2) as (P1 & P2 & P3 & P4);
        destruct (for_range l (fun i _ => fmt.Printf (g i)) tt w2) as [u w3]
    end.
    simpl in *. repeat split; [congruence|].
    exists (stdout w2). exact P1.
Qed.

(** ** Resolving the argument of [switch] *)

(** The first part of [switchGoVersion] changes neither the file system
    nor the environment nor the standard output. *)
Lemma switchGoVersion_resolve_frame (cmd : Command) (config : Config)
  (versionOrNumber : string) (w : World) :
  let w' := snd (switchGoVersion_resolve cmd config versionOrNumber w) in
  fs w' = fs w /\ HOME w' = HOME w /\ stdout w' = stdout w.
Proof.
  unfold switchGoVersion_resolve, bind.
  destruct (os.ReadDir (GoDownloadDir config) w) as [rd w1] eqn:Erd.
  assert (w1 = w) by (unfold os.ReadDir in Erd; now injection Erd). subst w1.
  destruct rd as [dir|err]; [|now repeat split].
  pose proof (switchGoVersion_scan_frame config dir w) as Hframe.
  destruct (switchGoVersion_scan config dir w) as [f w1]. simpl in Hframe.
  destruct (len (versions f) =? 0)%Z; [exact Hframe|].
  destruct (strconv.Atoi versionOrNumber) as [num|]; [|exact Hframe].
  destruct ((num <? 1)%Z || (num >? len (versions f))%Z); exact Hframe.
Qed.

(** What the first part of [switchGoVersion] returns, in terms of what its
    scan found. *)
Lemma switchGoVersion_resolve_by_number (cmd : Command) (config : Config)
  (versionOrNumber : string) (num : Z) (w : World) (dir : list DirEntry) :
  fst (os.ReadDir (GoDownloadDir config) w) = Ok dir ->
  strconv.Atoi versionOrNumber = Some num ->
  let f := fst (switchGoVersion_scan config dir w) in
  fst (switchGoVersion_resolve cmd config versionOrNumber w)
  = if (len (versions f) =? 0)%Z then inl ErrNoVersions
    else if (num <? 1)%Z || (num >? len (versions f))%Z
         then inl (ErrInvalidNumber (len (versions f)))
         else inr (mkSelection (index (versions f) (num - 1))
                               (index (architectures f) (num - 1))
                               (index (paths f) (num - 1))).
Proof.
  intros Hdir Hnum f. subst f. unfold switchGoVersion_resolve, bind.
  destruct (os.ReadDir (GoDownloadDir config) w) as [rd w1] eqn:Erd.
  assert (w1 = w) by (unfold os.ReadDir in Erd; now injection Erd). subst w1.
  simpl in Hdir. subst rd.
  destruct (switchGoVersion_scan config dir w) as [f w1]. simpl.
  rewrite Hnum.
  destruct (len (versions f) =? 0)%Z; [reflexivity|].
  now destruct ((num <? 1)%Z || (num >? len (versions f))%Z).
Qed.

(** C1: for every state of the root, [switch] with an argument that
    [strconv.Atoi] reads as a number [num] between 1 and the count selects
    the version, the architecture and the path that [list] reports at
    position [num]: the two scans find the same entries in the same order,
    [list] prints them numbered from 1, and [switch] takes entry
    [num - 1]. *)
Theorem switch_by_index_selects_listed_entry
  (cmd cmd' : Command) (config : Config) (versionOrNumber : string) (num : Z)
  (w w' : World) (dir : list DirEntry) :
  fs w' = fs w ->
  fst (os.ReadDir (GoDownloadDir config) w) = Ok dir ->
  strconv.Atoi versionOrNumber = Some num ->
  (1 <= num <= len (versions (fst (listGoVersions_scan config dir w))))%Z ->
  let listed := fst (listGoVersions_scan config dir w) in
  (exists before,
      stdout (snd (listGoVersions cmd' config w))
      = (before ++ numbered listed)%list)
  /\ nth_error (numbered listed) (Z.to_nat (num - 1))
     = Some (strconv.Itoa num ++ ". " ++ index (versions listed) (num - 1)
             ++ " (" ++ index (architectures listed) (num - 1) ++ ")" ++ nl)
  /\ fst (switchGoVersion_resolve cmd config versionOrNumber w')
     = inr (mkSelection (index (versions listed) (num - 1))
                        (index (architectures listed) (num - 1))
                        (index (paths listed) (num - 1))).
Proof.
  intros Hfs Hdir Hnum Hrange listed.
  assert (Hne : versions listed <> []).
  { intros H. fold listed in Hrange. rewrite H in Hrange.
    unfold len in Hrange. simpl in Hrange. lia. }
  split; [|split].
  - now destruct (listGoVersions_prints cmd' config w dir Hdir Hne)
      as (_ & _ & Hout).
  - unfold numbered. fold listed in Hrange. unfold len in Hrange.
    rewrite nth_error_map, nth_error_seq.
    destruct (Nat.ltb_spec (Z.to_nat (num - 1)) (List.length (versions listed)));
      [|lia].
    simpl. now replace (Z.of_nat (Z.to_nat (num - 1)) + 1)%Z with num
      by lia; replace (Z.of_nat (Z.to_nat (num - 1))) with (num - 1)%Z by lia.
  - pose proof (ReadDir_same_fs (GoDownloadDir config) w w' Hfs) as Hdir'.
    rewrite Hdir in Hdir'.
    rewrite (switchGoVersion_resolve_by_number cmd config versionOrNumber num
               w' dir Hdir' Hnum).
    rewrite (scans_agree config dir w w' Hfs). fold listed. fold listed in Hrange.
    destruct (Z.eqb_spec (len (versions listed)) 0); [lia|].
    destruct (Z.ltb_spec num 1); [lia|].
    destruct (Z.gtb_spec num (len (versions listed))); [lia|]. reflexivity.
Qed.

Lemma switch_by_index_selects_listed_entry_witness :
  fst (switchGoVersion_resolve sample_cmd NewConfig "2" sample)
  = inr (mkSelection "1.22.0" "linux-amd64"
           "/usr/local/bin/go-switcher/1.22.0/linux-amd64")
  /\ nth_error
       (numbered (fst (listGoVersions_scan NewConfig
                         [mkDirEntry "1.22.0" true; mkDirEntry "1.23.0" true;
                          mkDirEntry "README" false] sample))) 1
     = Some ("2. 1.22.0 (linux-amd64)" ++ nl).
Proof.
  edestruct (switch_by_index_selects_listed_entry sample_cmd sample_cmd
               NewConfig "2" 2 sample sample) as (_ & Hline & Hsel).
  - reflexivity.
  - reflexivity.
  - reflexivity.
  - vm_compute. split; discriminate.
  - split; [exact Hsel|exact Hline].
Defined.

(** Listing succeeds only where [os.Stat] finds something. *)
Lemma ReadDir_Ok_Stat (name : string) (w : World) (dir : list DirEntry) :
  fst (os.ReadDir name w) = Ok dir ->
  os.IsNotExist (fst (os.Stat name w)) = false.
Proof.
  unfold os.ReadDir, os.Stat. simpl.
  destruct (tree.walk (fs w) _) as [e|n]; [discriminate|reflexivity].
Qed.

(** Where [os.Stat] finds nothing, listing fails with the same error. *)
Lemma Stat_NotExist_ReadDir (name : string) (w : World) :
  os.IsNotExist (fst (os.Stat name w)) = true ->
  fst (os.ReadDir name w) = Failed (mkPathError "open" name ENOENT).
Proof.
  unfold os.ReadDir, os.Stat. simpl.
  destruct (tree.walk (fs w) _) as [[]|n]; simpl; try discriminate.
  reflexivity.
Qed.

(** ** Out-of-range numbers *)

(** C4, as the code has it: when the scan finds [count] entries and the
    argument is a number below 1 or above [count], [switchGoVersion] fails
    and leaves the file system, and with it the profile, as it was.  The
    error is the range error when [count] is at least 1; an empty scan is
    reported as such before the number is looked at. *)
Theorem switch_out_of_range_fails_without_mutation
  (cmd : Command) (config : Config) (versionOrNumber : string) (num : Z)
  (w : World) (dir : list DirEntry) :
  fst (os.ReadDir (GoDownloadDir config) w) = Ok dir ->
  strconv.Atoi versionOrNumber = Some num ->
  let count := len (versions (fst (switchGoVersion_scan config dir w))) in
  (num < 1 \/ num > count)%Z ->
  fst (switchGoVersion cmd config versionOrNumber w)
  = Some (if (count =? 0)%Z then ErrNoVersions else ErrInvalidNumber count)
  /\ fs (snd (switchGoVersion cmd config versionOrNumber w)) = fs w
  /\ HOME (snd (switchGoVersion cmd config versionOrNumber w)) = HOME w.
Proof.
  intros Hdir Hnum count Hrange.
  pose proof (switchGoVersion_resolve_by_number cmd config versionOrNumber
                num w dir Hdir Hnum) as Hres.
  pose proof (switchGoVersion_resolve_frame cmd config versionOrNumber w)
    as (Hfs & Hhome & _).
  unfold switchGoVersion, bind.
  destruct (switchGoVersion_resolve cmd config versionOrNumber w) as [r w1].
  simpl in Hres, Hfs, Hhome. fold count in Hres. subst r.
  destruct (count =? 0)%Z; [now repeat split|].
  destruct (Z.ltb_spec num 1); simpl; [now repeat split|].
  destruct (Z.gtb_spec num count); [now repeat split|lia].
Qed.

Lemma switch_out_of_range_fails_without_mutation_witness :
  fst (switchGoVersion sample_cmd NewConfig "4" sample)
  = Some (ErrInvalidNumber 3)
  /\ fs (snd (switchGoVersion sample_cmd NewConfig "4" sample)) = fs sample.
Proof.
  edestruct (switch_out_of_range_fails_without_mutation sample_cmd NewConfig
               "4" 4 sample) as (Herr & Hfs & _).
  - reflexivity.
  - reflexivity.
  - right. vm_compute. reflexivity.
  - split; [exact Herr|exact Hfs].
Defined.

(** On an empty root a number out of range is not answered with the range
    error. *)
Lemma switch_out_of_range_empty_scan :
  fst (os.ReadDir goDownloadDir empty_store) = Ok []
  /\ strconv.Atoi "1" = Some 1%Z
  /\ len (versions (fst (switchGoVersion_scan NewConfig [] empty_store))) = 0%Z
  /\ fst (switchGoVersion sample_cmd NewConfig "1" empty_store)
     = Some ErrNoVersions
  /\ fst (switchGoVersion sample_cmd NewConfig "1" empty_store)
     <> Some (ErrInvalidNumber 0).
Proof. repeat split; try reflexivity. discriminate. Qed.

(** ** A root that does not exist *)

(** C5: when the root does not exist, [listGoVersions] and
    [cleanGoVersions] report an empty store and return no error, whereas
    [switchGoVersion], which lists the root without looking first, returns
    the read error. *)
Theorem missing_root_list_and_switch
  (cmd : Command) (config : Config) (versionOrNumber : string) (w : World) :
  os.IsNotExist (fst (os.Stat (GoDownloadDir config) w)) = true ->
  fst (listGoVersions cmd config w) = None
  /\ fs (snd (listGoVersions cmd config w)) = fs w
  /\ fst (cleanGoVersions config w) = None
  /\ fst (switchGoVersion cmd config versionOrNumber w)
     = Some (ErrReadDirectory
               (mkPathError "open" (GoDownloadDir config) ENOENT)).
Proof.
  intros Hstat.
  pose proof (Stat_NotExist_ReadDir _ _ Hstat) as Hrd.
  unfold os.Stat in Hstat. simpl in Hstat.
  repeat split.
  - unfold listGoVersions, bind, os.Stat. simpl.
    destruct (tree.walk (fs w) _) as [[]|n]; try discriminate. reflexivity.
  - unfold listGoVersions, bind, os.Stat. simpl.
    destruct (tree.walk (fs w) _) as [[]|n]; try discriminate. reflexivity.
  - unfold cleanGoVersions, bind, os.Stat. simpl.
    destruct (tree.walk (fs w) _) as [[]|n]; try discriminate. reflexivity.
  - unfold switchGoVersion, switchGoVersion_resolve, bind.
    destruct (os.ReadDir (GoDownloadDir config) w) as [rd w1].
    simpl in Hrd. now subst rd.
Qed.

Lemma missing_root_list_and_switch_witness :
  fst (listGoVersions sample_cmd NewConfig no_store) = None
  /\ fst (switchGoVersion sample_cmd NewConfig "1" no_store)
     = Some (ErrReadDirectory (mkPathError "open" goDownloadDir ENOENT)).
Proof.
  destruct (missing_root_list_and_switch sample_cmd NewConfig "1" no_store)
    as (Hlist & _ & _ & Hswitch).
  - reflexivity.
  - split; [exact Hlist|exact Hswitch].
Defined.

(** ** Cleaning an empty store *)

(** C8: when the root does not exist, or when listing it gives no entry,
    [cleanGoVersions] removes nothing, changes nothing but the standard
    output, and returns no error. *)
Theorem clean_empty_store_is_noop (config : Config) (w : World) :
  os.IsNotExist (fst (os.Stat (GoDownloadDir config) w)) = true
  \/ fst (os.ReadDir (GoDownloadDir config) w) = Ok [] ->
  let w' := snd (cleanGoVersions config w) in
  fst (cleanGoVersions config w) = None
  /\ fs w' = fs w /\ HOME w' = HOME w /\ logged w' = logged w
  /\ ran w' = ran w.
Proof.
  intros H. unfold cleanGoVersions, bind. cbn [fmt.Printf].
  set (w1 := mkWorld _ _ _ _ _ _).
  run_read. rewrite (Stat_same_fs _ w w1 eq_refl).
  destruct H as [Hstat|Hdir].
  - rewrite Hstat. now repeat split.
  - rewrite (ReadDir_Ok_Stat _ _ _ Hdir).
    run_read. rewrite (ReadDir_same_fs _ w w1 eq_refl), Hdir.
    now repeat split.
Qed.

Lemma clean_empty_store_is_noop_witness :
  fst (cleanGoVersions NewConfig empty_store) = None
  /\ fs (snd (cleanGoVersions NewConfig empty_store)) = fs empty_store
  /\ fst (cleanGoVersions NewConfig no_store) = None
  /\ fs (snd (cleanGoVersions NewConfig no_store)) = fs no_store.
Proof.
  destruct (clean_empty_store_is_noop NewConfig empty_store)
    as (H1 & H2 & _); [right; reflexivity|].
  destruct (clean_empty_store_is_noop NewConfig no_store)
    as (H3 & H4 & _); [left; reflexivity|].
  repeat split; assumption.
Defined.

(** ** What [switchGoVersion] does to the file system *)

(** The run of [switchGoVersion] after its first part, case by case, in
    terms of the directory tree. *)
Lemma switchGoVersion_run (cmd : Command) (config : Config)
  (versionOrNumber : string) (w : World) :
  let r := switchGoVersion cmd config versionOrNumber w in
  HOME (snd r) = HOME w
  /\ match fst (switchGoVersion_resolve cmd config versionOrNumber w) with
     | inl e => fst r = Some e /\ fs (snd r) = fs w
     | inr sel =>
         if os.IsNotExist (fst (os.Stat (versionDir sel) w)) then
           fst r = Some (ErrNotInstalled (version sel) (arch sel))
           /\ fs (snd r) = fs w
         else
           match tree.mkdirAll
                   (tree.components (versionDir sel ++ "/workspace")) (fs w)
           with
           | inl e =>
               fst r = Some (ErrCreateWorkspace
                               (mkPathError "mkdir"
                                  (os.in_the_way
                                     (String.length
                                        (versionDir sel ++ "/workspace"))
                                     (versionDir sel ++ "/workspace") (fs w))
                                  e))
               /\ fs (snd r) = fs w
           | inr t =>
               if String.eqb (HOME w) "" then
                 fst r = Some ErrHomeDirectory /\ fs (snd r) = t
               else
                 match tree.walk t (tree.components (HOME w ++ "/.profile"))
                 with
                 | inr (File old) =>
                     fst r = None
                     /\ fs (snd r)
                        = tree.update
                            (tree.components (HOME w ++ "/.profile"))
                            (fun _ => Some (File (rewrite old (versionDir sel))))
                            t
                 | inr (Dir _ _) =>
                     fst r = Some (ErrReadProfile
                                     (mkPathError "read"
                                        (HOME w ++ "/.profile") EISDIR))
                     /\ fs (snd r) = t
                 | inl e =>
                     fst r = Some (ErrReadProfile
                                     (mkPathError "open"
                                        (HOME w ++ "/.profile") e))
                     /\ fs (snd r) = t
                 end
           end
     end.
Proof.
  intros r. subst r.
  pose proof (switchGoVersion_resolve_frame cmd config versionOrNumber w)
    as (Hfs & Hhome & _).
  unfold switchGoVersion, bind.
  destruct (switchGoVersion_resolve cmd config versionOrNumber w) as [res w1].
  cbn [fst snd] in *.
  destruct res as [e|[v a vd]]; [now repeat split|].
  cbn [versionDir version arch].
  run_read. rewrite (Stat_same_fs _ w w1 Hfs).
  destruct (os.IsNotExist (fst (os.Stat vd w)));
    [now repeat split|].
  cbn [fmt.Printf]. unfold os.MkdirAll. cbn [fs]. rewrite Hfs.
  destruct (tree.mkdirAll _ (fs w)) as [e|t]; [now repeat split|].
  unfold bind, os.set_fs, ret, os.UserHomeDir. cbn [fs HOME]. rewrite Hhome.
  destruct (String.eqb (HOME w) ""); [now repeat split|].
  unfold os.ReadFile. cbn [fs].
  destruct (tree.walk t _) as [e|[old|rd es]] eqn:Hwalk;
    [now repeat split| |now repeat split].
  unfold os.WriteFile. cbn [fs]. rewrite Hwalk.
  cbv [bind os.set_fs ret fmt.Println fmt.Printf fs HOME stdout logged ran
       Annotations fst snd].
  repeat split; reflexivity.
Qed.

Lemma components_profile (homeDir : string) :
  tree.components (homeDir ++ "/.profile")
  = (tree.components homeDir ++ [".profile"])%list.
Proof. now apply components_child. Qed.

Lemma components_workspace (versionDir : string) :
  tree.components (versionDir ++ "/workspace")
  = (tree.components versionDir ++ ["workspace"])%list.
Proof. now apply components_child. Qed.

(** C2: a switch that succeeds leaves in the profile what the rewriter of
    the specification computes from the old content and the selected
    version directory: the old lines without those that hold one of the
    three exports, then a blank line, the comment line and the three new
    exports, joined by line breaks and written over the file. *)
Theorem switch_success_rewrites_profile
  (cmd : Command) (config : Config) (versionOrNumber : string) (w : World) :
  fst (switchGoVersion cmd config versionOrNumber w) = None ->
  exists sel old,
    fst (switchGoVersion_resolve cmd config versionOrNumber w) = inr sel
    /\ fst (os.ReadFile (HOME w ++ "/.profile") w) = Ok old
    /\ fst (os.ReadFile (HOME w ++ "/.profile")
              (snd (switchGoVersion cmd config versionOrNumber w)))
       = Ok (rewrite_spec old (versionDir sel)).
Proof.
  intros Hok.
  destruct (switchGoVersion_run cmd config versionOrNumber w) as [_ Hrun].
  rewrite Hok in Hrun.
  destruct (fst (switchGoVersion_resolve cmd config versionOrNumber w))
    as [e|sel]; [now destruct Hrun|].
  destruct (os.IsNotExist _); [now destruct Hrun|].
  destruct (tree.mkdirAll _ (fs w)) as [e|t] eqn:Hmk; [now destruct Hrun|].
  destruct (String.eqb (HOME w) ""); [now destruct Hrun|].
  destruct (tree.walk t _) as [e|[old|rd es]] eqn:Hwalk;
    try (now destruct Hrun).
  destruct Hrun as [_ Hfs]. exists sel, old. split; [reflexivity|].
  unfold os.ReadFile. cbn [fst]. rewrite Hfs.
  rewrite (mkdirAll_files _ _ _ _ _ Hmk Hwalk).
  rewrite (update_file_same _ _ old); [|rewrite components_profile|exact Hwalk].
  - now rewrite rewrite_is_rewrite_spec.
  - intros H. now apply app_eq_nil in H as [_ H].
Qed.

Lemma switch_success_rewrites_profile_witness :
  fst (os.ReadFile "/home/gopher/.profile"
         (snd (switchGoVersion sample_cmd NewConfig "1.23.0" sample)))
  = Ok (rewrite_spec ("# profile" ++ nl ++ "export GOROOT=/opt/go" ++ nl
                      ++ "PS1=$")
          "/usr/local/bin/go-switcher/1.23.0/linux-amd64").
Proof.
  destruct (switch_success_rewrites_profile sample_cmd NewConfig "1.23.0"
              sample eq_refl) as (sel & old & Hsel & Hold & Hnew).
  injection Hsel as <-. injection Hold as <-. exact Hnew.
Defined.

(** Creating one directory in an existing one does not bring into being a
    path that ends in another name. *)
Lemma mkdirAll_keeps_missing (p q : list string) (x y : string)
  (n t m : node) (e : Errno) :
  x <> y ->
  tree.mkdirAll (p ++ [x]) n = inr t ->
  tree.walk n p = inr m ->
  tree.walk n (q ++ [y]) = inl e ->
  exists e', tree.walk t (q ++ [y]) = inl e'.
Proof.
  intros Hxy Hmk Hp Hq.
  destruct (tree.walk t (q ++ [y])) as [e'|m'] eqn:Hnew; [now exists e'|].
  exfalso.
  destruct (mkdirAll_new _ _ _ _ _ _ Hmk Hq Hnew) as [rest Hrest].
  destruct rest as [|z rest].
  - rewrite app_nil_r in Hrest. apply app_inj_tail in Hrest as [_ H].
    congruence.
  - destruct (exists_last (l := z :: rest)) as (rest' & last & Hl);
      [discriminate|].
    rewrite Hl, !app_assoc in Hrest. apply app_inj_tail in Hrest as [Hpq _].
    rewrite Hpq, (walk_app n (q ++ [y]) rest'), Hq in Hp. discriminate.
Qed.

(** ** A profile that is not there *)

(** C6: when the argument resolves to a version directory that exists and
    there is nothing at the path of the profile, [switchGoVersion] returns
    an error, and there is still nothing at that path afterwards. *)
Theorem switch_without_profile_fails
  (cmd : Command) (config : Config) (versionOrNumber : string) (w : World)
  (sel : selection) (st : DirEntry) (err : PathError) :
  fst (switchGoVersion_resolve cmd config versionOrNumber w) = inr sel ->
  fst (os.Stat (versionDir sel) w) = Ok st ->
  fst (os.Stat (HOME w ++ "/.profile") w) = Failed err ->
  let r := switchGoVersion cmd config versionOrNumber w in
  (exists e, fst r = Some e)
  /\ exists err', fst (os.Stat (HOME w ++ "/.profile") (snd r)) = Failed err'.
Proof.
  intros Hsel Hdir Hprofile r. subst r.
  destruct (switchGoVersion_run cmd config versionOrNumber w) as [_ Hrun].
  rewrite Hsel, Hdir in Hrun. cbn [os.IsNotExist] in Hrun.
  unfold os.Stat in *. cbn [fst] in *.
  rewrite components_profile in *. rewrite components_workspace in Hrun.
  destruct (tree.walk (fs w) (tree.components (versionDir sel)))
    as [e0|m0] eqn:Hvd; [discriminate|].
  destruct (tree.walk (fs w) (tree.components (HOME w) ++ [".profile"]))
    as [e1|m1] eqn:Hp; [|discriminate].
  destruct (tree.mkdirAll _ (fs w)) as [e|t] eqn:Hmk.
  - destruct Hrun as [-> ->]. rewrite Hp. eauto.
  - assert (Hmissing : exists e',
               tree.walk t (tree.components (HOME w) ++ [".profile"]) = inl e').
    { apply (mkdirAll_keeps_missing _ _ "workspace" ".profile" _ _ _ _
               ltac:(discriminate) Hmk Hvd Hp). }
    destruct Hmissing as [e' Hmissing].
    destruct (String.eqb (HOME w) "").
    + destruct Hrun as [-> ->]. rewrite Hmissing. eauto.
    + rewrite Hmissing in Hrun. destruct Hrun as [-> ->].
      rewrite Hmissing. eauto.
Qed.

Lemma switch_without_profile_fails_witness :
  fst (switchGoVersion sample_cmd NewConfig "1" no_profile)
  = Some (ErrReadProfile
            (mkPathError "open" "/home/gopher/.profile" ENOENT))
  /\ exists err',
      fst (os.Stat "/home/gopher/.profile"
             (snd (switchGoVersion sample_cmd NewConfig "1" no_profile)))
      = Failed err'.
Proof.
  edestruct (switch_without_profile_fails sample_cmd NewConfig "1" no_profile)
    as (_ & Hstill).
  - reflexivity.
  - reflexivity.
  - reflexivity.
  - split; [reflexivity|exact Hstill].
Defined.

(** ** The workspace directory *)

(** The errors of the first part of [switchGoVersion]. *)
Lemma switchGoVersion_resolve_errors (cmd : Command) (config : Config)
  (versionOrNumber : string) (w : World) (e : error) :
  fst (switchGoVersion_resolve cmd config versionOrNumber w) = inl e ->
  (exists err, e = ErrReadDirectory err) \/ e = ErrNoVersions
  \/ (exists count, e = ErrInvalidNumber count).
Proof.
  unfold switchGoVersion_resolve, bind. run_read.
  destruct (fst (os.ReadDir (GoDownloadDir config) w)) as [dir|err].
  - destruct (switchGoVersion_scan config dir w) as [f w1].
    destruct (len (versions f) =? 0)%Z.
    + intros H. injection H as <-. auto.
    + destruct (strconv.Atoi versionOrNumber) as [num|]; [|discriminate].
      destruct ((num <? 1)%Z || (num >? len (versions f))%Z);
        [|discriminate].
      intros H. injection H as <-. eauto.
  - intros H. injection H as <-. eauto.
Qed.

(** C10: a switch that succeeds leaves the directory
    [<versionDir>/workspace] of the selected version in place, and so does
    a switch that fails for want of a home directory or of a readable
    profile: the directory is made before the profile is looked at. *)
Theorem switch_creates_workspace
  (cmd : Command) (config : Config) (versionOrNumber : string) (w : World) :
  let r := switchGoVersion cmd config versionOrNumber w in
  fst r = None \/ fst r = Some ErrHomeDirectory
  \/ (exists err, fst r = Some (ErrReadProfile err)) ->
  exists sel st,
    fst (switchGoVersion_resolve cmd config versionOrNumber w) = inr sel
    /\ fst (os.Stat (versionDir sel ++ "/workspace") (snd r)) = Ok st
    /\ IsDir st = true.
Proof.
  intros r Hr. subst r.
  destruct (switchGoVersion_run cmd config versionOrNumber w) as [_ Hrun].
  pose proof (switchGoVersion_resolve_errors cmd config versionOrNumber w)
    as Herrors.
  destruct (fst (switchGoVersion_resolve cmd config versionOrNumber w))
    as [e|sel].
  { exfalso. destruct Hrun as [He _]. rewrite He in Hr.
    destruct (Herrors e eq_refl) as [[err ->]|[->|[count ->]]];
      destruct Hr as [H|[H|[err' H]]]; discriminate. }
  clear Herrors. exists sel.
  destruct (os.IsNotExist _).
  { exfalso. destruct Hrun as [He _]. rewrite He in Hr.
    destruct Hr as [H|[H|[err' H]]]; discriminate. }
  destruct (tree.mkdirAll _ (fs w)) as [e|t] eqn:Hmk.
  { exfalso. destruct Hrun as [He _]. rewrite He in Hr.
    destruct Hr as [H|[H|[err' H]]]; discriminate. }
  destruct (mkdirAll_target _ _ _ Hmk) as (rd & es & Htarget).
  assert (Hdone : forall t' es',
             tree.walk t' (tree.components (versionDir sel ++ "/workspace"))
             = inr (Dir rd es') ->
             fs (snd (switchGoVersion cmd config versionOrNumber w)) = t' ->
             exists st,
               fst (os.Stat (versionDir sel ++ "/workspace")
                      (snd (switchGoVersion cmd config versionOrNumber w)))
               = Ok st /\ IsDir st = true).
  { intros t' es' Hwalk Hfs. unfold os.Stat. cbn [fst].
    rewrite Hfs, Hwalk. eauto. }
  destruct (String.eqb (HOME w) "").
  { destruct Hrun as [_ Hfs]. destruct (Hdone t es Htarget Hfs) as [st Hst].
    eauto. }
  destruct (tree.walk t (tree.components (HOME w ++ "/.profile")))
    as [e|[old|rd' es']] eqn:Hprofile.
  - destruct Hrun as [_ Hfs]. destruct (Hdone t es Htarget Hfs) as [st Hst].
    eauto.
  - destruct Hrun as [_ Hfs].
    destruct (update_file_dirs _ _ _ old
                (rewrite old (versionDir sel)) _ _ Hprofile Htarget)
      as [es'' Hwalk].
    destruct (Hdone _ es'' Hwalk Hfs) as [st Hst]. eauto.
  - destruct Hrun as [_ Hfs]. destruct (Hdone t es Htarget Hfs) as [st Hst].
    eauto.
Qed.

Lemma switch_creates_workspace_witness :
  exists st,
    fst (os.Stat "/usr/local/bin/go-switcher/1.22.0/linux-amd64/workspace"
           (snd (switchGoVersion sample_cmd NewConfig "2" sample))) = Ok st
    /\ IsDir st = true.
Proof.
  destruct (switch_creates_workspace sample_cmd NewConfig "2" sample)
    as (sel & st & Hsel & Hst & Hdir).
  - left. reflexivity.
  - injection Hsel as <-. now exists st.
Defined.

(** Before that switch the directory was not there. *)
Example workspace_absent_before_switch :
  fst (os.Stat "/usr/local/bin/go-switcher/1.22.0/linux-amd64/workspace" sample)
  = Failed (mkPathError "stat"
              "/usr/local/bin/go-switcher/1.22.0/linux-amd64/workspace" ENOENT).
Proof. reflexivity. Qed.

(** ** Rewriting the profile twice *)

Lemma export_lines_rewrite_spec (old versionDir : string) :
  strings.Contains versionDir nl = false ->
  export_lines (rewrite_spec old versionDir) = export_triple versionDir.
Proof.
  intros Hd. unfold export_lines.
  rewrite (Split_rewrite_spec old versionDir Hd), !filter_app.
  rewrite filter_filter_neg, export_triple_exports. reflexivity.
Qed.

(** C3, for version directories without a line break in their name: two
    rewrites in a row with the same target leave a profile whose lines
    with an export are exactly the three exports of that version, once
    each; its lines are the lines kept from the old profile, the blank
    line and the comment of each of the two rewrites, and the three
    exports of the second one. *)
Theorem rewrite_twice_one_triple (old versionDir : string) :
  strings.Contains versionDir nl = false ->
  export_lines (rewrite (rewrite old versionDir) versionDir)
  = export_triple versionDir
  /\ strings.Split (rewrite (rewrite old versionDir) versionDir) "010"
     = (filter (fun line => negb (is_export_line line))
               (strings.Split old "010")
        ++ [""; "# Go environment variables"]
        ++ [""; "# Go environment variables"]
        ++ export_triple versionDir)%list.
Proof.
  intros Hd. rewrite !rewrite_is_rewrite_spec. split.
  - now apply export_lines_rewrite_spec.
  - rewrite (Split_rewrite_spec _ versionDir Hd).
    rewrite (Split_rewrite_spec old versionDir Hd), !filter_app.
    rewrite filter_idem.
    assert (Hnone : filter (fun line => negb (is_export_line line))
                      (export_triple versionDir) = []).
    { unfold export_triple, is_export_line. cbn [filter].
      rewrite !Contains_prefix, !orb_true_r. reflexivity. }
    rewrite Hnone. cbn [filter]. simpl. now rewrite <- !app_assoc.
Qed.

Lemma rewrite_twice_one_triple_witness :
  export_lines
    (rewrite (rewrite ("export GOROOT=/opt/go" ++ nl ++ "PS1=$")
                "/usr/local/bin/go-switcher/1.23.0/linux-amd64")
       "/usr/local/bin/go-switcher/1.23.0/linux-amd64")
  = ["export PATH=$PATH:/usr/local/bin/go-switcher/1.23.0/linux-amd64/go/bin";
     "export GOPATH=/usr/local/bin/go-switcher/1.23.0/linux-amd64/workspace";
     "export GOROOT=/usr/local/bin/go-switcher/1.23.0/linux-amd64/go"].
Proof.
  exact (proj1 (rewrite_twice_one_triple
                  ("export GOROOT=/opt/go" ++ nl ++ "PS1=$")
                  "/usr/local/bin/go-switcher/1.23.0/linux-amd64" eq_refl)).
Defined.

(** With a line break in the name of the version directory the second
    rewrite finds each export of the first one split over two lines: it
    drops the first halves and keeps the second halves, and the lines
    with an export that it leaves are not the exports of that version. *)
Lemma rewrite_twice_line_break :
  export_lines (rewrite (rewrite "" broken_versionDir) broken_versionDir)
  <> export_triple broken_versionDir
  /\ strings.Split (rewrite (rewrite "" broken_versionDir) broken_versionDir)
       "010"
     = [""; ""; "# Go environment variables";
        "rc1/linux-amd64/go/bin"; "rc1/linux-amd64/workspace";
        "rc1/linux-amd64/go";
        ""; "# Go environment variables";
        "export PATH=$PATH:/usr/local/bin/go-switcher/1.22";
        "rc1/linux-amd64/go/bin";
        "export GOPATH=/usr/local/bin/go-switcher/1.22";
        "rc1/linux-amd64/workspace";
        "export GOROOT=/usr/local/bin/go-switcher/1.22";
        "rc1/linux-amd64/go"].
Proof. split; [vm_compute; discriminate|vm_compute; reflexivity]. Qed.

(** ** Downloading *)

Section DownloadSteps.

Variable effect : string -> list string -> node -> node * Z.

(** C9: for every version [v] and architecture [a], [downloadGoVersion]
    first calls [os.MkdirAll] for [<root>/<v>/<a>].  When that fails, its
    error is returned as "create directory", no tool is run and the file
    system is left as [os.MkdirAll] left it.  When it succeeds,
    [<root>/<v>/<a>] is a directory of the file system in which [wget] is
    then run to fetch [https://go.dev/dl/go<v>.<a>.tar.gz] into
    [/tmp/go<v>.<a>.tar.gz].  When [wget] fails, its exit code is the
    error, [tar] is not run and the file system is as [wget] left it.
    Otherwise [tar] is run, in the file system that [wget] left, to
    extract that archive into [<root>/<v>/<a>]; when [tar] fails, its exit
    code is the error and the file system is as [tar] left it; otherwise
    there is no error and the file system is the one that [tar] left,
    after [os.Remove] of the archive.  This holds whatever the two tools
    do. *)
Theorem download_fetches_and_extracts
  (cmd : Command) (config : Config) (v : string) (w : World) :
  let a := flag_arch cmd in
  let archiveName := "go" ++ v ++ "." ++ a ++ ".tar.gz" in
  let targetDir := GoDownloadDir config ++ "/" ++ v ++ "/" ++ a in
  let wget := ["-O"; "/tmp/" ++ archiveName;
               "https://go.dev/dl/" ++ archiveName] in
  let tar := ["-xzf"; "/tmp/" ++ archiveName; "-C"; targetDir] in
  let r := downloadGoVersion effect cmd config v w in
  let made := os.MkdirAll targetDir w in
  match fst made with
  | Some err =>
      fst r = Some (ErrCreateDirectory err)
      /\ ran (snd r) = ran w /\ fs (snd r) = fs (snd made)
  | None =>
      let fetched := effect "wget" wget (fs (snd made)) in
      let extracted := effect "tar" tar (fst fetched) in
      (exists st,
          fst (os.Stat targetDir (snd made)) = Ok st /\ IsDir st = true)
      /\ if (snd fetched =? 0)%Z then
           ran (snd r) = (ran w ++ [("wget", wget); ("tar", tar)])%list
           /\ if (snd extracted =? 0)%Z then
                fst r = None
                /\ fs (snd r)
                   = fs (snd (os.Remove ("/tmp/" ++ archiveName)
                                (snd (os.set_fs (fst extracted) w))))
              else
                fst r = Some (ErrExtractArchive (snd extracted))
                /\ fs (snd r) = fst extracted
         else
           ran (snd r) = (ran w ++ [("wget", wget)])%list
           /\ fst r = Some (ErrDownloadArchive (snd fetched))
           /\ fs (snd r) = fst fetched
  end.
Proof.
  intros a archiveName targetDir wget tar r made. subst r made.
  unfold downloadGoVersion, bind, fmt.Println, fmt.Printf, os.MkdirAll.
  cbn [fs]. fold a. fold archiveName. fold targetDir. fold wget. fold tar.
  destruct (tree.mkdirAll (tree.components targetDir) (fs w)) as [e|t] eqn:Hmk;
    [now repeat split|].
  unfold bind, os.set_fs, ret, sh.Run, os.Stat.
  cbn [fs ran HOME stdout logged fst snd].
  split.
  { destruct (mkdirAll_target _ _ _ Hmk) as (rd & es & ->).
    eexists. split; reflexivity. }
  destruct (effect "wget" wget t) as [t1 code1]. cbn [fst snd].
  destruct (code1 =? 0)%Z; [|now repeat split].
  cbn [fs ran]. destruct (effect "tar" tar t1) as [t2 code2]. cbn [fst snd].
  rewrite <- app_assoc.
  destruct (code2 =? 0)%Z; [|now repeat split].
  unfold os.Remove, bind, ret, os.set_fs, log.Printf. cbn [fs ran].
  destruct (tree.components ("/tmp/" ++ archiveName));
    [now repeat split|].
  destruct (tree.walk t2 _) as [e|[content|rd [|entry es]]]; now repeat split.
Qed.

End DownloadSteps.

(** ** Cleaning *)

Lemma wf_child (r : bool) (es : list (string * node)) (c : string)
  (ch : node) :
  tree.wf (Dir r es) = true -> tree.assoc c es = Some ch ->
  tree.wf ch = true.
Proof.
  cbn [tree.wf]. intros H Hc. apply andb_prop in H as [_ H].
  induction es as [|[k n] es IH]; [discriminate|].
  apply andb_prop in H as [Hn Hes]. simpl in Hc.
  destruct (String.eqb k c); [now injection Hc as <-|now apply IH].
Qed.

Lemma wf_walk (cs : list string) (n m : node) :
  tree.wf n = true -> tree.walk n cs = inr m -> tree.wf m = true.
Proof.
  revert n. induction cs as [|c cs IH]; intros n Hwf H.
  - now injection H as <-.
  - destruct n as [|r es]; [discriminate|]. simpl in H.
    destruct (tree.assoc c es) as [ch|] eqn:Hc; [|discriminate].
    exact (IH ch (wf_child _ _ _ _ Hwf Hc) H).
Qed.

Lemma nodupb_NoDup (l : list string) : tree.nodupb l = true -> NoDup l.
Proof.
  induction l as [|x l IH]; [constructor|]. simpl. intros H.
  apply andb_prop in H as [Hx Hl]. constructor; [|now apply IH].
  intros Hin. apply negb_true_iff in Hx.
  assert (existsb (String.eqb x) l = true); [|congruence].
  apply existsb_exists. exists x. split; [assumption|apply String.eqb_refl].
Qed.

Lemma wf_names (r : bool) (es : list (string * node)) :
  tree.wf (Dir r es) = true ->
  Forall (fun k => tree.valid_name k = true) (map fst es)
  /\ NoDup (map fst es).
Proof.
  cbn [tree.wf]. intros H. apply andb_prop in H as [H _].
  apply andb_prop in H as [Hv Hn]. split.
  - now apply Forall_forall, forallb_forall.
  - now apply nodupb_NoDup.
Qed.

Lemma In_insert_by_name (e x : DirEntry) (l : list DirEntry) :
  In x (os.insert_by_name e l) <-> x = e \/ In x l.
Proof.
  induction l as [|y l IH]; simpl; [intuition|].
  destruct (String.leb (Name e) (Name y)); simpl; [intuition|].
  rewrite IH. intuition.
Qed.

Lemma In_sort_by_name (x : DirEntry) (l : list DirEntry) :
  In x (os.sort_by_name l) <-> In x l.
Proof.
  induction l as [|y l IH]; simpl; [reflexivity|].
  rewrite In_insert_by_name, IH. intuition.
Qed.

Lemma del_entry_absent (c : string) (es : list (string * node)) :
  tree.assoc c es = None -> tree.del_entry c es = es.
Proof.
  unfold tree.del_entry. induction es as [|[k n] es IH]; [reflexivity|].
  simpl. destruct (String.eqb k c); [discriminate|].
  intros H. simpl. now rewrite IH.
Qed.

Lemma append_not_empty (a b : string) (c : ascii) :
  String.eqb (a ++ String c b) "" = false.
Proof. now destruct a. Qed.

Lemma last_Split_child (p name : string) :
  strings.Contains name "/" = false ->
  last (strings.Split (p ++ "/" ++ name) "/") "" = name.
Proof.
  intros H. change ("/" ++ name) with (String "/" name).
  rewrite Split_app_sep, (Split_free name "/" H). apply last_last.
Qed.

(** Removing the entry [name] of the root: [os.RemoveAll] writes to no
    stream, and when it returns no error the entry is gone from the root
    and nothing else is. *)
Lemma RemoveAll_child (root name : string) (w : World)
  (es : list (string * node)) :
  tree.valid_name name = true ->
  tree.walk (fs w) (tree.components root) = inr (Dir true es) ->
  let r := os.RemoveAll (root ++ "/" ++ name) w in
  logged (snd r) = logged w
  /\ (fst r = None ->
      tree.walk (fs (snd r)) (tree.components root)
      = inr (Dir true (tree.del_entry name es))).
Proof.
  intros Hv Hroot r. subst r. unfold os.RemoveAll.
  rewrite (components_child root name Hv).
  unfold tree.valid_name in Hv.
  apply andb_prop in Hv as [Hv Hslash]. apply andb_prop in Hv as [Hv _].
  apply andb_prop in Hv as [_ Hdot]. apply negb_true_iff in Hslash, Hdot.
  rewrite (last_Split_child root name Hslash), Hdot.
  change (root ++ "/" ++ name) with (root ++ String "/" name).
  rewrite append_not_empty, walk_app, Hroot. cbn [tree.walk].
  destruct (tree.assoc name es) as [n|] eqn:Hname.
  - destruct (tree.components root ++ [name])%list as [|c cs] eqn:Hcs;
      [now destruct (tree.components root)|].
    unfold bind, os.set_fs, ret. cbn [fst snd fs logged].
    split; [reflexivity|].
    destruct (tree.removeAll n) as [left|] eqn:Hleft; [discriminate|].
    intros _. rewrite <- Hcs.
    rewrite (update_child _ _ _ _ _ _ Hroot). reflexivity.
  - unfold ret. cbn [fst snd]. split; [reflexivity|].
    intros _. now rewrite (del_entry_absent _ _ Hname).
Qed.

(** One round of the loop: it either logs a warning, or removes the entry
    when the entry is a directory. *)
Lemma cleanGoVersions_remove_run (config : Config) (fi : DirEntry) (w : World)
  (es : list (string * node)) :
  tree.valid_name (Name fi) = true ->
  tree.walk (fs w) (tree.components (GoDownloadDir config))
  = inr (Dir true es) ->
  let w' := snd (cleanGoVersions_remove config fi tt w) in
  (exists warning, logged w' = (logged w ++ [warning])%list)
  \/ (logged w' = logged w
      /\ tree.walk (fs w') (tree.components (GoDownloadDir config))
         = inr (Dir true (if IsDir fi then tree.del_entry (Name fi) es
                          else es))).
Proof.
  intros Hv Hroot w'. subst w'. unfold cleanGoVersions_remove.
  destruct (IsDir fi); cbn [negb]; [|now right].
  unfold bind. cbn [fmt.Printf]. set (w1 := mkWorld _ _ _ _ _ _).
  destruct (RemoveAll_child (GoDownloadDir config) (Name fi) w1 es Hv Hroot)
    as [Hlog Hgone].
  destruct (os.RemoveAll _ w1) as [[err|] w2]; cbn [fst snd] in *.
  - left. cbn [log.Printf snd logged]. rewrite Hlog. eauto.
  - right. split; [exact Hlog|]. now apply Hgone.
Qed.

Lemma cleanGoVersions_remove_logged (config : Config) (fi : DirEntry)
  (w : World) :
  exists extra,
    logged (snd (cleanGoVersions_remove config fi tt w))
    = (logged w ++ extra)%list.
Proof.
  unfold cleanGoVersions_remove. destruct (IsDir fi); cbn [negb].
  - unfold bind. cbn [fmt.Printf]. set (w1 := mkWorld _ _ _ _ _ _).
    assert (Hlog : logged (snd (os.RemoveAll
                                  (GoDownloadDir config ++ "/" ++ Name fi) w1))
                   = logged w).
    { unfold os.RemoveAll.
      destruct (String.eqb _ ""); [reflexivity|].
      destruct (String.eqb _ "."); [reflexivity|].
      destruct (tree.walk _ _) as [[]|n]; reflexivity. }
    destruct (os.RemoveAll _ w1) as [[err|] w2]; cbn [fst snd] in *.
    + cbn [log.Printf snd logged]. rewrite Hlog. eauto.
    + exists []. now rewrite app_nil_r.
  - exists []. simpl. now rewrite app_nil_r.
Qed.

(** The log only grows during the loop. *)
Lemma clean_loop_logged (config : Config) (l : list DirEntry) (w : World) :
  exists extra,
    logged (snd (for_range l (cleanGoVersions_remove config) tt w))
    = (logged w ++ extra)%list.
Proof.
  revert w. induction l as [|fi l IH]; intros w.
  - exists []. simpl. now rewrite app_nil_r.
  - simpl. unfold bind.
    destruct (cleanGoVersions_remove_logged config fi w) as [e1 H1].
    destruct (cleanGoVersions_remove config fi tt w) as [[] w1].
    destruct (IH w1) as [e2 H2]. cbn [snd] in *.
    exists (e1 ++ e2)%list. now rewrite H2, H1, app_assoc.
Qed.

(** A loop that logs nothing has removed every directory it went over. *)
Lemma clean_loop_removes (config : Config) (l : list DirEntry) (w : World)
  (es : list (string * node)) :
  Forall (fun fi => tree.valid_name (Name fi) = true) l ->
  tree.walk (fs w) (tree.components (GoDownloadDir config))
  = inr (Dir true es) ->
  let w' := snd (for_range l (cleanGoVersions_remove config) tt w) in
  logged w' = logged w ->
  tree.walk (fs w') (tree.components (GoDownloadDir config))
  = inr (Dir true
           (fold_left (fun es fi => if IsDir fi
                                    then tree.del_entry (Name fi) es else es)
                      l es)).
Proof.
  revert w es. induction l as [|fi l IH]; intros w es Hv Hroot w' Hlog;
    subst w'; [exact Hroot|].
  inversion Hv as [|? ? Hfi Hl]; subst.
  simpl in *. unfold bind in *.
  destruct (cleanGoVersions_remove_run config fi w es Hfi Hroot)
    as [[warning H1]|[H1 Hroot1]];
    destruct (cleanGoVersions_remove config fi tt w) as [[] w1];
    cbn [snd] in *.
  - exfalso. destruct (clean_loop_logged config l w1) as [extra H2].
    rewrite Hlog, H1, <- app_assoc in H2.
    rewrite <- (app_nil_r (logged w)) in H2 at 1.
    apply app_inv_head in H2. discriminate.
  - apply IH; [assumption|assumption|congruence].
Qed.

Lemma In_del_entry (e : string * node) (c : string)
  (es : list (string * node)) :
  In e (tree.del_entry c es) <-> In e es /\ fst e <> c.
Proof.
  unfold tree.del_entry. rewrite filter_In, negb_true_iff, String.eqb_neq.
  reflexivity.
Qed.

Lemma In_removed (e : string * node) (l : list DirEntry)
  (es : list (string * node)) :
  In e (fold_left (fun es fi => if IsDir fi
                                then tree.del_entry (Name fi) es else es)
                  l es)
  <-> In e es /\ forall fi, In fi l -> IsDir fi = true -> Name fi <> fst e.
Proof.
  revert es. induction l as [|fi l IH]; intros es; simpl.
  - intuition.
  - rewrite IH. destruct (IsDir fi) eqn:Hd.
    + rewrite In_del_entry. split.
      * intros [[Hin Hne] Hl]. split; [assumption|].
        intros fi' [<-|Hin'] Hd'; [congruence|now apply Hl].
      * intros [Hin Hl]. repeat split; [assumption| |intros; apply Hl; auto].
        intros Heq. apply (Hl fi); auto.
    + split.
      * intros [Hin Hl]. split; [assumption|].
        intros fi' [<-|Hin'] Hd'; [congruence|now apply Hl].
      * intros [Hin Hl]. split; [assumption|intros; apply Hl; auto].
Qed.

Lemma NoDup_names_unique (es : list (string * node)) (k : string)
  (n n' : node) :
  NoDup (map fst es) -> In (k, n) es -> In (k, n') es -> n = n'.
Proof.
  induction es as [|[k0 n0] es IH]; [contradiction|]. simpl.
  intros Hnd [H|H] [H'|H'].
  - congruence.
  - injection H as -> ->. inversion Hnd as [|? ? Hnotin _]; subst.
    exfalso. apply Hnotin. now apply (in_map fst) in H'.
  - injection H' as -> ->. inversion Hnd as [|? ? Hnotin _]; subst.
    exfalso. apply Hnotin. now apply (in_map fst) in H.
  - inversion Hnd; subst. now apply IH.
Qed.

(** C7, as the code has it: on a well-formed file system whose root can be
    listed, a clean that returns and logs no failed removal leaves under
    the root exactly the entries that are not directories: every
    top-level directory is gone with all it held, and the loop passes
    over everything else. *)
Theorem clean_removes_top_level_directories
  (config : Config) (w : World) (dir : list DirEntry) :
  tree.wf (fs w) = true ->
  fst (os.ReadDir (GoDownloadDir config) w) = Ok dir ->
  let w' := snd (cleanGoVersions config w) in
  logged w' = logged w ->
  fst (cleanGoVersions config w) = None
  /\ exists dir',
      fst (os.ReadDir (GoDownloadDir config) w') = Ok dir'
      /\ forall e, In e dir' <-> In e dir /\ IsDir e = false.
Proof.
  intros Hwf Hdir w'. subst w'.
  pose proof (ReadDir_Ok_Stat _ _ _ Hdir) as Hstat.
  unfold cleanGoVersions, bind. cbn [fmt.Printf].
  set (w1 := mkWorld _ _ _ _ _ _).
  run_read. rewrite (Stat_same_fs _ w w1 eq_refl), Hstat.
  run_read. rewrite (ReadDir_same_fs _ w w1 eq_refl), Hdir.
  destruct (len dir =? 0)%Z eqn:Hlen.
  { intros _. split; [reflexivity|]. exists dir. cbn [fmt.Println fmt.Printf snd].
    rewrite <- Hdir. split; [reflexivity|].
    apply Z.eqb_eq in Hlen. destruct dir; [|discriminate].
    intros e. simpl. intuition. }
  unfold os.ReadDir in Hdir. cbn [fst] in Hdir.
  destruct (tree.walk (fs w) (tree.components (GoDownloadDir config)))
    as [e|[content|[|] es]] eqn:Hroot; try discriminate.
  injection Hdir as <-.
  destruct (wf_names _ _ (wf_walk _ _ _ Hwf Hroot)) as [Hvalid Hnodup].
  assert (Hnames : Forall (fun fi => tree.valid_name (Name fi) = true)
                     (os.sort_by_name (map os.entry_of es))).
  { apply Forall_forall. intros fi Hfi.
    apply In_sort_by_name, in_map_iff in Hfi as ([k n] & <- & Hin).
    rewrite Forall_forall in Hvalid. apply Hvalid.
    now apply (in_map fst) in Hin. }
  pose proof (clean_loop_removes config _ w1 es Hnames Hroot) as Hloop.
  destruct (for_range _ (cleanGoVersions_remove config) tt w1) as [[] w2].
  cbn [fmt.Println fmt.Printf ret fst snd logged] in *.
  intros Hlog. specialize (Hloop Hlog). split; [reflexivity|].
  unfold os.ReadDir. cbn [fst fs]. rewrite Hloop.
  eexists. split; [reflexivity|].
  intros e. rewrite !In_sort_by_name, !in_map_iff. split.
  - intros ([k n] & <- & Hin). apply In_removed in Hin as [Hin Hkept].
    split; [now exists (k, n)|].
    destruct (IsDir (os.entry_of (k, n))) eqn:Hd; [|reflexivity].
    exfalso. apply (Hkept (os.entry_of (k, n))); [|assumption|reflexivity].
    apply In_sort_by_name, in_map. exact Hin.
  - intros [([k n] & <- & Hin) Hfile]. exists (k, n). split; [reflexivity|].
    apply In_removed. split; [assumption|].
    intros fi Hfi Hd Hname.
    apply In_sort_by_name, in_map_iff in Hfi as ([k' n'] & <- & Hin').
    cbn [os.entry_of Name fst snd IsDir] in *. subst k'.
    rewrite (NoDup_names_unique es k n n' Hnodup Hin Hin') in Hfile.
    congruence.
Qed.

Lemma clean_removes_top_level_directories_witness :
  fst (cleanGoVersions NewConfig store_with_file) = None
  /\ exists dir',
      fst (os.ReadDir goDownloadDir (snd (cleanGoVersions NewConfig store_with_file)))
      = Ok dir'
      /\ forall e,
          In e dir'
          <-> In e [mkDirEntry "1.23.0" true; mkDirEntry "README" false]
              /\ IsDir e = false.
Proof.
  apply (clean_removes_top_level_directories NewConfig store_with_file
           [mkDirEntry "1.23.0" true; mkDirEntry "README" false]);
    reflexivity.
Defined.

(** A clean that succeeds in every removal leaves the file it found under
    the root where it was. *)
Lemma clean_leaves_files :
  fst (cleanGoVersions NewConfig store_with_file) = None
  /\ logged (snd (cleanGoVersions NewConfig store_with_file)) = []
  /\ fst (os.ReadDir goDownloadDir
            (snd (cleanGoVersions NewConfig store_with_file)))
     = Ok [mkDirEntry "README" false]
  /\ fst (os.ReadDir goDownloadDir
            (snd (cleanGoVersions NewConfig store_with_file)))
     <> Ok [].
Proof. repeat split; try reflexivity. discriminate. Qed.

(** The same on a run of the program: two switches to the only installed
    version, whose directory has a line break in its name. *)
Example switch_twice_line_break :
  let w1 := snd (switchGoVersion sample_cmd NewConfig "1" broken_store) in
  let w2 := snd (switchGoVersion sample_cmd NewConfig "1" w1) in
  fst (switchGoVersion sample_cmd NewConfig "1" w1) = None
  /\ exists profile,
      fst (os.ReadFile "/home/gopher/.profile" w2) = Ok profile
      /\ strings.Split profile "010"
         = [""; ""; "# Go environment variables";
            "rc1/linux-amd64/go/bin"; "rc1/linux-amd64/workspace";
            "rc1/linux-amd64/go";
            ""; "# Go environment variables";
            "export PATH=$PATH:/usr/local/bin/go-switcher/1.22";
            "rc1/linux-amd64/go/bin";
            "export GOPATH=/usr/local/bin/go-switcher/1.22";
            "rc1/linux-amd64/workspace";
            "export GOROOT=/usr/local/bin/go-switcher/1.22";
            "rc1/linux-amd64/go"].
Proof. split; [reflexivity|]. eexists. split; vm_compute; reflexivity. Qed.

(** A download on a machine without a store, with tools that do their
    work: the directory is not there before, and afterwards it is there
    with what [tar] put into it, and the archive is gone. *)
Lemma download_fetches_and_extracts_witness :
  let r := downloadGoVersion working_tools sample_cmd NewConfig "1.24.0"
             fresh_machine in
  os.IsNotExist
    (fst (os.Stat "/usr/local/bin/go-switcher/1.24.0/linux-amd64"
            fresh_machine))
  = true
  /\ fst r = None
  /\ ran (snd r)
     = [("wget", ["-O"; "/tmp/go1.24.0.linux-amd64.tar.gz";
                  "https://go.dev/dl/go1.24.0.linux-amd64.tar.gz"]);
        ("tar", ["-xzf"; "/tmp/go1.24.0.linux-amd64.tar.gz"; "-C";
                 "/usr/local/bin/go-switcher/1.24.0/linux-amd64"])]
  /\ fs (snd r)
     = dir_of
         [("usr", dir_of [("local", dir_of [("bin", dir_of [("go-switcher",
             dir_of [("1.24.0", dir_of [("linux-amd64", installed)])])])])]);
          ("tmp", dir_of []);
          ("home", dir_of [("gopher", dir_of [(".profile", File "PS1=$")])])].
Proof.
  pose proof (download_fetches_and_extracts working_tools sample_cmd NewConfig
                "1.24.0" fresh_machine) as H.
  vm_compute in H. destruct H as (_ & Hran & Hres & Hfs).
  split; [reflexivity|]. split; [exact Hres|]. split; [exact Hran|exact Hfs].
Defined.

(** * Further properties *)

(** ** Numbers typed back *)

Lemma digits_of_uint_acc (u : Decimal.uint) (acc : positive) :
  strconv.digits (NilEmpty.string_of_uint u) (Zpos acc)
  = Some (Zpos (Pos.of_uint_acc u acc)).
Proof.
  revert acc. induction u as [|u IH|u IH|u IH|u IH|u IH|u IH|u IH|u IH|u IH|u IH];
    intros acc; [reflexivity|..];
    cbn [NilEmpty.string_of_uint strconv.digits Pos.of_uint_acc];
    match goal with
    | |- context [strconv.digit ?c] =>
        let d := eval vm_compute in (strconv.digit c) in
        change (strconv.digit c) with d
    end;
    cbv iota beta;
    rewrite <- IH; f_equal; lia.
Qed.

Lemma digits_of_uint (u : Decimal.uint) :
  strconv.digits (NilEmpty.string_of_uint u) 0
  = Some (Z.of_N (Pos.of_uint u)).
Proof.
  induction u as [|u IH|u IH|u IH|u IH|u IH|u IH|u IH|u IH|u IH|u IH];
    [reflexivity|exact IH|..];
    cbn [NilEmpty.string_of_uint strconv.digits Pos.of_uint];
    match goal with
    | |- context [strconv.digit ?c] =>
        let d := eval vm_compute in (strconv.digit c) in
        change (strconv.digit c) with d
    end;
    cbv iota beta; apply digits_of_uint_acc.
Qed.

Lemma Atoi_of_uint (u : Decimal.uint) :
  u <> Decimal.Nil ->
  strconv.Atoi (NilEmpty.string_of_uint u)
  = if (Z.of_N (Pos.of_uint u) <=? strconv.maxInt)%Z
    then Some (Z.of_N (Pos.of_uint u)) else None.
Proof.
  intros Hu. pose proof (digits_of_uint u) as Hd.
  assert (Hmin : (strconv.minInt <=? Z.of_N (Pos.of_uint u))%Z = true).
  { apply Z.leb_le. unfold strconv.minInt. lia. }
  destruct u; [contradiction|..];
    cbn [NilEmpty.string_of_uint] in *;
    unfold strconv.Atoi;
    match goal with
    | |- context [String ?c ?s] =>
        change (Ascii.eqb c "-") with false;
        change (Ascii.eqb c "+") with false
    end;
    cbv iota beta; rewrite Hd, Hmin; reflexivity.
Qed.

(** X9: a number within [int] that is printed with [%d] is read back by
    [strconv.Atoi] as that number; so the index that [list] prints in
    front of an entry is an argument that [switch] takes as that index. *)
Theorem Atoi_Itoa (n : Z) :
  (strconv.minInt <= n <= strconv.maxInt)%Z ->
  strconv.Atoi (strconv.Itoa n) = Some n.
Proof.
  intros [Hlo Hhi]. unfold strconv.Itoa. destruct n as [|p|p].
  - reflexivity.
  - cbn [Z.to_int NilEmpty.string_of_int].
    rewrite (Atoi_of_uint _ (Unsigned.to_uint_nonnil p)), Unsigned.of_to.
    cbn [Z.of_N]. apply Z.leb_le in Hhi. now rewrite Hhi.
  - cbn [Z.to_int NilEmpty.string_of_int]. unfold strconv.Atoi.
    change (Ascii.eqb "-" "-") with true. cbv iota beta.
    pose proof (digits_of_uint (Pos.to_uint p)) as Hd.
    rewrite Unsigned.of_to in Hd. cbn [Z.of_N] in Hd.
    pose proof (Unsigned.to_uint_nonnil p) as Hnil.
    destruct (NilEmpty.string_of_uint (Pos.to_uint p)) eqn:Hs.
    + destruct (Pos.to_uint p); try contradiction; discriminate.
    + rewrite Hd. change (- Z.pos p)%Z with (Z.neg p).
      apply Z.leb_le in Hlo. rewrite Hlo.
      assert (H : (Z.neg p <=? strconv.maxInt)%Z = true).
      { apply Z.leb_le. unfold strconv.maxInt. lia. }
      now rewrite H.
Qed.

Lemma Atoi_Itoa_witness :
  strconv.Atoi (strconv.Itoa 12) = Some 12%Z.
Proof. apply Atoi_Itoa. vm_compute. split; discriminate. Defined.

Lemma digits_no_dot (s : string) (acc v : Z) :
  strconv.digits s acc = Some v -> strings.Contains s "." = false.
Proof.
  revert acc. induction s as [|x s IH]; intros acc H; [reflexivity|].
  change "."%string with (byte ".") in *. rewrite Contains_byte_cons.
  cbn [strconv.digits] in H.
  destruct (strconv.digit x) as [d|] eqn:Hx; [|discriminate].
  rewrite (IH _ H), orb_false_r.
  destruct (Ascii.eqb_spec "." x) as [<-|]; [discriminate|reflexivity].
Qed.

(** X10: an argument with a dot in it, as every Go version has one, is
    never read as a number: [switch 1.22.0] always goes by name. *)
Theorem Atoi_refuses_dotted (s : string) :
  strings.Contains s "." = true -> strconv.Atoi s = None.
Proof.
  intros Hdot. destruct (strconv.Atoi s) as [n|] eqn:Hn; [|reflexivity].
  exfalso. unfold strconv.Atoi in Hn. destruct s as [|c s]; [discriminate|].
  change "."%string with (byte ".") in Hdot.
  rewrite Contains_byte_cons in Hdot.
  destruct (Ascii.eqb_spec c "-") as [->|Hminus];
    [|destruct (Ascii.eqb_spec c "+") as [->|Hplus]].
  - destruct s as [|c' s']; [discriminate|].
    destruct (strconv.digits (String c' s') 0) as [v|] eqn:Hd; [|discriminate].
    apply digits_no_dot in Hd. change "."%string with (byte ".") in Hd.
    rewrite Hd in Hdot. discriminate.
  - destruct s as [|c' s']; [discriminate|].
    destruct (strconv.digits (String c' s') 0) as [v|] eqn:Hd; [|discriminate].
    apply digits_no_dot in Hd. change "."%string with (byte ".") in Hd.
    rewrite Hd in Hdot. discriminate.
  - destruct (strconv.digits (String c s) 0) as [v|] eqn:Hd; [|discriminate].
    apply digits_no_dot in Hd. change "."%string with (byte ".") in Hd.
    rewrite Contains_byte_cons, Hdot in Hd. discriminate.
Qed.

Lemma Atoi_refuses_dotted_witness : strconv.Atoi "1.22.0" = None.
Proof. apply Atoi_refuses_dotted. reflexivity. Defined.

(** ** Listing *)

(** X1: [listGoVersions] only reads: whatever it finds, it leaves the file
    system, the environment and the log as they were, and the only error
    it returns is the one of listing the root. *)
Theorem listGoVersions_reads_only (cmd : Command) (config : Config) (w : World) :
  let r := listGoVersions cmd config w in
  fs (snd r) = fs w /\ HOME (snd r) = HOME w /\ logged (snd r) = logged w
  /\ (fst r = None
      \/ exists err,
          fst r = Some (ErrReadDirectory err)
          /\ fst (os.ReadDir (GoDownloadDir config) w) = Failed err).
Proof.
  intros r. subst r. unfold listGoVersions, bind. cbn [fmt.Printf].
  set (w1 := mkWorld _ _ _ _ _ _).
  run_read.
  destruct (os.IsNotExist _).
  { split; [reflexivity|]. split; [reflexivity|]. split; [reflexivity|].
    now left. }
  run_read. rewrite (ReadDir_same_fs _ w w1 eq_refl).
  destruct (fst (os.ReadDir (GoDownloadDir config) w)) as [dir|err].
  2:{ split; [reflexivity|]. split; [reflexivity|]. split; [reflexivity|].
      right. now exists err. }
  destruct (listGoVersions_scan_frame config dir w1) as (F1 & F2 & F3 & _).
  destruct (listGoVersions_scan config dir w1) as [f w2]. cbn [fst snd] in *.
  destruct (len (versions f) =? 0)%Z.
  { split; [exact F1|]. split; [exact F2|]. split; [exact F3|]. now left. }
  match goal with
  | |- context [for_range ?l (fun i _ => fmt.Printf (@?g i)) tt w2] =>
      destruct (for_range_Printf g l w2) as (_ & P2 & P3 & P4);
      destruct (for_range l (fun i _ => fmt.Printf (g i)) tt w2) as [u w3]
  end.
  subst w1. cbn [fst snd set_Annotations ret fs HOME logged] in *.
  split; [congruence|]. split; [congruence|]. split; [congruence|]. now left.
Qed.

(** ** A root that cannot be listed *)

(** X3: when the root is there and listing it fails (it is a file, or the
    process may not read it), [listGoVersions], [cleanGoVersions] and
    [switchGoVersion] all return that failure as a read-directory error
    and leave the file system as it was. *)
Theorem unlistable_root_is_read_error
  (cmd : Command) (config : Config) (versionOrNumber : string) (w : World)
  (err : PathError) :
  fst (os.ReadDir (GoDownloadDir config) w) = Failed err ->
  os.IsNotExist (fst (os.Stat (GoDownloadDir config) w)) = false ->
  (fst (listGoVersions cmd config w) = Some (ErrReadDirectory err)
   /\ fs (snd (listGoVersions cmd config w)) = fs w)
  /\ (fst (cleanGoVersions config w) = Some (ErrReadDirectory err)
      /\ fs (snd (cleanGoVersions config w)) = fs w)
  /\ (fst (switchGoVersion cmd config versionOrNumber w)
      = Some (ErrReadDirectory err)
      /\ fs (snd (switchGoVersion cmd config versionOrNumber w)) = fs w).
Proof.
  intros Hdir Hstat. split; [|split].
  - unfold listGoVersions, bind. cbn [fmt.Printf].
    set (w1 := mkWorld _ _ _ _ _ _).
    run_read. rewrite (Stat_same_fs _ w w1 eq_refl), Hstat.
    run_read. rewrite (ReadDir_same_fs _ w w1 eq_refl), Hdir. now split.
  - unfold cleanGoVersions, bind. cbn [fmt.Printf].
    set (w1 := mkWorld _ _ _ _ _ _).
    run_read. rewrite (Stat_same_fs _ w w1 eq_refl), Hstat.
    run_read. rewrite (ReadDir_same_fs _ w w1 eq_refl), Hdir. now split.
  - unfold switchGoVersion, switchGoVersion_resolve, bind.
    run_read. cbn [fst] in Hdir. rewrite Hdir. now split.
Qed.

Lemma unlistable_root_is_read_error_witness :
  fst (listGoVersions sample_cmd NewConfig locked_store)
  = Some (ErrReadDirectory (mkPathError "open" goDownloadDir EACCES))
  /\ fst (switchGoVersion sample_cmd NewConfig "1" locked_store)
     = Some (ErrReadDirectory (mkPathError "open" goDownloadDir EACCES)).
Proof.
  destruct (unlistable_root_is_read_error sample_cmd NewConfig "1"
              locked_store (mkPathError "open" goDownloadDir EACCES)
              eq_refl eq_refl) as ((Hl & _) & _ & (Hs & _)).
  split; [exact Hl|exact Hs].
Defined.

(** ** What the scan finds *)

Lemma bind_run {A B : Type} (c : IO A) (k : A -> IO B) (w : World) :
  bind c k w = let '(a, w') := c w in k a w'.
Proof. reflexivity. Qed.

Lemma arch_loop_finds (config : Config) (fi : DirEntry)
  (archDirs : list DirEntry) (acc : found) (w : World) :
  let f := fst (for_range archDirs (add_architecture config fi) acc w) in
  let pairs := map (fun archFi => (Name fi, Name archFi))
                   (filter IsDir archDirs) in
  versions f = (versions acc ++ map fst pairs)%list
  /\ architectures f = (architectures acc ++ map snd pairs)%list
  /\ paths f = (paths acc ++ map (path_of config) pairs)%list.
Proof.
  revert acc. induction archDirs as [|x l IH]; intros acc.
  - cbn. now rewrite !app_nil_r.
  - cbn [for_range filter]. unfold bind. rewrite add_architecture_run.
    destruct (IsDir x).
    + destruct (IH (mkFound (append (versions acc) (Name fi))
                      (append (architectures acc) (Name x))
                      (append (paths acc)
                         (GoDownloadDir config ++ "/" ++ Name fi ++ "/"
                          ++ Name x)))) as (H1 & H2 & H3).
      cbn [versions architectures paths map fst snd] in *. unfold append in *.
      rewrite H1, H2, H3, <- !app_assoc. now repeat split.
    + apply IH.
Qed.

Lemma scan_finds_from (config : Config) (dir : list DirEntry) (acc : found)
  (w : World) :
  let f := fst (for_range dir
                  (fun fi acc =>
                     if negb (IsDir fi) then ret acc
                     else
                       let versionDir :=
                         GoDownloadDir config ++ "/" ++ Name fi in
                       archDirs <- os.ReadDir versionDir ;;
                       match archDirs with
                       | Failed err =>
                           log.Printf
                             ("Error reading version directory " ++ Name fi
                              ++ ": " ++ os.Error err) ;;
                           ret acc
                       | Ok archDirs =>
                           for_range archDirs (add_architecture config fi) acc
                       end) acc w) in
  let pairs := installed_pairs config dir w in
  versions f = (versions acc ++ map fst pairs)%list
  /\ architectures f = (architectures acc ++ map snd pairs)%list
  /\ paths f = (paths acc ++ map (path_of config) pairs)%list.
Proof.
  revert acc w. induction dir as [|fi dir IH]; intros acc w.
  - cbn. now rewrite !app_nil_r.
  - cbn [for_range installed_pairs flat_map].
    fold (installed_pairs config dir w).
    rewrite (bind_run _ _ w). cbv beta.
    destruct (IsDir fi); cbn [negb ret]; [|apply IH].
    rewrite (bind_run _ _ w). run_read.
    destruct (fst (os.ReadDir _ w)) as [archDirs|err].
    + destruct (arch_loop_pure config fi archDirs acc w) as [Hw _].
      destruct (arch_loop_finds config fi archDirs acc w) as (A1 & A2 & A3).
      destruct (for_range archDirs _ acc w) as [f1 w1]. cbn [fst snd] in *.
      subst w1. destruct (IH f1 w) as (H1 & H2 & H3).
      rewrite H1, H2, H3, A1, A2, A3, !map_app, <- !app_assoc.
      now repeat split.
    + rewrite (bind_run _ _ w). cbn [log.Printf ret].
      match goal with
      | |- context [for_range dir ?b acc ?w1] =>
          destruct (IH acc w1) as (H1 & H2 & H3)
      end.
      assert (Hsame : installed_pairs config dir
                        (mkWorld (fs w) (HOME w) (stdout w)
                           (logged w ++ ["Error reading version directory "
                                         ++ Name fi ++ ": " ++ os.Error err])
                           (ran w) (Annotations w))
                      = installed_pairs config dir w) by reflexivity.
      rewrite Hsame in *. now repeat split.
Qed.

Lemma switchGoVersion_scan_pairs (config : Config) (dir : list DirEntry)
  (w : World) :
  versions (fst (switchGoVersion_scan config dir w))
  = map fst (installed_pairs config dir w)
  /\ architectures (fst (switchGoVersion_scan config dir w))
     = map snd (installed_pairs config dir w)
  /\ paths (fst (switchGoVersion_scan config dir w))
     = map (path_of config) (installed_pairs config dir w).
Proof. exact (scan_finds_from config dir (mkFound [] [] []) w). Qed.

(** X4: the scan of [switchGoVersion], and with it the scan of
    [listGoVersions], finds exactly the installed pairs: [versions] holds
    their first halves, [architectures] their second halves and [paths]
    the path [<root>/<version>/<architecture>] of each, in the same order;
    so the three slices have one entry per pair and stay aligned. *)
Theorem scan_finds_installed_pairs (config : Config) (dir : list DirEntry)
  (w : World) :
  let f := fst (switchGoVersion_scan config dir w) in
  let pairs := installed_pairs config dir w in
  (versions f = map fst pairs
   /\ architectures f = map snd pairs
   /\ paths f = map (path_of config) pairs)
  /\ fst (listGoVersions_scan config dir w) = f.
Proof.
  intros f pairs. split.
  - exact (scan_finds_from config dir (mkFound [] [] []) w).
  - symmetry. now apply scans_agree.
Qed.

Lemma string_app_assoc (a b c : string) : (a ++ b) ++ c = a ++ b ++ c.
Proof. induction a as [|x a IH]; [reflexivity|]. simpl. now rewrite IH. Qed.

Lemma In_assoc (es : list (string * node)) (k : string) (n : node) :
  NoDup (map fst es) -> In (k, n) es -> tree.assoc k es = Some n.
Proof.
  induction es as [|[k0 n0] es IH]; [contradiction|]. simpl.
  intros Hnd [H|H].
  - injection H as -> ->. now rewrite String.eqb_refl.
  - inversion Hnd as [|? ? Hnotin Hnd']; subst.
    destruct (String.eqb_spec k0 k) as [->|_]; [|now apply IH].
    exfalso. apply Hnotin. now apply (in_map fst) in H.
Qed.

(** What listing a directory of a well-formed tree tells about it. *)
Lemma ReadDir_entries (name : string) (w : World) (dir : list DirEntry) :
  tree.wf (fs w) = true ->
  fst (os.ReadDir name w) = Ok dir ->
  exists es,
    tree.walk (fs w) (tree.components name) = inr (Dir true es)
    /\ tree.wf (Dir true es) = true
    /\ forall fi, In fi dir <-> exists n, In (Name fi, n) es
                                          /\ fi = os.entry_of (Name fi, n).
Proof.
  intros Hwf Hdir. unfold os.ReadDir in Hdir. cbn [fst] in Hdir.
  destruct (tree.walk (fs w) (tree.components name))
    as [e|[content|[|] es]] eqn:Hwalk; try discriminate.
  injection Hdir as <-. exists es. split; [reflexivity|].
  split; [exact (wf_walk _ _ _ Hwf Hwalk)|].
  intros fi. rewrite In_sort_by_name, in_map_iff. split.
  - intros ([k n] & <- & Hin). now exists n.
  - intros (n & Hin & Hfi). exists (Name fi, n). now split.
Qed.

(** On a well-formed file system every installed pair stands for a
    directory that is there. *)
Lemma installed_pair_is_directory (config : Config) (dir : list DirEntry)
  (w : World) (pair : string * string) :
  tree.wf (fs w) = true ->
  fst (os.ReadDir (GoDownloadDir config) w) = Ok dir ->
  In pair (installed_pairs config dir w) ->
  exists st,
    fst (os.Stat (path_of config pair) w) = Ok st /\ IsDir st = true.
Proof.
  intros Hwf Hdir Hpair.
  apply in_flat_map in Hpair as (fi & Hfi & Hpair).
  destruct (IsDir fi) eqn:Hfidir; [|contradiction].
  destruct (fst (os.ReadDir (GoDownloadDir config ++ "/" ++ Name fi) w))
    as [archDirs|err] eqn:Harch; [|contradiction].
  apply in_map_iff in Hpair as (archFi & <- & HarchFi).
  apply filter_In in HarchFi as [HarchFi Hisdir].
  destruct (ReadDir_entries _ _ _ Hwf Hdir) as (es & Hroot & Hwfroot & Hes).
  apply Hes in Hfi as (n & Hin & Hfi).
  destruct (wf_names _ _ Hwfroot) as [Hvalid _].
  rewrite Forall_forall in Hvalid.
  pose proof (Hvalid _ (in_map fst _ _ Hin)) as Hv. cbn [fst] in Hv.
  destruct (ReadDir_entries _ _ _ Hwf Harch) as (es2 & Hsub & Hwfsub & Hes2).
  apply Hes2 in HarchFi as (n2 & Hin2 & HarchFi).
  destruct (wf_names _ _ Hwfsub) as [Hvalid2 Hnodup2].
  rewrite Forall_forall in Hvalid2.
  pose proof (Hvalid2 _ (in_map fst _ _ Hin2)) as Ha. cbn [fst] in Ha.
  unfold path_of, os.Stat. cbn [fst snd].
  replace (GoDownloadDir config ++ "/" ++ Name fi ++ "/" ++ Name archFi)
    with ((GoDownloadDir config ++ "/" ++ Name fi) ++ "/" ++ Name archFi)
    by (now rewrite !string_app_assoc).
  rewrite (components_child _ _ Ha), walk_app, Hsub. cbn [tree.walk].
  rewrite (In_assoc _ _ _ Hnodup2 Hin2).
  eexists. split; [reflexivity|].
  rewrite HarchFi in Hisdir. exact Hisdir.
Qed.

(** X6: on a well-formed file system a number between 1 and the count
    always resolves to a directory that exists, namely
    [<root>/<version>/<architecture>] of the version and architecture it
    selects; so a switch by number never fails with "not installed". *)
Theorem switch_by_index_finds_directory
  (cmd : Command) (config : Config) (versionOrNumber : string) (num : Z)
  (w : World) (dir : list DirEntry) :
  tree.wf (fs w) = true ->
  fst (os.ReadDir (GoDownloadDir config) w) = Ok dir ->
  strconv.Atoi versionOrNumber = Some num ->
  (1 <= num <= len (versions (fst (switchGoVersion_scan config dir w))))%Z ->
  (exists sel st,
      fst (switchGoVersion_resolve cmd config versionOrNumber w) = inr sel
      /\ versionDir sel
         = GoDownloadDir config ++ "/" ++ version sel ++ "/" ++ arch sel
      /\ fst (os.Stat (versionDir sel) w) = Ok st /\ IsDir st = true)
  /\ forall v a,
      fst (switchGoVersion cmd config versionOrNumber w)
      <> Some (ErrNotInstalled v a).
Proof.
  intros Hwf Hdir Hnum Hrange.
  pose proof (switchGoVersion_resolve_by_number cmd config versionOrNumber
                num w dir Hdir Hnum) as Hres. cbv zeta in Hres.
  destruct (switchGoVersion_scan_pairs config dir w) as (Hv & Ha & Hp).
  set (f := fst (switchGoVersion_scan config dir w)) in *.
  set (pairs := installed_pairs config dir w) in *.
  assert (Hlen : len (versions f) = Z.of_nat (List.length pairs)).
  { unfold len. now rewrite Hv, length_map. }
  destruct (Z.eqb_spec (len (versions f)) 0); [lia|].
  destruct (Z.ltb_spec num 1); [lia|].
  destruct (Z.gtb_spec num (len (versions f))); [lia|].
  cbn [orb] in Hres.
  assert (Hn : (Z.to_nat (num - 1) < List.length pairs)%nat) by lia.
  set (pair := nth (Z.to_nat (num - 1)) pairs ("", "")).
  assert (Hin : In pair pairs) by now apply nth_In.
  assert (Hversion : index (versions f) (num - 1) = fst pair).
  { unfold index. rewrite Hv.
    rewrite (nth_indep _ "" (fst ("", ""))) by now rewrite length_map.
    apply map_nth. }
  assert (Harch : index (architectures f) (num - 1) = snd pair).
  { unfold index. rewrite Ha.
    rewrite (nth_indep _ "" (snd ("", ""))) by now rewrite length_map.
    apply map_nth. }
  assert (Hpath : index (paths f) (num - 1) = path_of config pair).
  { unfold index. rewrite Hp.
    rewrite (nth_indep _ "" (path_of config ("", "")))
      by now rewrite length_map.
    apply map_nth. }
  rewrite Hversion, Harch, Hpath in Hres.
  destruct (installed_pair_is_directory config dir w pair Hwf Hdir Hin)
    as (st & Hst & Hisdir).
  split.
  - exists (mkSelection (fst pair) (snd pair) (path_of config pair)), st.
    repeat split; assumption.
  - intros v a.
    destruct (switchGoVersion_run cmd config versionOrNumber w) as [_ Hrun].
    rewrite Hres in Hrun. cbn [versionDir] in Hrun. rewrite Hst in Hrun.
    cbn [os.IsNotExist] in Hrun.
    destruct (tree.mkdirAll _ (fs w)); [destruct Hrun as [-> _]; discriminate|].
    destruct (String.eqb (HOME w) "");
      [destruct Hrun as [-> _]; discriminate|].
    destruct (tree.walk _ _) as [e|[old|rd es]];
      destruct Hrun as [-> _]; discriminate.
Qed.

Lemma switch_by_index_finds_directory_witness :
  exists st,
    fst (os.Stat "/usr/local/bin/go-switcher/1.23.0/linux-amd64" sample) = Ok st
    /\ IsDir st = true.
Proof.
  edestruct (switch_by_index_finds_directory sample_cmd NewConfig "3" 3 sample)
    as ((sel & st & Hsel & _ & Hst & Hdir) & _).
  - reflexivity.
  - reflexivity.
  - reflexivity.
  - vm_compute. split; discriminate.
  - injection Hsel as <-. now exists st.
Defined.

(** ** Numbers and names *)

Lemma switchGoVersion_resolve_ignores_flag (cmd cmd' : Command)
  (config : Config) (versionOrNumber : string) (num : Z) (w : World) :
  strconv.Atoi versionOrNumber = Some num ->
  switchGoVersion_resolve cmd config versionOrNumber w
  = switchGoVersion_resolve cmd' config versionOrNumber w.
Proof.
  intros Hnum. unfold switchGoVersion_resolve.
  rewrite !(bind_run _ _ w). run_read.
  destruct (fst (os.ReadDir (GoDownloadDir config) w)) as [dir|err];
    [|reflexivity].
  rewrite !(bind_run _ _ w).
  destruct (switchGoVersion_scan config dir w) as [f w1].
  now rewrite Hnum.
Qed.

(** X7: when the argument is a number, the [--arch] flag plays no part:
    two commands that differ in the flag only run the same switch. *)
Theorem switch_by_number_ignores_arch_flag (cmd cmd' : Command)
  (config : Config) (versionOrNumber : string) (num : Z) (w : World) :
  strconv.Atoi versionOrNumber = Some num ->
  switchGoVersion cmd config versionOrNumber w
  = switchGoVersion cmd' config versionOrNumber w.
Proof.
  intros Hnum. unfold switchGoVersion. rewrite !(bind_run _ _ w).
  now rewrite (switchGoVersion_resolve_ignores_flag cmd cmd' config
                 versionOrNumber num w Hnum).
Qed.

Lemma switch_by_number_ignores_arch_flag_witness :
  switchGoVersion (mkCommand "darwin-amd64") NewConfig "3" sample
  = switchGoVersion (mkCommand "linux-amd64") NewConfig "3" sample.
Proof.
  exact (switch_by_number_ignores_arch_flag (mkCommand "darwin-amd64")
           (mkCommand "linux-amd64") NewConfig "3" 3 sample eq_refl).
Defined.

Lemma walk_errno (n : node) (cs : list string) (e : Errno) :
  tree.walk n cs = inl e -> e = ENOENT \/ e = ENOTDIR.
Proof.
  revert n. induction cs as [|c cs IH]; intros n H; [discriminate|].
  simpl in H. destruct n as [content|rd es].
  - injection H as <-. now right.
  - destruct (tree.assoc c es) as [ch|]; [now apply (IH ch)|].
    injection H as <-. now left.
Qed.

(** [MkdirAll] of a path that runs through a file fails. *)
Lemma mkdirAll_through_file (cs rest : list string) (n : node) :
  tree.walk n cs = inl ENOTDIR ->
  tree.mkdirAll (cs ++ rest) n = inl ENOTDIR.
Proof.
  revert n. induction cs as [|c cs IH]; intros n H; [discriminate|].
  simpl in H. destruct n as [content|rd es]; [reflexivity|]. simpl.
  destruct (tree.assoc c es) as [ch|]; [|discriminate].
  now rewrite (IH ch H).
Qed.

(** X8: when the argument is not a number and the scan finds something,
    the argument is the version and the flag the architecture.  When
    [os.Stat] finds nothing at [<root>/<version>/<arch>], a path that
    never steps back, there are two cases.  A name on the way is missing
    ("no such file or directory"): the switch fails with "not installed"
    for that version and architecture.  A file is on the way ("not a
    directory"): [os.IsNotExist] does not hold of that error, the switch
    goes on to [os.MkdirAll] and fails with "create workspace directory".
    In both cases the file system is left as it was. *)
Theorem switch_by_name_not_installed
  (cmd : Command) (config : Config) (versionOrNumber : string) (w : World)
  (dir : list DirEntry) (e : PathError) :
  let path :=
    GoDownloadDir config ++ "/" ++ versionOrNumber ++ "/" ++ flag_arch cmd in
  let r := switchGoVersion cmd config versionOrNumber w in
  fst (os.ReadDir (GoDownloadDir config) w) = Ok dir ->
  versions (fst (switchGoVersion_scan config dir w)) <> [] ->
  strconv.Atoi versionOrNumber = None ->
  no_dotdot path = true ->
  fst (os.Stat path w) = Failed e ->
  fs (snd r) = fs w
  /\ match Err e with
     | ENOENT =>
         fst r = Some (ErrNotInstalled versionOrNumber (flag_arch cmd))
     | _ =>
         Err e = ENOTDIR
         /\ exists err, fst r = Some (ErrCreateWorkspace err)
     end.
Proof.
  intros path r Hdir Hfound Hname _ Hstat. subst r.
  assert (Hres : fst (switchGoVersion_resolve cmd config versionOrNumber w)
                 = inr (mkSelection versionOrNumber (flag_arch cmd) path)).
  { unfold switchGoVersion_resolve. rewrite (bind_run _ _ w). run_read.
    cbn [fst] in Hdir. rewrite Hdir. rewrite (bind_run _ _ w).
    destruct (switchGoVersion_scan config dir w) as [f w1].
    cbn [fst] in Hfound. rewrite Hname.
    destruct (Z.eqb_spec (len (versions f)) 0) as [Hlen|]; [|reflexivity].
    unfold len in Hlen. destruct (versions f); [contradiction|discriminate]. }
  destruct (switchGoVersion_run cmd config versionOrNumber w) as [_ Hrun].
  rewrite Hres in Hrun. cbn [versionDir version arch] in Hrun.
  rewrite Hstat in Hrun. unfold os.Stat in Hstat. cbn [fst] in Hstat.
  destruct (tree.walk (fs w) (tree.components path)) as [errno|n] eqn:Hwalk;
    [|discriminate].
  injection Hstat as <-. cbn [Err os.IsNotExist] in *.
  destruct (walk_errno _ _ _ Hwalk) as [->| ->].
  - destruct Hrun as [Hr Hfs]. now split.
  - rewrite components_workspace, (mkdirAll_through_file _ _ _ Hwalk) in Hrun.
    destruct Hrun as [Hr Hfs]. split; [exact Hfs|]. split; [reflexivity|].
    eexists. exact Hr.
Qed.

Lemma switch_by_name_not_installed_witness :
  fst (switchGoVersion sample_cmd NewConfig "1.21.0" sample)
  = Some (ErrNotInstalled "1.21.0" "linux-amd64")
  /\ exists err,
       fst (switchGoVersion sample_cmd NewConfig "README" sample)
       = Some (ErrCreateWorkspace err).
Proof.
  split.
  - pose proof (switch_by_name_not_installed sample_cmd NewConfig "1.21.0"
                  sample) as H.
    cbv zeta in H. edestruct H as (_ & Herr).
    + reflexivity.
    + vm_compute. discriminate.
    + reflexivity.
    + reflexivity.
    + reflexivity.
    + exact Herr.
  - pose proof (switch_by_name_not_installed sample_cmd NewConfig "README"
                  sample) as H.
    cbv zeta in H. edestruct H as (_ & Herr).
    + reflexivity.
    + vm_compute. discriminate.
    + reflexivity.
    + reflexivity.
    + reflexivity.
    + cbn [Err] in Herr. destruct Herr as (_ & Herr). exact Herr.
Defined.

(** The error of the second switch names the file that is in the way. *)
Example switch_through_a_file :
  fst (switchGoVersion sample_cmd NewConfig "README" sample)
  = Some (ErrCreateWorkspace
            (mkPathError "mkdir" "/usr/local/bin/go-switcher/README" ENOTDIR))
  /\ fs (snd (switchGoVersion sample_cmd NewConfig "README" sample))
     = fs sample.
Proof. split; vm_compute; reflexivity. Qed.

(** ** More on the profile *)

Lemma export_triple_dropped (versionDir : string) :
  filter (fun line => negb (is_export_line line)) (export_triple versionDir)
  = [].
Proof.
  unfold export_triple, is_export_line. cbn [filter].
  rewrite !Contains_prefix, !orb_true_r. reflexivity.
Qed.

Lemma headers_kept (n : nat) :
  filter (fun line => negb (is_export_line line))
         (List.concat (repeat [""; "# Go environment variables"] n))
  = List.concat (repeat [""; "# Go environment variables"] n).
Proof.
  induction n as [|n IH]; [reflexivity|].
  cbn [repeat List.concat]. rewrite filter_app, IH. reflexivity.
Qed.

Lemma headers_snoc (n : nat) :
  (List.concat (repeat [""; "# Go environment variables"] n)
   ++ [""; "# Go environment variables"])%list
  = List.concat (repeat [""; "# Go environment variables"] (S n)).
Proof.
  induction n as [|n IH]; [reflexivity|].
  cbn [repeat List.concat] in *. rewrite <- app_assoc, IH. reflexivity.
Qed.

(** X11: every further switch to the same version makes the profile two
    lines longer: after [n + 1] rewrites for a version directory without
    a line break the profile holds the lines kept from the first profile,
    then [n + 1] times the blank line and the comment, then the three
    exports once. *)
Theorem rewrite_times_lines (n : nat) (old versionDir : string) :
  strings.Contains versionDir nl = false ->
  strings.Split (rewrite_times (S n) old versionDir) "010"
  = (filter (fun line => negb (is_export_line line))
            (strings.Split old "010")
     ++ List.concat (repeat [""; "# Go environment variables"] (S n))
     ++ export_triple versionDir)%list.
Proof.
  intros Hd. induction n as [|n IH].
  - cbn [rewrite_times]. rewrite rewrite_is_rewrite_spec.
    now rewrite (Split_rewrite_spec old versionDir Hd).
  - change (rewrite_times (S (S n)) old versionDir)
      with (rewrite (rewrite_times (S n) old versionDir) versionDir).
    rewrite rewrite_is_rewrite_spec, (Split_rewrite_spec _ versionDir Hd), IH.
    rewrite !filter_app, filter_idem, headers_kept, export_triple_dropped.
    rewrite app_nil_r, <- (headers_snoc (S n)), <- !app_assoc. reflexivity.
Qed.

Lemma rewrite_times_lines_witness :
  strings.Split
    (rewrite_times 3 "PS1=$" "/usr/local/bin/go-switcher/1.23.0/linux-amd64")
    "010"
  = ["PS1=$";
     ""; "# Go environment variables";
     ""; "# Go environment variables";
     ""; "# Go environment variables";
     "export PATH=$PATH:/usr/local/bin/go-switcher/1.23.0/linux-amd64/go/bin";
     "export GOPATH=/usr/local/bin/go-switcher/1.23.0/linux-amd64/workspace";
     "export GOROOT=/usr/local/bin/go-switcher/1.23.0/linux-amd64/go"].
Proof.
  exact (rewrite_times_lines 2 "PS1=$"
           "/usr/local/bin/go-switcher/1.23.0/linux-amd64" eq_refl).
Defined.

Lemma Join_app (l1 l2 : list string) (sep : string) :
  l1 <> [] -> l2 <> [] ->
  strings.Join (l1 ++ l2) sep
  = strings.Join l1 sep ++ sep ++ strings.Join l2 sep.
Proof.
  intros H1 H2. induction l1 as [|a l1 IH]; [contradiction|].
  destruct l1 as [|b l1].
  - destruct l2; [contradiction|reflexivity].
  - change (strings.Join ((a :: b :: l1) ++ l2) sep)
      with (a ++ sep ++ strings.Join ((b :: l1) ++ l2) sep).
    rewrite IH by discriminate.
    change (strings.Join (a :: b :: l1) sep)
      with (a ++ sep ++ strings.Join (b :: l1) sep).
    now rewrite !string_app_assoc.
Qed.

(** Joining what [Split] gave with the separator gives the string back. *)
Lemma Join_Split (s : string) (c : ascii) :
  strings.Join (strings.Split s c) (byte c) = s.
Proof.
  induction s as [|x s IH]; [reflexivity|]. cbn [strings.Split].
  pose proof (Split_not_nil s c) as Hne.
  destruct (Ascii.eqb_spec x c) as [->|Hx].
  - destruct (strings.Split s c) as [|l ls] eqn:Hs; [contradiction|].
    change (strings.Join ("" :: l :: ls) (byte c))
      with (String c (strings.Join (l :: ls) (byte c))).
    now rewrite IH.
  - destruct (strings.Split s c) as [|l ls] eqn:Hs; [contradiction|].
    destruct ls as [|l' ls].
    + cbn in IH |- *. now rewrite IH.
    + change (strings.Join (String x l :: l' :: ls) (byte c))
        with (String x (strings.Join (l :: l' :: ls) (byte c))).
      now rewrite IH.
Qed.

Lemma filter_none_keeps_all {A : Type} (p : A -> bool) (l : list A) :
  filter p l = [] -> filter (fun x => negb (p x)) l = l.
Proof.
  induction l as [|x l IH]; [reflexivity|]. simpl.
  destruct (p x); [discriminate|]. intros H. simpl. now rewrite IH.
Qed.

(** X13: a profile none of whose lines holds an export is kept byte for
    byte: the rewrite appends a line break and the block to it. *)
Theorem rewrite_appends_to_profile_without_exports (old versionDir : string) :
  export_lines old = [] ->
  rewrite old versionDir = old ++ nl ++ export_block versionDir.
Proof.
  intros Hnone. rewrite rewrite_is_rewrite_spec. unfold rewrite_spec.
  rewrite (filter_none_keeps_all _ _ Hnone).
  rewrite Join_app; [|apply Split_not_nil|discriminate].
  change nl with (byte "010") at 1. now rewrite Join_Split.
Qed.

Lemma rewrite_appends_to_profile_without_exports_witness :
  rewrite ("# profile" ++ nl ++ "PS1=$") "/opt/go"
  = "# profile" ++ nl ++ "PS1=$" ++ nl ++ nl ++ "# Go environment variables"
    ++ nl ++ "export PATH=$PATH:/opt/go/go/bin"
    ++ nl ++ "export GOPATH=/opt/go/workspace"
    ++ nl ++ "export GOROOT=/opt/go/go".
Proof.
  exact (rewrite_appends_to_profile_without_exports
           ("# profile" ++ nl ++ "PS1=$") "/opt/go" eq_refl).
Defined.

(** The profile before and after a switch that succeeds. *)
Lemma switchGoVersion_success_profile
  (cmd : Command) (config : Config) (versionOrNumber : string) (w : World) :
  fst (switchGoVersion cmd config versionOrNumber w) = None ->
  exists sel old,
    fst (switchGoVersion_resolve cmd config versionOrNumber w) = inr sel
    /\ fst (os.ReadFile (HOME w ++ "/.profile") w) = Ok old
    /\ fst (os.ReadFile (HOME w ++ "/.profile")
              (snd (switchGoVersion cmd config versionOrNumber w)))
       = Ok (rewrite old (versionDir sel)).
Proof.
  intros Hok.
  destruct (switchGoVersion_run cmd config versionOrNumber w) as [_ Hrun].
  rewrite Hok in Hrun.
  destruct (fst (switchGoVersion_resolve cmd config versionOrNumber w))
    as [e|sel]; [now destruct Hrun|].
  destruct (os.IsNotExist _); [now destruct Hrun|].
  destruct (tree.mkdirAll _ (fs w)) as [e|t] eqn:Hmk; [now destruct Hrun|].
  destruct (String.eqb (HOME w) ""); [now destruct Hrun|].
  destruct (tree.walk t _) as [e|[old|rd es]] eqn:Hwalk;
    try (now destruct Hrun).
  destruct Hrun as [_ Hfs]. exists sel, old. split; [reflexivity|].
  unfold os.ReadFile. cbn [fst]. rewrite Hfs.
  rewrite (mkdirAll_files _ _ _ _ _ Hmk Hwalk).
  rewrite (update_file_same _ _ old);
    [now split|rewrite components_profile|exact Hwalk].
  intros H. now apply app_eq_nil in H as [_ H].
Qed.

(** X12: whatever exports the profile held before (of another version, or
    the user's own), after a switch that succeeds for a version directory
    without a line break the lines with an export are exactly the three
    exports of the selected version, and the lines without an export are
    the old ones, in their order, followed by the blank line and the
    comment. *)
Theorem switch_leaves_only_selected_exports
  (cmd : Command) (config : Config) (versionOrNumber : string) (w : World)
  (sel : selection) :
  fst (switchGoVersion_resolve cmd config versionOrNumber w) = inr sel ->
  strings.Contains (versionDir sel) nl = false ->
  fst (switchGoVersion cmd config versionOrNumber w) = None ->
  exists old new,
    fst (os.ReadFile (HOME w ++ "/.profile") w) = Ok old
    /\ fst (os.ReadFile (HOME w ++ "/.profile")
              (snd (switchGoVersion cmd config versionOrNumber w))) = Ok new
    /\ export_lines new = export_triple (versionDir sel)
    /\ filter (fun line => negb (is_export_line line))
              (strings.Split new "010")
       = (filter (fun line => negb (is_export_line line))
                 (strings.Split old "010")
          ++ [""; "# Go environment variables"])%list.
Proof.
  intros Hsel Hd Hok.
  destruct (switchGoVersion_success_profile cmd config versionOrNumber w Hok)
    as (sel' & old & Hsel' & Hold & Hnew).
  rewrite Hsel in Hsel'. injection Hsel' as <-.
  exists old, (rewrite old (versionDir sel)).
  split; [exact Hold|]. split; [exact Hnew|].
  rewrite rewrite_is_rewrite_spec. split.
  - now apply export_lines_rewrite_spec.
  - rewrite (Split_rewrite_spec old _ Hd), !filter_app, filter_idem.
    rewrite export_triple_dropped, app_nil_r. reflexivity.
Qed.

Lemma switch_leaves_only_selected_exports_witness :
  exists new,
    fst (os.ReadFile "/home/gopher/.profile"
           (snd (switchGoVersion sample_cmd NewConfig "1.23.0" sample)))
    = Ok new
    /\ export_lines new
       = export_triple "/usr/local/bin/go-switcher/1.23.0/linux-amd64".
Proof.
  edestruct (switch_leaves_only_selected_exports sample_cmd NewConfig "1.23.0"
               sample) as (old & new & _ & Hnew & Hexports & _).
  - reflexivity.
  - reflexivity.
  - reflexivity.
  - exists new. split; [exact Hnew|exact Hexports].
Defined.

(** ** What stays as it is *)

Lemma assoc_del_entry_other (x c : string) (es : list (string * node)) :
  x <> c -> tree.assoc x (tree.del_entry c es) = tree.assoc x es.
Proof.
  intros Hx. unfold tree.del_entry.
  induction es as [|[k n] es IH]; [reflexivity|]. simpl.
  destruct (String.eqb_spec k c) as [->|Hk]; simpl.
  - destruct (String.eqb_spec c x); [congruence|assumption].
  - now rewrite IH.
Qed.

(** An update at a path leaves every file alone that is not at or below
    that path. *)
Lemma update_outside (cs q : list string) (f : option node -> option node)
  (n : node) (content : string) :
  (forall rest, q <> (cs ++ rest)%list) ->
  tree.walk n q = inr (File content) ->
  tree.walk (tree.update cs f n) q = inr (File content).
Proof.
  revert n q. induction cs as [|c cs IH]; intros n q Hout Hq; [exact Hq|].
  destruct n as [|r es]; [exact Hq|].
  destruct q as [|x q]; [discriminate|]. cbn [tree.walk] in Hq.
  destruct (tree.assoc x es) as [nx|] eqn:Hx; [|discriminate].
  cbn [tree.update]. destruct cs as [|c' cs].
  - destruct (String.eqb_spec x c) as [->|Hxc];
      [exfalso; now apply (Hout q)|].
    cbn [tree.walk].
    destruct (f (tree.assoc c es));
      [rewrite (assoc_set_entry_other _ _ _ _ Hxc)
      |rewrite (assoc_del_entry_other _ _ _ Hxc)];
      now rewrite Hx.
  - destruct (tree.assoc c es) as [ch|] eqn:Hc;
      [|cbn [tree.walk]; now rewrite Hx].
    cbn [tree.walk]. destruct (String.eqb_spec x c) as [->|Hxc].
    + rewrite assoc_set_entry_same. rewrite Hc in Hx. injection Hx as <-.
      apply IH; [|exact Hq].
      intros rest Hrest. apply (Hout rest). now rewrite Hrest.
    + rewrite (assoc_set_entry_other _ _ _ _ Hxc). now rewrite Hx.
Qed.

(** X16: whatever the outcome of a switch, every file other than the
    profile has afterwards the content it had before. *)
Theorem switch_changes_no_other_file
  (cmd : Command) (config : Config) (versionOrNumber : string) (w : World)
  (path content : string) :
  tree.components path <> tree.components (HOME w ++ "/.profile") ->
  fst (os.ReadFile path w) = Ok content ->
  fst (os.ReadFile path (snd (switchGoVersion cmd config versionOrNumber w)))
  = Ok content.
Proof.
  intros Hother Hread.
  assert (Hfile : tree.walk (fs w) (tree.components path)
                  = inr (File content)).
  { unfold os.ReadFile in Hread. cbn [fst] in Hread.
    destruct (tree.walk (fs w) (tree.components path)) as [e|[c|r es]];
      try discriminate. now injection Hread as ->. }
  assert (Hdone : forall t,
             tree.walk t (tree.components path) = inr (File content) ->
             fs (snd (switchGoVersion cmd config versionOrNumber w)) = t ->
             fst (os.ReadFile path
                    (snd (switchGoVersion cmd config versionOrNumber w)))
             = Ok content).
  { intros t Ht Hfs. unfold os.ReadFile. cbn [fst]. now rewrite Hfs, Ht. }
  destruct (switchGoVersion_run cmd config versionOrNumber w) as [_ Hrun].
  destruct (fst (switchGoVersion_resolve cmd config versionOrNumber w))
    as [e|sel]; [destruct Hrun as [_ Hfs]; now apply (Hdone (fs w))|].
  destruct (os.IsNotExist _);
    [destruct Hrun as [_ Hfs]; now apply (Hdone (fs w))|].
  destruct (tree.mkdirAll _ (fs w)) as [e|t] eqn:Hmk;
    [destruct Hrun as [_ Hfs]; now apply (Hdone (fs w))|].
  pose proof (mkdirAll_old _ _ _ _ _ Hmk Hfile) as Hkept. cbn in Hkept.
  destruct (String.eqb (HOME w) "");
    [destruct Hrun as [_ Hfs]; now apply (Hdone t)|].
  destruct (tree.walk t (tree.components (HOME w ++ "/.profile")))
    as [e|[old|rd es]] eqn:Hprofile;
    try (destruct Hrun as [_ Hfs]; now apply (Hdone t)).
  destruct Hrun as [_ Hfs]. eapply Hdone; [|exact Hfs].
  apply update_outside; [|exact Hkept].
  intros rest Hrest. destruct rest as [|x rest].
  - rewrite app_nil_r in Hrest. contradiction.
  - rewrite Hrest, walk_app, Hprofile in Hkept. discriminate.
Qed.

Lemma switch_changes_no_other_file_witness :
  fst (os.ReadFile "/usr/local/bin/go-switcher/README"
         (snd (switchGoVersion sample_cmd NewConfig "2" sample)))
  = Ok "versions".
Proof.
  apply (switch_changes_no_other_file sample_cmd NewConfig "2" sample).
  - vm_compute. discriminate.
  - reflexivity.
Defined.

(** Removing an entry of the root leaves every file alone that is not
    below the root. *)
Lemma RemoveAll_outside (root name : string) (w : World) (q : list string)
  (content : string) :
  tree.valid_name name = true ->
  (forall rest, q <> (tree.components root ++ rest)%list) ->
  tree.walk (fs w) q = inr (File content) ->
  tree.walk (fs (snd (os.RemoveAll (root ++ "/" ++ name) w))) q
  = inr (File content).
Proof.
  intros Hv Hout Hq. unfold os.RemoveAll.
  rewrite (components_child root name Hv).
  unfold tree.valid_name in Hv.
  apply andb_prop in Hv as [Hv Hslash]. apply andb_prop in Hv as [Hv _].
  apply andb_prop in Hv as [_ Hdot]. apply negb_true_iff in Hslash, Hdot.
  rewrite (last_Split_child root name Hslash), Hdot.
  change (root ++ "/" ++ name) with (root ++ String "/" name).
  rewrite append_not_empty.
  destruct (tree.walk (fs w) (tree.components root ++ [name]))
    as [[]|n]; try exact Hq.
  destruct (tree.components root ++ [name])%list as [|c cs] eqn:Hcs;
    [now destruct (tree.components root)|].
  unfold bind, os.set_fs, ret. cbn [fst snd fs]. rewrite <- Hcs.
  apply update_outside; [|exact Hq].
  intros rest Hrest. apply (Hout ([name] ++ rest)%list).
  now rewrite Hrest, <- app_assoc.
Qed.

Lemma clean_loop_outside (config : Config) (l : list DirEntry) (w : World)
  (q : list string) (content : string) :
  Forall (fun fi => tree.valid_name (Name fi) = true) l ->
  (forall rest, q <> (tree.components (GoDownloadDir config) ++ rest)%list) ->
  tree.walk (fs w) q = inr (File content) ->
  tree.walk
    (fs (snd (for_range l (cleanGoVersions_remove config) tt w))) q
  = inr (File content).
Proof.
  intros Hv Hout. revert w. induction l as [|fi l IH]; intros w Hq;
    [exact Hq|].
  inversion Hv as [|? ? Hfi Hl]; subst.
  cbn [for_range]. rewrite (bind_run _ _ w).
  assert (Hstep : tree.walk
                    (fs (snd (cleanGoVersions_remove config fi tt w))) q
                  = inr (File content)).
  { unfold cleanGoVersions_remove. destruct (IsDir fi); cbn [negb];
      [|exact Hq].
    rewrite (bind_run _ _ w). cbn [fmt.Printf].
    set (w1 := mkWorld _ _ _ _ _ _). rewrite (bind_run _ _ w1).
    pose proof (RemoveAll_outside (GoDownloadDir config) (Name fi) w1 q
                  content Hfi Hout Hq) as Hrm.
    destruct (os.RemoveAll _ w1) as [[err|] w2]; exact Hrm. }
  destruct (cleanGoVersions_remove config fi tt w) as [[] w1].
  now apply IH.
Qed.

(** X15: on a well-formed file system [cleanGoVersions] changes no file
    that is not below the root: a file whose path does not go through the
    root, such as the profile, has afterwards the content it had
    before. *)
Theorem clean_changes_no_file_outside_root
  (config : Config) (w : World) (path content : string) :
  tree.wf (fs w) = true ->
  (forall rest,
      tree.components path
      <> (tree.components (GoDownloadDir config) ++ rest)%list) ->
  fst (os.ReadFile path w) = Ok content ->
  fst (os.ReadFile path (snd (cleanGoVersions config w))) = Ok content.
Proof.
  intros Hwf Hout Hread.
  assert (Hfile : tree.walk (fs w) (tree.components path)
                  = inr (File content)).
  { unfold os.ReadFile in Hread. cbn [fst] in Hread.
    destruct (tree.walk (fs w) (tree.components path)) as [e|[c|r es]];
      try discriminate. now injection Hread as ->. }
  assert (Hdone : forall w',
             tree.walk (fs w') (tree.components path) = inr (File content) ->
             fst (os.ReadFile path w') = Ok content).
  { intros w' Hw'. unfold os.ReadFile. cbn [fst]. now rewrite Hw'. }
  apply Hdone. unfold cleanGoVersions. rewrite (bind_run _ _ w).
  cbn [fmt.Printf]. set (w1 := mkWorld _ _ _ _ _ _).
  rewrite (bind_run _ _ w1). run_read.
  destruct (os.IsNotExist _); [exact Hfile|].
  rewrite (bind_run _ _ w1). run_read.
  destruct (fst (os.ReadDir (GoDownloadDir config) w1)) as [dir|err] eqn:Hdir;
    [|exact Hfile].
  destruct (len dir =? 0)%Z; [exact Hfile|].
  rewrite (bind_run _ _ w1).
  assert (Hnames : Forall (fun fi => tree.valid_name (Name fi) = true) dir).
  { destruct (ReadDir_entries _ w1 dir Hwf Hdir) as (es & _ & Hwfroot & Hes).
    destruct (wf_names _ _ Hwfroot) as [Hvalid _].
    rewrite Forall_forall in Hvalid. apply Forall_forall. intros fi Hfi.
    apply Hes in Hfi as (n & Hin & _).
    exact (Hvalid _ (in_map fst _ _ Hin)). }
  pose proof (clean_loop_outside config dir w1 _ content Hnames Hout Hfile)
    as Hloop.
  destruct (for_range dir (cleanGoVersions_remove config) tt w1) as [[] w2].
  exact Hloop.
Qed.

Lemma clean_changes_no_file_outside_root_witness :
  fst (os.ReadFile "/home/gopher/.profile"
         (snd (cleanGoVersions NewConfig sample)))
  = fst (os.ReadFile "/home/gopher/.profile" sample).
Proof.
  rewrite (clean_changes_no_file_outside_root NewConfig sample
             "/home/gopher/.profile"
             ("# profile" ++ nl ++ "export GOROOT=/opt/go" ++ nl ++ "PS1=$")).
  - reflexivity.
  - reflexivity.
  - intros rest. vm_compute. discriminate.
  - reflexivity.
Defined.

(** ** A sweep that does not stop *)

Lemma RemoveAll_stdout (path : string) (w : World) :
  stdout (snd (os.RemoveAll path w)) = stdout w.
Proof.
  unfold os.RemoveAll.
  destruct (String.eqb path ""); [reflexivity|].
  destruct (String.eqb _ "."); [reflexivity|].
  destruct (tree.walk _ _) as [[]|n]; reflexivity.
Qed.

Lemma clean_loop_stdout (config : Config) (l : list DirEntry) (w : World) :
  stdout (snd (for_range l (cleanGoVersions_remove config) tt w))
  = (stdout w
     ++ map removing (filter IsDir l))%list.
Proof.
  revert w. induction l as [|fi l IH]; intros w.
  - cbn. now rewrite app_nil_r.
  - cbn [for_range filter]. rewrite (bind_run _ _ w).
    assert (Hstep : stdout (snd (cleanGoVersions_remove config fi tt w))
                    = (stdout w
                       ++ (if IsDir fi then [removing fi] else []))%list).
    { unfold cleanGoVersions_remove. destruct (IsDir fi); cbn [negb].
      - rewrite (bind_run _ _ w). cbn [fmt.Printf].
        set (w1 := mkWorld _ _ _ _ _ _). rewrite (bind_run _ _ w1).
        pose proof (RemoveAll_stdout
                      (GoDownloadDir config ++ "/" ++ Name fi) w1) as Hrm.
        destruct (os.RemoveAll _ w1) as [[err|] w2]; cbn [snd] in *;
          cbn [log.Printf ret snd stdout]; rewrite Hrm; reflexivity.
      - cbn. now rewrite app_nil_r. }
    destruct (cleanGoVersions_remove config fi tt w) as [[] w1].
    cbn [snd] in Hstep. rewrite IH, Hstep.
    destruct (IsDir fi); cbn [map]; rewrite <- app_assoc; reflexivity.
Qed.

(** X14: once the root has been listed [cleanGoVersions] returns no error,
    whether or not the removals succeed, and a removal that fails does
    not stop the sweep: it announces every directory under the root, in
    the order of the listing, and then the end of the cleanup. *)
Theorem clean_sweeps_every_directory (config : Config) (w : World)
  (dir : list DirEntry) :
  fst (os.ReadDir (GoDownloadDir config) w) = Ok dir ->
  dir <> [] ->
  fst (cleanGoVersions config w) = None
  /\ stdout (snd (cleanGoVersions config w))
     = (stdout w ++ [cleaning config] ++ map removing (filter IsDir dir)
        ++ ["= Cleanup completed =" ++ nl]%string)%list.
Proof.
  intros Hdir Hne.
  pose proof (ReadDir_Ok_Stat _ _ _ Hdir) as Hstat.
  unfold cleanGoVersions. rewrite (bind_run _ _ w). cbn [fmt.Printf].
  set (w1 := mkWorld _ _ _ _ _ _).
  rewrite (bind_run _ _ w1). run_read.
  rewrite (Stat_same_fs _ w w1 eq_refl), Hstat.
  rewrite (bind_run _ _ w1). run_read.
  rewrite (ReadDir_same_fs _ w w1 eq_refl), Hdir.
  destruct (Z.eqb_spec (len dir) 0) as [Hlen|_].
  { unfold len in Hlen. destruct dir; [contradiction|discriminate]. }
  rewrite (bind_run _ _ w1).
  pose proof (clean_loop_stdout config dir w1) as Hout.
  destruct (for_range dir (cleanGoVersions_remove config) tt w1) as [[] w2].
  cbn [snd] in Hout. rewrite (bind_run _ _ w2).
  cbn [fmt.Println fmt.Printf ret fst snd stdout]. split; [reflexivity|].
  rewrite Hout. subst w1. cbn [stdout]. now rewrite <- !app_assoc.
Qed.

(** On the sample machine the removal of [1.22.0] fails, because one of
    its directories cannot be listed; the clean goes on to [1.23.0] and
    returns no error. *)
Lemma clean_sweeps_every_directory_witness :
  fst (cleanGoVersions NewConfig sample) = None
  /\ stdout (snd (cleanGoVersions NewConfig sample))
     = ["= Removing all Go versions from /usr/local/bin/go-switcher =" ++ nl;
        "Removing version: 1.22.0" ++ nl;
        "Removing version: 1.23.0" ++ nl;
        "= Cleanup completed =" ++ nl]
  /\ logged (snd (cleanGoVersions NewConfig sample))
     = ["Warning: failed to remove /usr/local/bin/go-switcher/1.22.0: openfdat /usr/local/bin/go-switcher/1.22.0: permission denied"].
Proof.
  edestruct (clean_sweeps_every_directory NewConfig sample) as (Hnil & Hout).
  - reflexivity.
  - discriminate.
  - split; [exact Hnil|]. split; [exact Hout|reflexivity].
Defined.

(** ** After a clean *)

(** What is listed under the root after a clean that logged no failed
    removal. *)
Lemma clean_success_listing
  (config : Config) (w : World) (dir : list DirEntry) :
  tree.wf (fs w) = true ->
  fst (os.ReadDir (GoDownloadDir config) w) = Ok dir ->
  let w' := snd (cleanGoVersions config w) in
  logged w' = logged w ->
  fst (cleanGoVersions config w) = None
  /\ exists dir',
      fst (os.ReadDir (GoDownloadDir config) w') = Ok dir'
      /\ forall e, In e dir' <-> In e dir /\ IsDir e = false.
Proof.
  intros Hwf Hdir w'. subst w'.
  pose proof (ReadDir_Ok_Stat _ _ _ Hdir) as Hstat.
  unfold cleanGoVersions, bind. cbn [fmt.Printf].
  set (w1 := mkWorld _ _ _ _ _ _).
  run_read. rewrite (Stat_same_fs _ w w1 eq_refl), Hstat.
  run_read. rewrite (ReadDir_same_fs _ w w1 eq_refl), Hdir.
  destruct (len dir =? 0)%Z eqn:Hlen.
  { intros _. split; [reflexivity|]. exists dir. cbn [fmt.Println fmt.Printf snd].
    rewrite <- Hdir. split; [reflexivity|].
    apply Z.eqb_eq in Hlen. destruct dir; [|discriminate].
    intros e. simpl. intuition. }
  unfold os.ReadDir in Hdir. cbn [fst] in Hdir.
  destruct (tree.walk (fs w) (tree.components (GoDownloadDir config)))
    as [e|[content|[|] es]] eqn:Hroot; try discriminate.
  injection Hdir as <-.
  destruct (wf_names _ _ (wf_walk _ _ _ Hwf Hroot)) as [Hvalid Hnodup].
  assert (Hnames : Forall (fun fi => tree.valid_name (Name fi) = true)
                     (os.sort_by_name (map os.entry_of es))).
  { apply Forall_forall. intros fi Hfi.
    apply In_sort_by_name, in_map_iff in Hfi as ([k n] & <- & Hin).
    rewrite Forall_forall in Hvalid. apply Hvalid.
    now apply (in_map fst) in Hin. }
  pose proof (clean_loop_removes config _ w1 es Hnames Hroot) as Hloop.
  destruct (for_range _ (cleanGoVersions_remove config) tt w1) as [[] w2].
  cbn [fmt.Println fmt.Printf ret fst snd logged] in *.
  intros Hlog. specialize (Hloop Hlog). split; [reflexivity|].
  unfold os.ReadDir. cbn [fst fs]. rewrite Hloop.
  eexists. split; [reflexivity|].
  intros e. rewrite !In_sort_by_name, !in_map_iff. split.
  - intros ([k n] & <- & Hin). apply In_removed in Hin as [Hin Hkept].
    split; [now exists (k, n)|].
    destruct (IsDir (os.entry_of (k, n))) eqn:Hd; [|reflexivity].
    exfalso. apply (Hkept (os.entry_of (k, n))); [|assumption|reflexivity].
    apply In_sort_by_name, in_map. exact Hin.
  - intros [([k n] & <- & Hin) Hfile]. exists (k, n). split; [reflexivity|].
    apply In_removed. split; [assumption|].
    intros fi Hfi Hd Hname.
    apply In_sort_by_name, in_map_iff in Hfi as ([k' n'] & <- & Hin').
    cbn [os.entry_of Name fst snd IsDir] in *. subst k'.
    rewrite (NoDup_names_unique es k n n' Hnodup Hin Hin') in Hfile.
    congruence.
Qed.

Lemma no_directories_no_pairs (config : Config) (dir : list DirEntry)
  (w : World) :
  (forall fi, In fi dir -> IsDir fi = false) ->
  installed_pairs config dir w = [].
Proof.
  induction dir as [|fi dir IH]; intros H; [reflexivity|].
  cbn [installed_pairs flat_map]. fold (installed_pairs config dir w).
  rewrite (H fi (or_introl eq_refl)), IH; [reflexivity|].
  intros fi' Hfi'. apply H. now right.
Qed.

Lemma switchGoVersion_resolve_empty (cmd : Command) (config : Config)
  (versionOrNumber : string) (w : World) (dir : list DirEntry) :
  fst (os.ReadDir (GoDownloadDir config) w) = Ok dir ->
  versions (fst (switchGoVersion_scan config dir w)) = [] ->
  fst (switchGoVersion_resolve cmd config versionOrNumber w)
  = inl ErrNoVersions.
Proof.
  intros Hdir Hnone. unfold switchGoVersion_resolve.
  rewrite (bind_run _ _ w). run_read. cbn [fst] in Hdir. rewrite Hdir.
  rewrite (bind_run _ _ w).
  destruct (switchGoVersion_scan config dir w) as [f w1].
  cbn [fst] in Hnone. now rewrite Hnone.
Qed.

Lemma listGoVersions_nothing_found (cmd : Command) (config : Config)
  (w : World) (dir : list DirEntry) :
  fst (os.ReadDir (GoDownloadDir config) w) = Ok dir ->
  (forall v, fs v = fs w ->
             versions (fst (switchGoVersion_scan config dir v)) = []) ->
  fst (listGoVersions cmd config w) = None
  /\ exists before,
      stdout (snd (listGoVersions cmd config w))
      = (before ++ ["No Go versions found" ++ nl]%string)%list.
Proof.
  intros Hdir Hnone.
  pose proof (ReadDir_Ok_Stat _ _ _ Hdir) as Hstat.
  unfold listGoVersions. rewrite (bind_run _ _ w). cbn [fmt.Printf].
  set (w1 := mkWorld _ _ _ _ _ _).
  rewrite (bind_run _ _ w1). run_read.
  rewrite (Stat_same_fs _ w w1 eq_refl), Hstat.
  rewrite (bind_run _ _ w1). run_read.
  rewrite (ReadDir_same_fs _ w w1 eq_refl), Hdir.
  rewrite (bind_run _ _ w1).
  pose proof (Hnone w1 eq_refl) as Hempty.
  rewrite (scans_agree config dir w1 w1 eq_refl) in Hempty.
  destruct (listGoVersions_scan config dir w1) as [f w2].
  cbn [fst] in Hempty. rewrite Hempty.
  cbn [len List.length Z.of_nat Z.eqb]. rewrite (bind_run _ _ w2).
  cbn [fmt.Println fmt.Printf ret fst snd stdout].
  split; [reflexivity|]. now exists (stdout w2).
Qed.

(** X17: on a well-formed file system, after a clean that logged no failed
    removal the store is empty for the other operations: a switch fails
    with "no Go versions found", whatever its argument, and a list
    returns no error and ends its output with "No Go versions found". *)
Theorem clean_then_nothing_is_installed
  (cmd : Command) (config : Config) (versionOrNumber : string) (w : World)
  (dir : list DirEntry) :
  tree.wf (fs w) = true ->
  fst (os.ReadDir (GoDownloadDir config) w) = Ok dir ->
  let w' := snd (cleanGoVersions config w) in
  logged w' = logged w ->
  fst (switchGoVersion cmd config versionOrNumber w') = Some ErrNoVersions
  /\ fst (listGoVersions cmd config w') = None
  /\ exists before,
      stdout (snd (listGoVersions cmd config w'))
      = (before ++ ["No Go versions found" ++ nl]%string)%list.
Proof.
  intros Hwf Hdir w' Hlog.
  destruct (clean_success_listing config w dir Hwf Hdir Hlog)
    as (_ & dir' & Hdir' & Hfiles). fold w' in Hdir'.
  assert (Hnone : forall v, fs v = fs w' ->
                    versions (fst (switchGoVersion_scan config dir' v)) = []).
  { intros v Hv.
    destruct (switchGoVersion_scan_pairs config dir' v) as (Hversions & _).
    rewrite Hversions, no_directories_no_pairs; [reflexivity|].
    intros fi Hfi. now apply Hfiles in Hfi. }
  split; [|split].
  - destruct (switchGoVersion_run cmd config versionOrNumber w') as [_ Hrun].
    rewrite (switchGoVersion_resolve_empty cmd config versionOrNumber w' dir'
               Hdir' (Hnone w' eq_refl)) in Hrun.
    now destruct Hrun.
  - exact (proj1 (listGoVersions_nothing_found cmd config w' dir' Hdir'
                    Hnone)).
  - exact (proj2 (listGoVersions_nothing_found cmd config w' dir' Hdir'
                    Hnone)).
Qed.

Lemma clean_then_nothing_is_installed_witness :
  fst (switchGoVersion sample_cmd NewConfig "1"
         (snd (cleanGoVersions NewConfig store_with_file)))
  = Some ErrNoVersions.
Proof.
  edestruct (clean_then_nothing_is_installed sample_cmd NewConfig "1"
               store_with_file) as (Hswitch & _).
  - reflexivity.
  - reflexivity.
  - reflexivity.
  - exact Hswitch.
Defined.

(** ** The annotations of a listing *)

(** X2: when [listGoVersions] finds something it leaves the three slices
    in the annotations of the root command, each joined with commas; as
    long as no version, architecture or path holds a comma, splitting an
    annotation at the commas gives the slice back. *)
Theorem list_annotations_split_back (cmd : Command) (config : Config)
  (w : World) (dir : list DirEntry) :
  fst (os.ReadDir (GoDownloadDir config) w) = Ok dir ->
  let f := fst (listGoVersions_scan config dir w) in
  versions f <> [] ->
  Forall (fun s => strings.Contains s "," = false)
         (versions f ++ architectures f ++ paths f) ->
  exists vs archs ps,
    Annotations (snd (listGoVersions cmd config w))
    = [("versions", vs); ("architectures", archs); ("paths", ps)]
    /\ strings.Split vs "," = versions f
    /\ strings.Split archs "," = architectures f
    /\ strings.Split ps "," = paths f.
Proof.
  intros Hdir f Hne Hfree.
  apply Forall_app in Hfree as [Hv Hfree].
  apply Forall_app in Hfree as [Ha Hp].
  assert (Hf : fst (switchGoVersion_scan config dir w) = f)
    by now apply scans_agree.
  destruct (switchGoVersion_scan_lengths config dir w) as [Hla Hlp].
  rewrite Hf in Hla, Hlp.
  exists (strings.Join (versions f) ","), (strings.Join (architectures f) ","),
    (strings.Join (paths f) ",").
  split.
  - pose proof (ReadDir_Ok_Stat _ _ _ Hdir) as Hstat.
    unfold listGoVersions. rewrite (bind_run _ _ w). cbn [fmt.Printf].
    set (w1 := mkWorld _ _ _ _ _ _).
    rewrite (bind_run _ _ w1). run_read.
    rewrite (Stat_same_fs _ w w1 eq_refl), Hstat.
    rewrite (bind_run _ _ w1). run_read.
    rewrite (ReadDir_same_fs _ w w1 eq_refl), Hdir.
    rewrite (bind_run _ _ w1).
    assert (Hsame : fst (listGoVersions_scan config dir w1) = f).
    { unfold f. rewrite <- (scans_agree config dir w1 w1 eq_refl).
      now apply scans_agree. }
    destruct (listGoVersions_scan config dir w1) as [f' w2].
    cbn [fst] in Hsame. subst f'.
    destruct (Z.eqb_spec (len (versions f)) 0) as [Hlen|_].
    { unfold len in Hlen. destruct (versions f); [contradiction|discriminate]. }
    rewrite (bind_run _ _ w2).
    destruct (for_range _ _ tt w2) as [u w3].
    rewrite (bind_run _ _ w3). reflexivity.
  - change ","%string with (byte ",") in *.
    repeat split; apply Split_Join; try assumption.
    + intros H. rewrite H in Hla. destruct (versions f);
        [contradiction|discriminate].
    + intros H. rewrite H in Hlp. destruct (versions f);
        [contradiction|discriminate].
Qed.

Lemma list_annotations_split_back_witness :
  exists vs,
    In ("versions", vs) (Annotations (snd (listGoVersions sample_cmd NewConfig sample)))
    /\ strings.Split vs "," = ["1.22.0"; "1.22.0"; "1.23.0"].
Proof.
  edestruct (list_annotations_split_back sample_cmd NewConfig sample)
    as (vs & archs & ps & Hann & Hvs & _).
  - reflexivity.
  - vm_compute. discriminate.
  - vm_compute. repeat constructor.
  - exists vs. split; [rewrite Hann; now left|exact Hvs].
Defined.

(** ** Every installed directory is found *)

Lemma In_nth_maps {A B C D : Type} (f : A -> B) (g : A -> C) (h : A -> D)
  (l : list A) (x : A) :
  In x l ->
  exists i, nth_error (map f l) i = Some (f x)
            /\ nth_error (map g l) i = Some (g x)
            /\ nth_error (map h l) i = Some (h x).
Proof.
  intros H. apply In_nth_error in H as [i Hi]. exists i.
  now rewrite !nth_error_map, Hi.
Qed.

(** X5: the scan misses nothing that it can reach: when the listing of
    the root has the directory [v], [<root>/<v>] can be listed and its
    listing has the directory [a], each of them a directory itself as
    [DirEntry.IsDir] of its entry tells, then the version [v], the
    architecture [a] and the path [<root>/<v>/<a>] are among the entries
    that [switchGoVersion] and [listGoVersions] find, at one and the same
    position of the three slices. *)
Theorem installed_directory_is_found (config : Config) (w : World)
  (dir archDirs : list DirEntry) (v a : string) :
  fst (os.ReadDir (GoDownloadDir config) w) = Ok dir ->
  In (mkDirEntry v true) dir ->
  fst (os.ReadDir (GoDownloadDir config ++ "/" ++ v) w) = Ok archDirs ->
  In (mkDirEntry a true) archDirs ->
  let f := fst (switchGoVersion_scan config dir w) in
  (exists i,
      nth_error (versions f) i = Some v
      /\ nth_error (architectures f) i = Some a
      /\ nth_error (paths f) i
         = Some (GoDownloadDir config ++ "/" ++ v ++ "/" ++ a))
  /\ fst (listGoVersions_scan config dir w) = f.
Proof.
  intros _ Hv Harch Ha f.
  split; [|symmetry; now apply scans_agree].
  destruct (switchGoVersion_scan_pairs config dir w) as (Hvs & Has & Hps).
  fold f in Hvs, Has, Hps. rewrite Hvs, Has, Hps.
  apply (In_nth_maps fst snd (path_of config) _ (v, a)).
  apply in_flat_map. exists (mkDirEntry v true). split; [exact Hv|].
  cbn [IsDir Name]. rewrite Harch.
  apply in_map_iff. exists (mkDirEntry a true). split; [reflexivity|].
  apply filter_In. now split.
Qed.

Lemma installed_directory_is_found_witness :
  exists i,
    nth_error (versions (fst (switchGoVersion_scan NewConfig
                                [mkDirEntry "1.22.0" true;
                                 mkDirEntry "1.23.0" true;
                                 mkDirEntry "README" false] sample))) i
    = Some "1.22.0"
    /\ nth_error (architectures (fst (switchGoVersion_scan NewConfig
                                        [mkDirEntry "1.22.0" true;
                                         mkDirEntry "1.23.0" true;
                                         mkDirEntry "README" false] sample))) i
       = Some "darwin-amd64".
Proof.
  edestruct (installed_directory_is_found NewConfig sample
               [mkDirEntry "1.22.0" true; mkDirEntry "1.23.0" true;
                mkDirEntry "README" false]
               [mkDirEntry "darwin-amd64" true; mkDirEntry "linux-amd64" true]
               "1.22.0" "darwin-amd64") as ((i & Hv & Ha & _) & _).
  - reflexivity.
  - now left.
  - reflexivity.
  - now left.
  - exists i. now split.
Defined.

(** ** A name or its number *)

(** The first part of [switchGoVersion] once the root has been listed. *)
Lemma switchGoVersion_resolve_run (cmd : Command) (config : Config)
  (versionOrNumber : string) (w : World) (dir : list DirEntry) :
  fst (os.ReadDir (GoDownloadDir config) w) = Ok dir ->
  switchGoVersion_resolve cmd config versionOrNumber w
  = (let f := fst (switchGoVersion_scan config dir w) in
     if (len (versions f) =? 0)%Z then inl ErrNoVersions
     else
       match strconv.Atoi versionOrNumber with
       | Some num =>
           if (num <? 1)%Z || (num >? len (versions f))%Z then
             inl (ErrInvalidNumber (len (versions f)))
           else
             inr (mkSelection (index (versions f) (num - 1))
                              (index (architectures f) (num - 1))
                              (index (paths f) (num - 1)))
       | None =>
           inr (mkSelection versionOrNumber (flag_arch cmd)
                  (GoDownloadDir config ++ "/" ++ versionOrNumber ++ "/"
                   ++ flag_arch cmd))
       end,
     snd (switchGoVersion_scan config dir w)).
Proof.
  intros Hdir. unfold switchGoVersion_resolve.
  rewrite (bind_run _ _ w). run_read. cbn [fst] in Hdir. rewrite Hdir.
  rewrite (bind_run _ _ w).
  destruct (switchGoVersion_scan config dir w) as [f w1]. cbn [fst snd].
  destruct (len (versions f) =? 0)%Z; [reflexivity|].
  destruct (strconv.Atoi versionOrNumber) as [num|]; [|reflexivity].
  now destruct ((num <? 1)%Z || (num >? len (versions f))%Z).
Qed.

(** X18: a version can be named or numbered: when entry [i] of the scan
    has the version [name] (which is no number) and the architecture of
    the [--arch] flag, the switch to [name] and the switch to an argument
    that reads as [i + 1] are the same run, with the same result and the
    same effects. *)
Theorem switch_by_name_or_by_number
  (cmd : Command) (config : Config) (name number : string) (i : nat)
  (w : World) (dir : list DirEntry) :
  fst (os.ReadDir (GoDownloadDir config) w) = Ok dir ->
  strconv.Atoi name = None ->
  strconv.Atoi number = Some (Z.of_nat i + 1)%Z ->
  (i < List.length (versions (fst (switchGoVersion_scan config dir w))))%nat ->
  index (versions (fst (switchGoVersion_scan config dir w))) (Z.of_nat i)
  = name ->
  index (architectures (fst (switchGoVersion_scan config dir w))) (Z.of_nat i)
  = flag_arch cmd ->
  switchGoVersion cmd config name w = switchGoVersion cmd config number w.
Proof.
  intros Hdir Hname Hnumber Hi Hversion Harch.
  unfold switchGoVersion. rewrite !(bind_run _ _ w).
  rewrite (switchGoVersion_resolve_run cmd config name w dir Hdir).
  rewrite (switchGoVersion_resolve_run cmd config number w dir Hdir).
  cbv zeta. rewrite Hname, Hnumber.
  destruct (switchGoVersion_scan_pairs config dir w) as (Hv & Ha & Hp).
  set (f := fst (switchGoVersion_scan config dir w)) in *.
  set (pairs := installed_pairs config dir w) in *.
  assert (Hlen : List.length pairs = List.length (versions f))
    by now rewrite Hv, length_map.
  destruct (Z.eqb_spec (len (versions f)) 0) as [H0|_];
    [unfold len in H0; lia|].
  destruct (Z.ltb_spec (Z.of_nat i + 1) 1); [lia|].
  destruct (Z.gtb_spec (Z.of_nat i + 1) (len (versions f))) as [Hgt|_];
    [unfold len in Hgt; lia|].
  cbn [orb]. replace (Z.of_nat i + 1 - 1)%Z with (Z.of_nat i) by lia.
  rewrite Hversion, Harch.
  assert (Hpath : index (paths f) (Z.of_nat i)
                  = GoDownloadDir config ++ "/" ++ name ++ "/" ++ flag_arch cmd).
  { unfold index in *. rewrite Nat2Z.id in *.
    rewrite Hv in Hversion. rewrite Ha in Harch. rewrite Hp.
    rewrite (nth_indep _ "" (fst ("", ""))) in Hversion
      by (rewrite length_map; lia).
    rewrite (nth_indep _ "" (snd ("", ""))) in Harch
      by (rewrite length_map; lia).
    rewrite (nth_indep _ "" (path_of config ("", "")))
      by (rewrite length_map; lia).
    rewrite map_nth in *. unfold path_of. now rewrite Hversion, Harch. }
  now rewrite Hpath.
Qed.

Lemma switch_by_name_or_by_number_witness :
  switchGoVersion sample_cmd NewConfig "1.23.0" sample
  = switchGoVersion sample_cmd NewConfig "3" sample.
Proof.
  eapply (switch_by_name_or_by_number sample_cmd NewConfig "1.23.0" "3" 2
            sample).
  - reflexivity.
  - reflexivity.
  - reflexivity.
  - vm_compute. repeat constructor.
  - reflexivity.
  - reflexivity.
Defined.

(** ** Cleaning twice *)

Lemma clean_loop_files_only (config : Config) (l : list DirEntry) (w : World) :
  (forall fi, In fi l -> IsDir fi = false) ->
  for_range l (cleanGoVersions_remove config) tt w = (tt, w).
Proof.
  revert w. induction l as [|fi l IH]; intros w H; [reflexivity|].
  cbn [for_range]. rewrite (bind_run _ _ w).
  unfold cleanGoVersions_remove at 1.
  rewrite (H fi (or_introl eq_refl)). cbn [negb ret].
  apply IH. intros fi' Hfi'. apply H. now right.
Qed.

(** X19: on a well-formed file system a second clean after one that
    logged no failed removal finds nothing to remove: it returns no error
    and leaves the file system and the log as the first one left them. *)
Theorem clean_twice_changes_nothing_more (config : Config) (w : World)
  (dir : list DirEntry) :
  tree.wf (fs w) = true ->
  fst (os.ReadDir (GoDownloadDir config) w) = Ok dir ->
  let w' := snd (cleanGoVersions config w) in
  logged w' = logged w ->
  fst (cleanGoVersions config w') = None
  /\ fs (snd (cleanGoVersions config w')) = fs w'
  /\ logged (snd (cleanGoVersions config w')) = logged w'.
Proof.
  intros Hwf Hdir w' Hlog.
  destruct (clean_success_listing config w dir Hwf Hdir Hlog)
    as (_ & dir' & Hdir' & Hfiles). fold w' in Hdir'.
  pose proof (ReadDir_Ok_Stat _ _ _ Hdir') as Hstat.
  unfold cleanGoVersions. rewrite !(bind_run _ _ w').
  cbn [fmt.Printf]. set (w1 := mkWorld _ _ _ _ _ _).
  rewrite !(bind_run _ _ w1). run_read.
  rewrite (Stat_same_fs _ w' w1 eq_refl), Hstat.
  rewrite !(bind_run _ _ w1). run_read.
  rewrite (ReadDir_same_fs _ w' w1 eq_refl), Hdir'.
  destruct (len dir' =? 0)%Z; [now repeat split|].
  rewrite !(bind_run _ _ w1), clean_loop_files_only;
    [now repeat split|].
  intros fi Hfi. now apply Hfiles in Hfi.
Qed.

Lemma clean_twice_changes_nothing_more_witness :
  fs (snd (cleanGoVersions NewConfig
             (snd (cleanGoVersions NewConfig store_with_file))))
  = fs (snd (cleanGoVersions NewConfig store_with_file)).
Proof.
  edestruct (clean_twice_changes_nothing_more NewConfig store_with_file)
    as (_ & Hfs & _).
  - reflexivity.
  - reflexivity.
  - reflexivity.
  - exact Hfs.
Defined.
